(** * birt-convert: decimal hours to hh:mm conversion of CSV / XLSX exports

    A shallow embedding of the parsing and conversion core of the
    repository (lib/csvParser.ts and lib/xlsxParser.ts), of the column
    selection (components/ColumnSelector.vue) and of the file names of
    components/UploadForm.vue, together with the properties stated about
    them.

    Conventions of the embedding
    - a JavaScript [number] is an IEEE-754 binary64 value: Rocq's
      primitive [float];
    - a JavaScript string is a [string] (a sequence of 8-bit characters:
      the ASCII fragment of UTF-16), [toLowerCase] acts on A-Z only;
    - [Record<string, unknown>] is a finite map [gmap string value]; a
      property read of a missing key yields [VUndefined] (no inherited
      property holds a number or a string, so the prototype chain has no
      part in what follows), and the order of the keys is not kept: the
      output is written in the order of the header list;
    - an array length or a counter is a [nat], turned into a double where
      the code divides or compares it with a double;
    - an exception is the [Err] constructor of [result];
    - the functions of the libraries papaparse and xlsx are not part of
      the repository: their results are inputs of the embedding. *)

From Stdlib Require Import ZArith Floats Ascii String List Lia.
From Stdlib Require Import DecimalString QArith Qround Qabs.
From stdpp Require Import base option list strings gmap.

(** A decimal literal denotes the double closest to it, as in JavaScript. *)
Set Warnings "-inexact-float".

Local Open Scope string_scope.
Local Open Scope list_scope.
Local Open Scope Z_scope.

(* ===================================================================== *)
(** * JavaScript numbers *)
(* ===================================================================== *)

Module Num.

(** The integer [if s then -m else m]. *)
Definition signed (s : bool) (m : positive) : Z :=
  if s then Z.neg m else Z.pos m.

(** The double that equals the integer [z] (exact for [|z| <= 2^53]). *)
Definition ofZ (z : Z) : float :=
  SF2Prim (binary_normalize prec emax z 0 false).

Definition ofNat (n : nat) : float := ofZ (Z.of_nat n).

(** A zero of the sign [s]. *)
Definition zeroOf (s : bool) : float :=
  if s then PrimFloat.neg_zero else PrimFloat.zero.

(** [Math.floor]: the greatest integral double below or equal to [x];
    NaN, the infinities, the zeros and integral values are returned
    as they are. *)
Definition floor (x : float) : float :=
  match Prim2SF x with
  | S754_finite s m e =>
      if 0 <=? e then x
      else
        let q := Z.shiftl (signed s m) e in
        if q =? 0 then zeroOf s else ofZ q
  | _ => x
  end.

(** [Math.round]: the integral double closest to [x], a tie going
    towards +infinity; a result that is zero keeps the sign of [x]. *)
Definition round (x : float) : float :=
  match Prim2SF x with
  | S754_finite s m e =>
      if 0 <=? e then x
      else
        let q := Z.shiftl (2 * signed s m + 2 ^ (- e)) (e - 1) in
        if q =? 0 then zeroOf s else ofZ q
  | _ => x
  end.

(** [Math.max] and [Math.min] of two numbers: NaN is contagious and
    +0 is larger than -0. *)
Definition max (a b : float) : float :=
  if is_nan a || is_nan b then PrimFloat.nan
  else if PrimFloat.ltb a b then b
  else if PrimFloat.ltb b a then a
  else if get_sign a then b else a.

Definition min (a b : float) : float :=
  if is_nan a || is_nan b then PrimFloat.nan
  else if PrimFloat.ltb a b then a
  else if PrimFloat.ltb b a then b
  else if get_sign a then a else b.

(** ** Number::toString (radix 10)

    For a finite non-zero double of mantissa [m] and exponent [e],
    [shortest] finds integers [n], [k], [s] with [k >= 1],
    [10^(k-1) <= s < 10^k], such that [s * 10^(n-k)] reads back as the
    double and [k] is as small as possible; among several candidates of
    that length the closest to the double is taken, an even [s] on a
    tie. All comparisons are exact, over [Q]. *)

Definition valueOf (m e : Z) : Q := Qmult (inject_Z m) (Qpower (inject_Z 2) e).
Definition decimal (s p : Z) : Q := Qmult (inject_Z s) (Qpower (inject_Z 10) p).

Definition Qltb (a b : Q) : bool :=
  match Qcompare a b with Lt => true | _ => false end.

(** The least [n], searched upwards from [n0], with [v < 10^n]. *)
Fixpoint magnitude (fuel : nat) (v : Q) (n0 : Z) : Z :=
  match fuel with
  | O => n0
  | S fuel' =>
      if Qltb v (decimal 1 n0) then n0 else magnitude fuel' v (n0 + 1)
  end.

(** The reals that round to the double [m * 2^e] lie between the two
    midpoints with its neighbours; the lower neighbour is half as far
    when [m] is the least normal mantissa. The end points round to it
    when [m] is even. *)
Definition lowerMid (m e : Z) : Q :=
  if (m =? 2 ^ 52) && (-1074 <? e)
  then valueOf (4 * m - 1) (e - 2) else valueOf (4 * m - 2) (e - 2).
Definition upperMid (m e : Z) : Q := valueOf (4 * m + 2) (e - 2).

Definition readsBack (m e : Z) (c : Q) : bool :=
  if Z.even m
  then Qle_bool (lowerMid m e) c && Qle_bool c (upperMid m e)
  else Qltb (lowerMid m e) c && Qltb c (upperMid m e).

(** The candidates [(s, n)] with [k] digits and decimal point at [n]. *)
Definition candidates (m e n k : Z) : list (Z * Z) :=
  let q := Qfloor (Qmult (valueOf m e) (Qpower (inject_Z 10) (k - n))) in
  List.map (fun s => (s, n))
    (List.filter
       (fun s => (10 ^ (k - 1) <=? s) && (s <? 10 ^ k)
                 && readsBack m e (decimal s (n - k)))
       [q; q + 1]).

Definition closer (m e k : Z) (c d : Z * Z) : Z * Z :=
  let dist (x : Z * Z) :=
    Qabs (Qminus (decimal (fst x) (snd x - k)) (valueOf m e)) in
  match Qcompare (dist d) (dist c) with
  | Lt => d
  | Eq => if Z.even (fst d) then d else c
  | Gt => c
  end.

Fixpoint shortestFrom (fuel : nat) (m e n k : Z) : Z * Z * Z :=
  match fuel with
  | O => (n, k, 0)
  | S fuel' =>
      match candidates m e n k ++ candidates m e (n + 1) k with
      | c :: cs =>
          let best := List.fold_left (closer m e k) cs c in
          (snd best, k, fst best)
      | [] => shortestFrom fuel' m e n (k + 1)
      end
  end.

(** [(n, k, s)] for the double [m * 2^e]. *)
Definition shortest (m e : Z) : Z * Z * Z :=
  shortestFrom 17 m e (magnitude 640 (valueOf m e) (-324)) 1.

Definition digits (z : Z) : string :=
  NilZero.string_of_uint (N.to_uint (Z.to_N z)).

Fixpoint zeros (n : nat) : string :=
  match n with
  | O => EmptyString
  | S n' => String "0" (zeros n')
  end.

Definition takeStr (n : nat) (s : string) : string := substring 0 n s.
Definition dropStr (n : nat) (s : string) : string :=
  substring n (String.length s - n) s.

Definition format (n k s : Z) : string :=
  let ds := digits s in
  if (k <=? n) && (n <=? 21) then
    ds +:+ zeros (Z.to_nat (n - k))
  else if (0 <? n) && (n <=? 21) then
    takeStr (Z.to_nat n) ds +:+ "." +:+ dropStr (Z.to_nat n) ds
  else if (-6 <? n) && (n <=? 0) then
    "0." +:+ zeros (Z.to_nat (- n)) +:+ ds
  else
    let ex := (if n - 1 <? 0 then "-" else "+") +:+ digits (Z.abs (n - 1)) in
    if k =? 1 then ds +:+ "e" +:+ ex
    else takeStr 1 ds +:+ "." +:+ dropStr 1 ds +:+ "e" +:+ ex.

Definition toString (x : float) : string :=
  match Prim2SF x with
  | S754_nan => "NaN"
  | S754_zero _ => "0"
  | S754_infinity s => if s then "-Infinity" else "Infinity"
  | S754_finite s m e =>
      let '(n, k, d) := shortest (Z.pos m) e in
      (if s then "-" else "") +:+ format n k d
  end.

End Num.

(* ===================================================================== *)
(** * JavaScript values, strings and objects *)
(* ===================================================================== *)

(** The values a parsed cell can hold. *)
Inductive value : Type :=
  | VUndefined
  | VNull
  | VBool (b : bool)
  | VNum (x : float)
  | VStr (s : string).

(** [typeof v === 'number'] and [typeof v === 'string']. *)
Definition isNumber (v : value) : bool :=
  match v with VNum _ => true | _ => false end.
Definition isString (v : value) : bool :=
  match v with VStr _ => true | _ => false end.

(** [v != null]: neither [null] nor [undefined]. *)
Definition notNullish (v : value) : bool :=
  match v with VUndefined | VNull => false | _ => true end.

(** [v != null && v !== ''], the test for a populated cell. *)
Definition nonEmptyCell (v : value) : bool :=
  match v with
  | VUndefined | VNull => false
  | VStr s => negb (String.eqb s "")
  | _ => true
  end.

(** Truthiness, as in [if (v)]. *)
Definition truthy (v : value) : bool :=
  match v with
  | VUndefined | VNull => false
  | VBool b => b
  | VNum x => negb (is_nan x || is_zero x)
  | VStr s => negb (String.eqb s "")
  end.

(** [String(v)]. *)
Definition toStr (v : value) : string :=
  match v with
  | VUndefined => "undefined"
  | VNull => "null"
  | VBool b => if b then "true" else "false"
  | VNum x => Num.toString x
  | VStr s => s
  end.

Module Str.

Definition isDigit (c : ascii) : bool :=
  (48 <=? nat_of_ascii c)%nat && (nat_of_ascii c <=? 57)%nat.

Definition lowerChar (c : ascii) : ascii :=
  let n := nat_of_ascii c in
  if (65 <=? n)%nat && (n <=? 90)%nat then ascii_of_nat (n + 32) else c.

(** [s.toLowerCase()]. *)
Fixpoint toLowerCase (s : string) : string :=
  match s with
  | EmptyString => EmptyString
  | String c s' => String (lowerChar c) (toLowerCase s')
  end.

(** [s.startsWith(p)]. *)
Definition startsWith (s p : string) : bool := String.prefix p s.

(** [s.includes(p)]. *)
Fixpoint includes (s p : string) : bool :=
  String.prefix p s ||
  match s with
  | EmptyString => false
  | String _ s' => includes s' p
  end.

(** [s.endsWith(p)]. *)
Fixpoint endsWith (s p : string) : bool :=
  String.eqb s p ||
  match s with
  | EmptyString => false
  | String _ s' => endsWith s' p
  end.

(** [s.replace(/[0-9]/g, '')]. *)
Fixpoint stripDigits (s : string) : string :=
  match s with
  | EmptyString => EmptyString
  | String c s' =>
      if isDigit c then stripDigits s' else String c (stripDigits s')
  end.

(** White space removed by [trim]: TAB, LF, VT, FF, CR and space. *)
Definition isSpace (c : ascii) : bool :=
  let n := nat_of_ascii c in
  ((9 <=? n)%nat && (n <=? 13)%nat) || (n =? 32)%nat.

Fixpoint trimStart (s : string) : string :=
  match s with
  | String c s' => if isSpace c then trimStart s' else s
  | EmptyString => EmptyString
  end.

Fixpoint trimEnd (s : string) : string :=
  match s with
  | EmptyString => EmptyString
  | String c s' =>
      match trimEnd s' with
      | EmptyString => if isSpace c then EmptyString else String c EmptyString
      | t => String c t
      end
  end.

Definition trim (s : string) : string := trimEnd (trimStart s).

(** [parts.join(sep)]. *)
Fixpoint join (sep : string) (parts : list string) : string :=
  match parts with
  | [] => ""
  | [x] => x
  | x :: rest => x +:+ sep +:+ join sep rest
  end.

(** [s.padStart(n, fill)]. *)
Fixpoint repeatTo (n : nat) (fill cur : string) : string :=
  match n with
  | O => EmptyString
  | S n' =>
      match cur with
      | String c cur' => String c (repeatTo n' fill cur')
      | EmptyString =>
          match fill with
          | String c fill' => String c (repeatTo n' fill fill')
          | EmptyString => EmptyString
          end
      end
  end.

Definition padStart (s : string) (n : nat) (fill : string) : string :=
  repeatTo (n - String.length s) fill fill +:+ s.

(** The double quote character. *)
Definition quote : string := String (ascii_of_nat 34) EmptyString.

(** A non-negative integer in decimal, as a template literal prints it. *)
Definition ofNat (n : nat) : string := Num.digits (Z.of_nat n).

End Str.

(** [Record<string, unknown>]: own properties by name. *)
Abbreviation row := (gmap string value).

(** [r[k]]: a missing property reads as [undefined]. *)
Definition getProp (r : row) (k : string) : value :=
  default VUndefined (r !! k).

(** What a function that may throw returns. *)
Inductive result (A : Type) : Type :=
  | Ok (a : A)
  | Err (message : string).
Arguments Ok {A} a.
Arguments Err {A} message.

(* ===================================================================== *)
(** * lib/csvParser.ts *)
(* ===================================================================== *)

Record ParsedCSV := {
  fileName : string;
  headers : list string;
  data : list row;
  suggestedColumns : list string
}.

(** ** ensureUniqueHeaders

    The loop over [headers], with the [headerCounts] map as its state;
    the result is the [uniqueHeaders] array. *)
Fixpoint ensureUniqueHeaders_from
    (headerCounts : gmap string nat) (headers : list string) : list string :=
  match headers with
  | [] => []
  | header :: rest =>
      match headerCounts !! header with
      | Some n =>
          let count := S n in
          (header +:+ " (" +:+ Str.ofNat count +:+ ")")
            :: ensureUniqueHeaders_from (<[header := count]> headerCounts) rest
      | None =>
          header :: ensureUniqueHeaders_from (<[header := 1%nat]> headerCounts) rest
      end
  end.

Definition ensureUniqueHeaders (headers : list string) : list string :=
  ensureUniqueHeaders_from ∅ headers.

(** ** decimalToTime *)
Definition decimalToTime (decimal : float) : string :=
  let isNegative := (decimal <? 0)%float in
  let absDecimal := abs decimal in
  let hours := Num.floor absDecimal in
  let minutes := Num.round ((absDecimal - hours) * 60)%float in
  let sign := if isNegative then "-" else "" in
  sign +:+ Str.padStart (Num.toString hours) 2 "0" +:+ ":"
       +:+ Str.padStart (Num.toString minutes) 2 "0".

(** ** detectDecimalHourColumns *)
Definition timeKeywords : list string :=
  ["hour"; "hrs"; "time"; "duration"; "worked"; "logged"; "actual";
   "planned"; "scheduled"; "billable"; "non-billable"; "productive";
   "non-productive"; "hours"].

Definition numberOf (v : value) : float :=
  match v with VNum x => x | _ => nan end.

(** The body of the loop for one header: [true] when the header is
    pushed on [suggestions]. *)
Definition suggestsColumn (data : list row) (header : string) : bool :=
  let headerLower := Str.toLowerCase header in
  let hasTimeKeyword :=
    existsb (fun keyword => Str.includes headerLower keyword) timeKeywords in
  let columnValues :=
    List.filter notNullish (List.map (fun r => getProp r header) data) in
  if (length columnValues =? 0)%nat then false
  else
    let numericValues := List.filter isNumber columnValues in
    let numericRatio :=
      (Num.ofNat (length numericValues) / Num.ofNat (length columnValues))%float in
    if (numericRatio <? 0.8)%float then false
    else
      let values := List.map numberOf numericValues in
      let max := fold_left Num.max values neg_infinity in
      let min := fold_left Num.min values infinity in
      let isReasonableRange := ((-1000 <=? min) && (max <=? 1000))%float in
      if hasTimeKeyword && isReasonableRange then true
      else if negb hasTimeKeyword && isReasonableRange
              && (numericRatio =? 1)%float then true
      else false.

Definition detectDecimalHourColumns
    (headers : list string) (data : list row) : list string :=
  List.filter (suggestsColumn data) headers.

(** ** parseCSVFile

    [Papa.parse] is an external library: it calls back either [complete]
    with the field names of the header line and one object per data
    line, or [error]. *)
Record PapaResults := {
  meta_fields : option (list string);
  results_data : list row
}.

Inductive PapaOutcome : Type :=
  | PapaComplete (results : PapaResults)
  | PapaError (message : string).

(** The [forEach] over [originalHeaders] that fills [newRow]. *)
Fixpoint remapRow_from (uniqueHeaders : list string) (r : row)
    (originalHeaders : list string) (index : nat) (newRow : row) : row :=
  match originalHeaders with
  | [] => newRow
  | originalHeader :: rest =>
      let newRow' :=
        match uniqueHeaders !! index with
        | Some uniqueHeader =>
            if negb (String.eqb uniqueHeader "")
            then <[uniqueHeader := getProp r originalHeader]> newRow
            else newRow
        | None => newRow
        end in
      remapRow_from uniqueHeaders r rest (S index) newRow'
  end.

Definition remapRow (originalHeaders uniqueHeaders : list string) (r : row) : row :=
  remapRow_from uniqueHeaders r originalHeaders 0 ∅.

Definition parseCSVFile (file_name : string) (outcome : PapaOutcome)
    : result ParsedCSV :=
  match outcome with
  | PapaComplete results =>
      let originalHeaders := default [] (meta_fields results) in
      let uniqueHeaders := ensureUniqueHeaders originalHeaders in
      let rawData := results_data results in
      let data := List.map (remapRow originalHeaders uniqueHeaders) rawData in
      let suggestedColumns := detectDecimalHourColumns uniqueHeaders data in
      Ok {| fileName := file_name; headers := uniqueHeaders; data := data;
            suggestedColumns := suggestedColumns |}
  | PapaError message => Err ("Failed to parse CSV: " +:+ message)
  end.

(** The object [Papa.parse] builds for one data line under
    [header: true]: every cell is stored under the field name of its
    column. The parser reports distinct field names (a name repeated in
    the header line is renamed before the rows are built), and the
    object is used with such field lists only. *)
Fixpoint papaRow_from (fields : list string) (cells : list value) (r : row) : row :=
  match fields, cells with
  | f :: fields', c :: cells' => papaRow_from fields' cells' (<[f := c]> r)
  | _, _ => r
  end.

Definition papaRow (fields : list string) (cells : list value) : row :=
  papaRow_from fields cells ∅.

(** ** convertCSVColumns

    [newHeaders] is one array shared by all rows: it is threaded through
    the loop over the columns and through the [map] over the rows. *)
Definition includesStr (l : list string) (x : string) : bool :=
  existsb (String.eqb x) l.

Definition convertColumn (keepOriginal : bool)
    (st : row * list string) (column : string) : row * list string :=
  let '(newRow, newHeaders) := st in
  match getProp newRow column with
  | VNum x =>
      let convertedValue := decimalToTime x in
      if keepOriginal then
        let newColumnName := column +:+ "_hhmm" in
        (<[newColumnName := VStr convertedValue]> newRow,
         if includesStr newHeaders newColumnName then newHeaders
         else newHeaders ++ [newColumnName])
      else
        (<[column := VStr convertedValue]> newRow, newHeaders)
  | _ => st
  end.

Definition convertRow (columnsToConvert : list string) (keepOriginal : bool)
    (r : row) (newHeaders : list string) : row * list string :=
  fold_left (convertColumn keepOriginal) columnsToConvert (r, newHeaders).

Fixpoint convertRows (columnsToConvert : list string) (keepOriginal : bool)
    (data : list row) (newHeaders : list string) : list row * list string :=
  match data with
  | [] => ([], newHeaders)
  | r :: rest =>
      let '(newRow, newHeaders') :=
        convertRow columnsToConvert keepOriginal r newHeaders in
      let '(rest', newHeaders'') :=
        convertRows columnsToConvert keepOriginal rest newHeaders' in
      (newRow :: rest', newHeaders'')
  end.

Record Converted := {
  converted_data : list row;
  newHeaders : list string
}.

Definition convertCSVColumns (data : list row) (columnsToConvert : list string)
    (keepOriginal : bool) : Converted :=
  let '(convertedData, newHeaders) :=
    convertRows columnsToConvert keepOriginal data [] in
  {| converted_data := convertedData; newHeaders := newHeaders |}.

(** ** convertToCSV / convertToXLSX: the header line of the output. *)
Definition allHeaders (headers additionalHeaders : list string) : list string :=
  if (0 <? length additionalHeaders)%nat
  then headers ++ additionalHeaders else headers.

(* ===================================================================== *)
(** * lib/xlsxParser.ts *)
(* ===================================================================== *)

(** A sheet read as an array of arrays ([unknown[][]]). *)
Abbreviation grid := (list (list value)).

(** [row.filter(p).length]. *)
Definition countCells (p : value -> bool) (r : list value) : nat :=
  length (List.filter p r).

(** ** hasReportHeader *)
Definition markers : list string := ["Time Period"; "Executed on"; "Query"].

(** The markers a cell adds to [foundMarkers]. *)
Definition markersInCell (cell : value) : gset string :=
  match cell with
  | VStr s => list_to_set (List.filter (fun marker => Str.includes s marker) markers)
  | _ => ∅
  end.

Definition markersInRow (found : gset string) (r : list value) : gset string :=
  fold_left (fun acc cell => acc ∪ markersInCell cell) r found.

Definition foundMarkers (rows : grid) : gset string :=
  fold_left markersInRow (take 6 rows) ∅.

Definition hasReportHeader (rows : grid) : bool :=
  (2 <=? size (foundMarkers rows))%nat.

(** ** findColumnHeaderRow *)

(** The test on one row: many cells, mostly strings. *)
Definition looksLikeHeader (r : list value) : bool :=
  let nonEmptyCells := countCells nonEmptyCell r in
  let stringCells := countCells isString r in
  (5 <=? nonEmptyCells)%nat
  && (0.6 <=? Num.ofNat stringCells / Num.ofNat nonEmptyCells)%float.

(** The [for] loop: [i] is the loop counter, [n] the number of
    iterations left before [i] reaches [Math.min(rows.length, 15)]. *)
Fixpoint findColumnHeaderRow_from (rows : grid) (i n : nat) : nat :=
  match n with
  | O => 6
  | S n' =>
      match rows !! i with
      | Some r =>
          if looksLikeHeader r then i
          else findColumnHeaderRow_from rows (S i) n'
      | None => findColumnHeaderRow_from rows (S i) n'
      end
  end.

Definition findColumnHeaderRow (rows : grid) : nat :=
  findColumnHeaderRow_from rows 3 (Nat.min (length rows) 15 - 3).

(** ** detectHeaderRow *)
Definition detectHeaderRow (rows : grid) : nat :=
  if (length rows =? 0)%nat then 0%nat
  else if hasReportHeader rows then findColumnHeaderRow rows
  else 0%nat.

(** ** Work sheets

    A work sheet is an object whose keys are cell addresses ("A1",
    "C12") and special keys that start with "!" ("!ref", "!merges");
    it is kept as the list of its own properties in insertion order. *)
Record CellAddress := { r : nat; c : nat }.
Record Range := { s : CellAddress; e : CellAddress }.

Record CellObject := { v : value }.

Inductive SheetProp : Type :=
  | PCell (cell : CellObject)
  | PMerges (merges : list Range)
  | POther.

Abbreviation WorkSheet := (list (string * SheetProp)).

(** [worksheet[key]]. *)
Fixpoint sheetProp (worksheet : WorkSheet) (key : string) : option SheetProp :=
  match worksheet with
  | [] => None
  | (k, p) :: rest => if String.eqb k key then Some p else sheetProp rest key
  end.

(** [worksheet['!merges'] || []]. *)
Definition sheetMerges (worksheet : WorkSheet) : list Range :=
  match sheetProp worksheet "!merges" with
  | Some (PMerges ms) => ms
  | _ => []
  end.

(** ** getMergedColumns *)
Definition mergedColumnsOf (headerRowIndex : nat) (merge : Range) : list nat :=
  if (r (s merge) <=? headerRowIndex)%nat && (headerRowIndex <=? r (e merge))%nat
  then seq (S (c (s merge))) (c (e merge) - c (s merge))
  else [].

Definition getMergedColumns (worksheet : WorkSheet) (headerRowIndex : nat)
    : gset nat :=
  fold_left
    (fun mergedCols merge =>
       fold_left (fun acc col => acc ∪ {[ col ]})
                 (mergedColumnsOf headerRowIndex merge) mergedCols)
    (sheetMerges worksheet) ∅.

(** ** findMissingDataColumns *)

(** [columnCounts[col] = (columnCounts[col] || 0) + 1] on an object kept
    in insertion order. *)
Fixpoint bump (col : string) (columnCounts : list (string * nat))
    : list (string * nat) :=
  match columnCounts with
  | [] => [(col, 1%nat)]
  | (k, n) :: rest =>
      if String.eqb k col then (k, S n) :: rest else (k, n) :: bump col rest
  end.

Definition cellKeys (worksheet : WorkSheet) : list string :=
  List.filter (fun k => negb (Str.startsWith k "!")) (List.map fst worksheet).

Definition columnCounts (worksheet : WorkSheet) : list (string * nat) :=
  fold_left (fun counts key => bump (Str.stripDigits key) counts)
            (cellKeys worksheet) [].

(** [Math.max(...counts)] is -Infinity for no count at all: [None]. *)
Definition maxCount (counts : list nat) : option nat :=
  match counts with
  | [] => None
  | n :: rest => Some (fold_left Nat.max rest n)
  end.

Definition exceedsOne (m : option nat) : bool :=
  match m with Some n => (1 <? n)%nat | None => false end.

(** The name pushed for a column that holds one cell only. *)
Definition missingColumnName (worksheet : WorkSheet) (headerRowIndex : nat)
    (col : string) : string :=
  match sheetProp worksheet (col +:+ Str.ofNat (headerRowIndex + 1)) with
  | Some (PCell headerCell) =>
      if truthy (v headerCell) then toStr (v headerCell)
      else "Column " +:+ col
  | _ => "Column " +:+ col
  end.

Definition findMissingDataColumns (worksheet : WorkSheet) (headerRowIndex : nat)
    : list string :=
  let counts := columnCounts worksheet in
  if exceedsOne (maxCount (List.map snd counts)) then
    List.map (fun kn => missingColumnName worksheet headerRowIndex (fst kn))
             (List.filter (fun kn => (snd kn =? 1)%nat) counts)
  else [].

Definition missingDataMessage (missingColumns : list string) : string :=
  "The following columns have no data: " +:+ Str.join ", " missingColumns +:+ ". "
  +:+ "This usually happens when Excel formulas are not cached. "
  +:+ "Please open the file in Excel, press Ctrl+S to save (which caches formula results), then re-upload.".

(** ** parseXLSXSheet *)
Record WorkBook := {
  SheetNames : list string;
  Sheets : gmap string WorkSheet
}.

Record SheetData := {
  sheet_headers : list string;
  sheet_data : list row;
  headerRowIndex : nat
}.

(** The [forEach] over the header row: the retained labels and their
    column indices, from left to right. *)
Fixpoint extractHeaders (mergedColumns : gset nat) (headerRow : list value)
    (index : nat) : list string * list nat :=
  match headerRow with
  | [] => ([], [])
  | cell :: rest =>
      let '(rawHeaders, validColumnIndices) :=
        extractHeaders mergedColumns rest (S index) in
      if bool_decide (index ∈ mergedColumns) then (rawHeaders, validColumnIndices)
      else if negb (nonEmptyCell cell) then (rawHeaders, validColumnIndices)
      else (Str.trim (toStr cell) :: rawHeaders, index :: validColumnIndices)
  end.

(** The [forEach] over [validColumnIndices] that fills [headerMap]. *)
Fixpoint buildHeaderMap (headers : list string) (validColumnIndices : list nat)
    (headerIndex : nat) (headerMap : gmap nat string) : gmap nat string :=
  match validColumnIndices with
  | [] => headerMap
  | originalIndex :: rest =>
      let headerMap' :=
        match headers !! headerIndex with
        | Some headerName =>
            if negb (String.eqb headerName "")
            then <[originalIndex := headerName]> headerMap else headerMap
        | None => headerMap
        end in
      buildHeaderMap headers rest (S headerIndex) headerMap'
  end.

Section XLSX.

(** The two library functions the parser calls:
    [XLSX.utils.sheet_to_json(worksheet, {header: 1, defval: null, raw: true})]
    and [Number(cell)] on a string. *)
Variable sheet_to_json : WorkSheet -> grid.
Variable stringToNumber : string -> float.

(** The value stored for a cell of a data row. *)
Definition coerceCell (cell : value) : value :=
  match cell with
  | VStr str =>
      if negb (is_nan (stringToNumber str)) && negb (String.eqb (Str.trim str) "")
      then VNum (stringToNumber str) else cell
  | _ => cell
  end.

(** The [forEach] over the cells of one data row. *)
Fixpoint buildRow (headerMap : gmap nat string) (cells : list value)
    (index : nat) (rowData : row) : row :=
  match cells with
  | [] => rowData
  | cell :: rest =>
      let rowData' :=
        match headerMap !! index with
        | Some headerName =>
            if negb (String.eqb headerName "")
            then <[headerName := coerceCell cell]> rowData else rowData
        | None => rowData
        end in
      buildRow headerMap rest (S index) rowData'
  end.

(** The loop over [dataRows]: rows without any populated cell are
    skipped. *)
Definition buildData (headerMap : gmap nat string) (dataRows : grid) : list row :=
  List.map (fun cells => buildRow headerMap cells 0 ∅)
           (List.filter (existsb nonEmptyCell) dataRows).

Definition parseXLSXSheet (workbook : WorkBook) : result SheetData :=
  match SheetNames workbook !! 0%nat with
  | None => Err "No sheets found in workbook"
  | Some firstSheetName =>
      if String.eqb firstSheetName "" then Err "No sheets found in workbook"
      else
        match Sheets workbook !! firstSheetName with
        | None => Err ("Sheet " +:+ Str.quote +:+ firstSheetName +:+ Str.quote
                          +:+ " not found in workbook")
        | Some worksheet =>
            let rawData := sheet_to_json worksheet in
            let headerRowIndex := detectHeaderRow rawData in
            let headerRow := default [] (rawData !! headerRowIndex) in
            let mergedColumns := getMergedColumns worksheet headerRowIndex in
            let '(rawHeaders, validColumnIndices) :=
              extractHeaders mergedColumns headerRow 0 in
            let headers := ensureUniqueHeaders rawHeaders in
            let missingColumns := findMissingDataColumns worksheet headerRowIndex in
            if (0 <? length missingColumns)%nat
            then Err (missingDataMessage missingColumns)
            else
              let headerMap := buildHeaderMap headers validColumnIndices 0 ∅ in
              let dataRows := drop (headerRowIndex + 1) rawData in
              Ok {| sheet_headers := headers;
                    sheet_data := buildData headerMap dataRows;
                    headerRowIndex := headerRowIndex |}
        end
  end.

End XLSX.

(* ===================================================================== *)
(** * src/lib/xlsxParser.ts: the structural header detection *)
(* ===================================================================== *)

Module Structural.

(** The tests of the first loop of [detectHeaderRow] on row [i]. *)
Definition isHeaderCandidate (rows : grid) (i : nat) : bool :=
  match rows !! i with
  | None => false
  | Some cells =>
      let nonEmptyCells := countCells nonEmptyCell cells in
      if (nonEmptyCells <? 3)%nat then false
      else
        let stringCells := countCells isString cells in
        let stringRatio := (Num.ofNat stringCells / Num.ofNat nonEmptyCells)%float in
        if (stringRatio <? 0.6)%float then false
        else
          match rows !! (i + 1)%nat, rows !! (i + 2)%nat with
          | Some nextRow1, Some nextRow2 =>
              let nextRow1Count := countCells nonEmptyCell nextRow1 in
              let nextRow2Count := countCells nonEmptyCell nextRow2 in
              let avgNextCount :=
                ((Num.ofNat nextRow1Count + Num.ofNat nextRow2Count) / 2)%float in
              (abs (avgNextCount - Num.ofNat nonEmptyCells) <=? 2)%float
          | _, _ => false
          end
  end.

(** The first loop: [i] is the counter, [n] the number of iterations
    left before [i] reaches [Math.min(rows.length - 2, 20)]. *)
Fixpoint firstCandidate (rows : grid) (i n : nat) : option nat :=
  match n with
  | O => None
  | S n' =>
      if isHeaderCandidate rows i then Some i
      else firstCandidate rows (S i) n'
  end.

(** The fallback loop, with [maxNonEmpty] and [maxIndex] as its state. *)
Fixpoint mostCells (rows : grid) (i n : nat) (maxNonEmpty maxIndex : nat) : nat :=
  match n with
  | O => maxIndex
  | S n' =>
      match rows !! i with
      | Some cells =>
          let nonEmpty := countCells nonEmptyCell cells in
          if (maxNonEmpty <? nonEmpty)%nat
          then mostCells rows (S i) n' nonEmpty i
          else mostCells rows (S i) n' maxNonEmpty maxIndex
      | None => mostCells rows (S i) n' maxNonEmpty maxIndex
      end
  end.

Definition detectHeaderRow (rows : grid) : nat :=
  if (length rows =? 0)%nat then 0%nat
  else
    match firstCandidate rows 0 (Nat.min (length rows - 2) 20) with
    | Some i => i
    | None => mostCells rows 0 (Nat.min (length rows) 10) 0 0
    end.

End Structural.

(* ===================================================================== *)
(** * components/ColumnSelector.vue *)
(* ===================================================================== *)

(** [selectedColumns]: the selected column names of every file, by file
    name. The file names come from [handleAnalyze], which accepts names
    that end in ".csv" or ".xlsx" only, so no inherited property of the
    object is read. *)
Abbreviation Selection := (gmap string (list string)).

(** The initialisation: the suggested columns of every file. *)
Definition initialSelection (files : list ParsedCSV) : Selection :=
  fold_left (fun selectedColumns file =>
               <[fileName file := suggestedColumns file]> selectedColumns)
            files ∅.

Definition setColumnChecked (selectedColumns : Selection)
    (fileName columnName : string) (checked : bool) : Selection :=
  match selectedColumns !! fileName with
  | None => selectedColumns
  | Some fileColumns =>
      if checked then
        if includesStr fileColumns columnName then selectedColumns
        else <[fileName := fileColumns ++ [columnName]]> selectedColumns
      else
        <[fileName := List.filter (fun col => negb (String.eqb col columnName))
                                  fileColumns]> selectedColumns
  end.

Definition isColumnSelected (selectedColumns : Selection)
    (fileName columnName : string) : bool :=
  match selectedColumns !! fileName with
  | Some fileColumns => includesStr fileColumns columnName
  | None => false
  end.

(* ===================================================================== *)
(** * components/UploadForm.vue *)
(* ===================================================================== *)

Inductive FileType : Type := CSVFile | XLSXFile.

(** The dispatch of [handleAnalyze] on the lower-cased file name; [None]
    is the rejection "Unsupported file type". *)
Definition fileTypeOf (name : string) : option FileType :=
  let fileName := Str.toLowerCase name in
  if Str.endsWith fileName ".csv" then Some CSVFile
  else if Str.endsWith fileName ".xlsx" then Some XLSXFile
  else None.

(** [/\.(csv|xlsx)$/i] matched at the start of [s]. *)
Definition matchesExtension (s : string) : bool :=
  String.eqb (Str.toLowerCase s) ".csv" || String.eqb (Str.toLowerCase s) ".xlsx".

(** [fileName.replace(/\.(csv|xlsx)$/i, '_converted.$1')]: the first
    position, from the left, at which the expression matches. *)
Fixpoint convertedFileName (fileName : string) : string :=
  if matchesExtension fileName then "_converted" +:+ fileName
  else match fileName with
       | EmptyString => EmptyString
       | String ch rest => String ch (convertedFileName rest)
       end.

(** The format [handleConvert] writes a file in. *)
Definition exportType (name : string) : FileType :=
  if Str.endsWith (Str.toLowerCase name) ".xlsx" then XLSXFile else CSVFile.

(* ===================================================================== *)
(** * Vocabulary of the statements and sample inputs *)
(* ===================================================================== *)

(** The number of entries of [l] equal to [h]. *)
Definition occurrences (h : string) (l : list string) : nat :=
  length (List.filter (String.eqb h) l).

(** What the loop emits for a name seen [k] times so far, this one
    included. *)
Definition labelled (h : string) (k : nat) : string :=
  if (k =? 1)%nat then h else h +:+ " (" +:+ Str.ofNat k +:+ ")".

(** [headerCounts] after the names of [seen] were processed. *)
Definition countsOf (seen : list string) (headerCounts : gmap string nat) : Prop :=
  forall h, headerCounts !! h =
            if (occurrences h seen =? 0)%nat then None else Some (occurrences h seen).

(** The claim of C9 on the entries: no output name is empty. *)
Definition allNonEmpty (names : list string) : Prop :=
  Forall (fun u => u <> "") names.

(** The name of the column derived from [column]. *)
Definition derived (column : string) : string := column +:+ "_hhmm".

(** No selected column bears the derived name of a selected column. *)
Definition noDerivedSelected (cols : list string) : Prop :=
  forall c d, c ∈ cols -> d ∈ cols -> d <> derived c.

(** [if (!newHeaders.includes(name)) newHeaders.push(name)]. *)
Definition pushNew (nh : list string) (name : string) : list string :=
  if includesStr nh name then nh else nh ++ [name].

(** One step that reads the original row [r0] instead of the row under
    construction. *)
Definition addDerived (r0 : row) (acc : row) (column : string) : row :=
  match getProp r0 column with
  | VNum x => <[derived column := VStr (decimalToTime x)]> acc
  | _ => acc
  end.

(** The derived names a row produces, in the order of the selection. *)
Definition producedBy (cols : list string) (r0 : row) : list string :=
  List.map derived (List.filter (fun col => isNumber (getProp r0 col)) cols).

(** The claim of C7 on the selected columns: every output row holds the
    original value at every selected column. *)
Definition preservesSelected (rows : list row) (cols : list string) : Prop :=
  Forall2 (fun r0 r' => forall col, col ∈ cols -> getProp r' col = getProp r0 col)
          rows (converted_data (convertCSVColumns rows cols true)).

(** A table of one column "EmployeeID" holding the given numbers. *)
Definition employeeRows (ids : list float) : list row :=
  List.map (fun x => {[ "EmployeeID" := VNum x ]}) ids.

(** The claim of C8 for one data line: the cell of every column is
    stored under the unique name of that column. *)
Definition keyedPositionally (fields : list string) (cells : list value) : Prop :=
  forall i u cell,
    ensureUniqueHeaders fields !! i = Some u ->
    cells !! i = Some cell ->
    getProp (remapRow fields (ensureUniqueHeaders fields) (papaRow fields cells)) u
    = cell.

(** [marker] occurs in a string cell of one of the first six rows. *)
Definition markerOccurs (rows : grid) (marker : string) : bool :=
  existsb
    (existsb (fun cell =>
                match cell with VStr str => Str.includes str marker | _ => false end))
    (take 6 rows).

(** The number of markers that occur. *)
Definition markersFound (rows : grid) : nat :=
  length (List.filter (markerOccurs rows) markers).

(** Following the words of the specification: a row qualifies when it has
    at least 5 non-empty cells of which at least 60% are strings. *)
Definition spec_qualifies (cells : list value) : bool :=
  let nonEmpty := List.filter nonEmptyCell cells in
  (5 <=? length nonEmpty)%nat
  && (3 * length nonEmpty <=? 5 * length (List.filter isString nonEmpty))%nat.

(** Following the words of the specification: with 2 of the 3 markers in
    the first 6 rows, the first qualifying row of index 3..14, or 6;
    row 0 otherwise. *)
Definition spec_headerRow (rows : grid) : nat :=
  if (2 <=? markersFound rows)%nat then
    default 6%nat
      (List.find
         (fun i => match rows !! i with
                   | Some cells => spec_qualifies cells
                   | None => false
                   end)
         (seq 3 12))
  else 0%nat.

(** The double comparison of [looksLikeHeader] agrees with the exact
    comparison [3 * n <= 5 * k] for all counts up to [bound]. *)
Definition ratioAgrees (bound : nat) : bool :=
  forallb
    (fun n =>
       forallb
         (fun k =>
            Bool.eqb (0.6 <=? Num.ofNat k / Num.ofNat n)%float
                     (3 * n <=? 5 * k)%nat)
         (seq 0 (S bound)))
    (seq 1 bound).

(** A report whose row 3 holds five numbers and three empty strings, and
    whose row 6 holds five labels. *)
Definition preambleGrid : grid :=
  [ [ VStr "Time Period: 2024-01-01 to 2024-01-31" ];
    [ VStr "Executed on 2024-02-01" ];
    [];
    [ VNum 1; VNum 2; VNum 3; VNum 4; VNum 5; VStr ""; VStr ""; VStr "" ];
    [];
    [];
    [ VStr "Employee"; VStr "Date"; VStr "Hours"; VStr "Task"; VStr "Team" ];
    [ VStr "Ann"; VStr "2024-01-15"; VNum 7.5; VStr "Review"; VStr "A" ] ].

(** A report with two markers in rows 0-1, nothing in rows 2-5 and the
    column labels in row 6. *)
Definition reportGrid : grid :=
  [ [ VStr "Time Period: 2024-01-01 to 2024-01-31" ];
    [ VStr "Executed on 2024-02-01" ];
    []; []; []; [];
    [ VStr "Employee"; VStr "Date"; VStr "Hours"; VStr "Task"; VStr "Team" ];
    [ VStr "Ann"; VStr "2024-01-15"; VNum 7.5; VStr "Review"; VStr "A" ] ].

(** The label of the column [i] of a header row. *)
Definition labelAt (headerRow : list value) (i : nat) : string :=
  Str.trim (toStr (default VUndefined (headerRow !! i))).

(** A work book whose header row (row 0) carries a merge over the
    columns 2-4, with one line of data. *)
Definition mergedSheet : WorkSheet :=
  [ ("!ref", POther);
    ("A1", PCell {| v := VStr "Employee" |});
    ("B1", PCell {| v := VStr "Date" |});
    ("C1", PCell {| v := VStr "Hours" |});
    ("D1", PCell {| v := VStr "Hours" |});
    ("E1", PCell {| v := VStr "Hours" |});
    ("F1", PCell {| v := VStr "Task" |});
    ("A2", PCell {| v := VStr "Ann" |});
    ("B2", PCell {| v := VStr "2024-01-15" |});
    ("C2", PCell {| v := VNum 7.5 |});
    ("D2", PCell {| v := VNum 1 |});
    ("E2", PCell {| v := VNum 2 |});
    ("F2", PCell {| v := VStr "Review" |});
    ("!merges", PMerges [ {| s := {| r := 0; c := 2 |}; e := {| r := 0; c := 4 |} |} ]) ].

Definition mergedGrid : grid :=
  [ [ VStr "Employee"; VStr "Date"; VStr "Hours"; VStr "Hours"; VStr "Hours"; VStr "Task" ];
    [ VStr "Ann"; VStr "2024-01-15"; VNum 7.5; VNum 1; VNum 2; VStr "Review" ] ].

Definition mergedBook : WorkBook :=
  {| SheetNames := [ "Sheet1" ]; Sheets := {[ "Sheet1" := mergedSheet ]} |}.

(** The number of cells of the sheet that lie in the column [col]. *)
Definition cellCount (worksheet : WorkSheet) (col : string) : nat :=
  occurrences col (List.map Str.stripDigits (cellKeys worksheet)).

(** [columnCounts[k]]. *)
Fixpoint countOf (k : string) (counts : list (string * nat)) : option nat :=
  match counts with
  | [] => None
  | (k', n) :: rest => if String.eqb k' k then Some n else countOf k rest
  end.


(** A sheet with the header row 1, two lines of data, a column C that
    holds its header 0 only, and a single remark in D5. *)
Definition remarkSheet : WorkSheet :=
  [ ("!ref", POther);
    ("A1", PCell {| v := VStr "Employee" |});
    ("B1", PCell {| v := VStr "Hours" |});
    ("C1", PCell {| v := VNum 0 |});
    ("A2", PCell {| v := VStr "Ann" |});
    ("B2", PCell {| v := VNum 7.5 |});
    ("A3", PCell {| v := VStr "Bob" |});
    ("B3", PCell {| v := VNum 3.25 |});
    ("D5", PCell {| v := VStr "checked" |}) ].




(** A report of two columns: the preamble is found, no row passes the
    header test. *)
Definition shortSheet : WorkSheet :=
  [ ("!ref", POther);
    ("A1", PCell {| v := VStr "Time Period: May 2024" |});
    ("A2", PCell {| v := VStr "Executed on: 2024-06-01" |});
    ("A3", PCell {| v := VStr "Employee" |});
    ("B3", PCell {| v := VStr "Hours" |});
    ("A4", PCell {| v := VStr "Ann" |});
    ("B4", PCell {| v := VNum 7.5 |}) ].

Definition shortGrid : grid :=
  [ [ VStr "Time Period: May 2024"; VNull ];
    [ VStr "Executed on: 2024-06-01"; VNull ];
    [ VStr "Employee"; VStr "Hours" ];
    [ VStr "Ann"; VNum 7.5 ] ].

Definition shortBook : WorkBook :=
  {| SheetNames := [ "Report" ]; Sheets := {[ "Report" := shortSheet ]} |}.

(* ===================================================================== *)
(** * Properties of decimalToTime *)
(* ===================================================================== *)

Section DecimalToTime.

Local Open Scope float_scope.

Lemma abs_opp (d : float) : abs (- d) = abs d.
Proof.
  apply Prim2SF_inj. rewrite !abs_spec, opp_spec.
  destruct (Prim2SF d); reflexivity.
Qed.

Lemma opp_involutive (d : float) : - - d = d.
Proof.
  apply Prim2SF_inj. rewrite !opp_spec.
  destruct (Prim2SF d) as [b | b | | b m ex]; cbn; try rewrite Bool.negb_involutive; reflexivity.
Qed.

Lemma positive_sign (d : float) :
  (0 <? d) = true -> (- d <? 0) = true /\ (d <? 0) = false.
Proof.
  rewrite !ltb_spec, opp_spec.
  change (Prim2SF 0) with (S754_zero false).
  destruct (Prim2SF d) as [b | b | | b m ex]; cbn; try discriminate;
    destruct b; cbn; try discriminate; auto.
Qed.

Lemma negative_sign (d : float) :
  (d <? 0) = true -> (0 <? - d) = true.
Proof.
  rewrite !ltb_spec, opp_spec.
  change (Prim2SF 0) with (S754_zero false).
  destruct (Prim2SF d) as [b | b | | b m ex]; cbn; try discriminate;
    destruct b; cbn; try discriminate; auto.
Qed.

Lemma decimalToTime_opp (d : float) :
  (0 <? d) = true -> decimalToTime (- d) = "-" +:+ decimalToTime d.
Proof.
  intros Hd. destruct (positive_sign d Hd) as [Hneg Hpos].
  unfold decimalToTime. rewrite abs_opp, Hneg, Hpos. reflexivity.
Qed.

End DecimalToTime.

(** C10: decimalToTime returns "07:30" for 7.5, "03:15" for 3.25,
    "-07:30" for -7.5 and "00:00" for 0; for every d above zero the
    result for -d is "-" followed by the result for d, and for every d
    below zero the result is "-" followed by the result for -d. *)
Theorem decimalToTime_examples_and_sign :
  decimalToTime 7.5 = "07:30"
  /\ decimalToTime 3.25 = "03:15"
  /\ decimalToTime (-7.5) = "-07:30"
  /\ decimalToTime 0 = "00:00"
  /\ (forall d : float, (0 <? d)%float = true ->
        decimalToTime (- d) = "-" +:+ decimalToTime d)
  /\ (forall d : float, (d <? 0)%float = true ->
        decimalToTime d = "-" +:+ decimalToTime (- d)).
Proof.
  do 4 (split; [vm_compute; reflexivity |]). split.
  - apply decimalToTime_opp.
  - intros d Hd. rewrite <- (opp_involutive d) at 1.
    apply decimalToTime_opp, negative_sign, Hd.
Qed.

(** C10 at 3.25: the result for -3.25 is "-" followed by the result for
    3.25. *)
Lemma decimalToTime_sign_witness :
  (0 <? 3.25)%float = true
  /\ decimalToTime (PrimFloat.opp 3.25) = "-" +:+ decimalToTime 3.25.
Proof.
  split; [reflexivity |].
  exact (proj1 (proj2 (proj2 (proj2 (proj2 decimalToTime_examples_and_sign))))
           3.25%float eq_refl).
Defined.

(** C1: the minutes are not carried into the hour: a fraction that
    rounds to 60 minutes is printed as ":60" with the hour unchanged,
    where the carry would give the next hour and ":00". *)
Theorem decimalToTime_minutes_sixty :
  decimalToTime 1.9990234375 = "01:60"
  /\ decimalToTime 0.999 = "00:60"
  /\ decimalToTime 7.9999 = "07:60"
  /\ decimalToTime (-1.9990234375) = "-01:60".
Proof. repeat split; vm_compute; reflexivity. Qed.

(* ===================================================================== *)
(** * Properties of ensureUniqueHeaders *)
(* ===================================================================== *)

Lemma occurrences_snoc h seen x :
  occurrences h (seen ++ [x]) =
  (occurrences h seen + if String.eqb h x then 1 else 0)%nat.
Proof.
  unfold occurrences. rewrite List.filter_app, length_app. cbn.
  destruct (String.eqb h x); reflexivity.
Qed.

Lemma countsOf_step seen headerCounts x :
  countsOf seen headerCounts ->
  countsOf (seen ++ [x]) (<[x := S (occurrences x seen)]> headerCounts).
Proof.
  intros Hc h. rewrite occurrences_snoc.
  destruct (String.eqb_spec h x) as [-> | Hne].
  - rewrite lookup_insert_eq.
    replace (occurrences x seen + 1)%nat with (S (occurrences x seen)) by lia.
    reflexivity.
  - rewrite lookup_insert_ne by congruence. rewrite Nat.add_0_r. apply Hc.
Qed.

Lemma ensureUniqueHeaders_from_length headerCounts hs :
  length (ensureUniqueHeaders_from headerCounts hs) = length hs.
Proof.
  revert headerCounts. induction hs as [| h hs IH]; intros headerCounts; cbn.
  - reflexivity.
  - destruct (headerCounts !! h); cbn; rewrite IH; reflexivity.
Qed.

Lemma ensureUniqueHeaders_from_lookup seen headerCounts hs i h :
  countsOf seen headerCounts ->
  hs !! i = Some h ->
  ensureUniqueHeaders_from headerCounts hs !! i =
  Some (labelled h (occurrences h (seen ++ take (S i) hs))).
Proof.
  revert seen headerCounts i.
  induction hs as [| x hs IH]; intros seen headerCounts i Hc Hi; [discriminate |].
  assert (Hstep := countsOf_step seen headerCounts x Hc).
  assert (Hx := Hc x).
  destruct i as [| i]; cbn in Hi.
  - injection Hi as ->. cbn [take]. rewrite take_0, occurrences_snoc, String.eqb_refl.
    cbn [ensureUniqueHeaders_from]. rewrite Hx. unfold labelled.
    destruct (occurrences h seen) as [| n]; cbn; [reflexivity |].
    replace (n + 1)%nat with (S n) by lia. reflexivity.
  - cbn [take]. replace (seen ++ x :: take (S i) hs)
      with ((seen ++ [x]) ++ take (S i) hs) by (rewrite <- app_assoc; reflexivity).
    cbn [ensureUniqueHeaders_from]. rewrite Hx.
    destruct (occurrences x seen) as [| n] eqn:Hn; cbn [Nat.eqb];
      rewrite lookup_cons_ne_0 by lia; cbn [Nat.pred];
      apply IH; assumption.
Qed.

Lemma countsOf_empty : countsOf [] ∅.
Proof. intros h. rewrite lookup_empty. reflexivity. Qed.

(** The rule of the normaliser: the first occurrence of a name is kept,
    the k-th occurrence (k >= 2) becomes "name (k)". *)
Lemma ensureUniqueHeaders_lookup hs i h :
  hs !! i = Some h ->
  ensureUniqueHeaders hs !! i = Some (labelled h (occurrences h (take (S i) hs))).
Proof.
  intros Hi. unfold ensureUniqueHeaders.
  rewrite (ensureUniqueHeaders_from_lookup [] ∅ hs i h countsOf_empty Hi).
  reflexivity.
Qed.

Lemma labelled_nonempty h k : h <> "" -> labelled h k <> "".
Proof.
  intros Hh. unfold labelled. destruct (k =? 1)%nat; [assumption |].
  destruct h; [congruence | discriminate].
Qed.

Lemma labelled_empty h k : labelled h k = "" -> h = "".
Proof.
  intros H. destruct (String.eqb_spec h "") as [-> | Hne]; [reflexivity |].
  exfalso. exact (labelled_nonempty h k Hne H).
Qed.

(** C9 as stated fails on the list that holds the empty name: it is
    emitted unchanged. *)
Lemma ensureUniqueHeaders_keeps_empty_name :
  ~ allNonEmpty (ensureUniqueHeaders [""]).
Proof.
  intros H. apply Forall_cons in H as [H _]. apply H. reflexivity.
Qed.

(** C9 (amended): ensureUniqueHeaders maps ["Hours"; "Hours"; "Name"] to
    ["Hours"; "Hours (2)"; "Name"] and the empty list to the empty list;
    for every input the output has the length of the input, and the
    entry at a position is non-empty whenever the input name at that
    position is non-empty: an output entry is empty only where the input
    name is empty and occurs for the first time. *)
Theorem ensureUniqueHeaders_shape :
  ensureUniqueHeaders ["Hours"; "Hours"; "Name"] = ["Hours"; "Hours (2)"; "Name"]
  /\ ensureUniqueHeaders [] = []
  /\ forall hs : list string,
       length (ensureUniqueHeaders hs) = length hs
       /\ (forall i h, hs !! i = Some h -> h <> "" ->
             exists u, ensureUniqueHeaders hs !! i = Some u /\ u <> "")
       /\ (forall i, ensureUniqueHeaders hs !! i = Some "" ->
             hs !! i = Some "" /\ occurrences "" (take i hs) = 0%nat).
Proof.
  split; [vm_compute; reflexivity |]. split; [reflexivity |].
  intros hs. split; [apply ensureUniqueHeaders_from_length |]. split.
  - intros i h Hi Hh. eexists. split; [apply ensureUniqueHeaders_lookup, Hi |].
    apply labelled_nonempty, Hh.
  - intros i Hu.
    assert (Hlt : (i < length hs)%nat).
    { rewrite <- (ensureUniqueHeaders_from_length ∅ hs).
      apply lookup_lt_is_Some. eexists. exact Hu. }
    destruct (lookup_lt_is_Some_2 hs i Hlt) as [h Hi].
    rewrite (ensureUniqueHeaders_lookup hs i h Hi) in Hu.
    injection Hu as Hu. assert (h = "") as -> by (eapply labelled_empty, Hu).
    split; [exact Hi |].
    rewrite (take_S_r hs i "" Hi), occurrences_snoc in Hu. cbn in Hu.
    unfold labelled in Hu.
    destruct (occurrences "" (take i hs)) as [| n]; [reflexivity |].
    replace (S n + 1 =? 1)%nat with false in Hu by (symmetry; apply Nat.eqb_neq; lia).
    discriminate.
Qed.

(** C9 (amended) at ["Hours"; "Hours"; "Name"], position 1. *)
Lemma ensureUniqueHeaders_shape_witness :
  exists u, ensureUniqueHeaders ["Hours"; "Hours"; "Name"] !! 1%nat = Some u /\ u <> "".
Proof.
  apply (proj1 (proj2 (proj2 (proj2 ensureUniqueHeaders_shape) ["Hours"; "Hours"; "Name"]))
           1%nat "Hours"); [reflexivity | discriminate].
Defined.

(* ===================================================================== *)
(** * Properties of convertCSVColumns *)
(* ===================================================================== *)

(** The clock string is never computed on a variable. *)
Arguments decimalToTime : simpl never.

Lemma getProp_insert_eq (r : row) k x : getProp (<[k := x]> r) k = x.
Proof. unfold getProp. rewrite lookup_insert_eq. reflexivity. Qed.

Lemma getProp_insert_ne (r : row) k k' x :
  k <> k' -> getProp (<[k := x]> r) k' = getProp r k'.
Proof. intros H. unfold getProp. rewrite lookup_insert_ne by exact H. reflexivity. Qed.

(** ** Replacing in place ([keepOriginal = false]) *)

Lemma convertColumn_replace_headers (r : row) nh col :
  snd (convertColumn false (r, nh) col) = nh.
Proof. cbn. destruct (getProp r col); reflexivity. Qed.

(** A cell that holds no number holds none after a step. *)
Lemma convertColumn_replace_non_number (r : row) nh col k :
  isNumber (getProp r k) = false ->
  isNumber (getProp (fst (convertColumn false (r, nh) col)) k) = false.
Proof.
  intros Hk. cbn. destruct (getProp r col) eqn:Hc; cbn; try exact Hk.
  destruct (String.eqb_spec col k) as [-> | Hne].
  - rewrite getProp_insert_eq. reflexivity.
  - rewrite getProp_insert_ne by exact Hne. exact Hk.
Qed.

(** The selected cell itself holds no number after its step. *)
Lemma convertColumn_replace_self (r : row) nh col :
  isNumber (getProp (fst (convertColumn false (r, nh) col)) col) = false.
Proof.
  cbn. destruct (getProp r col) eqn:Hc; cbn; rewrite ?Hc; try reflexivity.
  rewrite getProp_insert_eq. reflexivity.
Qed.

Lemma convertRow_replace (cols : list string) (r : row) nh :
  snd (convertRow cols false r nh) = nh
  /\ (forall k, isNumber (getProp r k) = false ->
        isNumber (getProp (fst (convertRow cols false r nh)) k) = false)
  /\ (forall col, col ∈ cols ->
        isNumber (getProp (fst (convertRow cols false r nh)) col) = false).
Proof.
  unfold convertRow. revert r.
  induction cols as [| col cols IH]; intros r; cbn [fold_left].
  - split; [reflexivity |]. split; [auto |]. intros col H. inversion H.
  - destruct (convertColumn false (r, nh) col) as [r1 nh1] eqn:Hstep.
    assert (nh1 = nh) as ->.
    { rewrite <- (convertColumn_replace_headers r nh col), Hstep. reflexivity. }
    destruct (IH r1) as (Hnh & Hmono & Hsel).
    split; [exact Hnh |]. split.
    + intros k Hk. apply Hmono.
      pose proof (convertColumn_replace_non_number r nh col k Hk) as H.
      rewrite Hstep in H. exact H.
    + intros col' Hin. apply elem_of_cons in Hin as [-> | Hin].
      * apply Hmono.
        pose proof (convertColumn_replace_self r nh col) as H.
        rewrite Hstep in H. exact H.
      * apply Hsel, Hin.
Qed.

(** A row without a number in any selected column is left as it is, in
    either mode. *)
Lemma convertRow_nothing_to_do (cols : list string) keepOriginal (r : row) nh :
  (forall col, col ∈ cols -> isNumber (getProp r col) = false) ->
  convertRow cols keepOriginal r nh = (r, nh).
Proof.
  unfold convertRow. induction cols as [| col cols IH]; intros H; cbn [fold_left].
  - reflexivity.
  - assert (Hc : isNumber (getProp r col) = false) by (apply H; left).
    assert (Hstep : convertColumn keepOriginal (r, nh) col = (r, nh)).
    { cbn. destruct (getProp r col); try reflexivity. discriminate. }
    rewrite Hstep. apply IH. intros col' Hin. apply H. right. exact Hin.
Qed.

Lemma convertRows_replace (cols : list string) (rows : list row) nh :
  convertRows cols false rows nh =
  (List.map (fun r => fst (convertRow cols false r nh)) rows, nh).
Proof.
  induction rows as [| r rows IH]; cbn [convertRows List.map].
  - reflexivity.
  - destruct (convertRow cols false r nh) as [r1 nh1] eqn:Hr.
    assert (nh1 = nh) as ->.
    { pose proof (proj1 (convertRow_replace cols r nh)) as H.
      rewrite Hr in H. exact H. }
    rewrite IH. reflexivity.
Qed.

(** C2: converting with keepOriginal = false a second time, with the
    same column selection, leaves the data of the first conversion
    unchanged (and records no new header). *)
Theorem convertCSVColumns_replace_idempotent :
  forall (rows : list row) (cols : list string),
    let once := convertCSVColumns rows cols false in
    let twice := convertCSVColumns (converted_data once) cols false in
    converted_data twice = converted_data once /\ newHeaders twice = [].
Proof.
  intros rows cols. cbn zeta. unfold convertCSVColumns.
  rewrite (convertRows_replace cols rows []). cbn [converted_data].
  rewrite convertRows_replace. cbn [converted_data newHeaders].
  split; [| reflexivity].
  rewrite List.map_map. apply List.map_ext. intros r.
  rewrite convertRow_nothing_to_do; [reflexivity |].
  apply (convertRow_replace cols r []).
Qed.

(** ** Adding derived columns ([keepOriginal = true]) *)

Lemma append_length (s1 s2 : string) :
  String.length (s1 +:+ s2) = (String.length s1 + String.length s2)%nat.
Proof. induction s1 as [| a s1 IH]; simpl; [reflexivity | f_equal; exact IH]. Qed.

Lemma append_inj_r (t s1 s2 : string) : s1 +:+ t = s2 +:+ t -> s1 = s2.
Proof.
  revert s2. induction s1 as [| a s1 IH]; intros [| b s2] H.
  - reflexivity.
  - exfalso. apply (f_equal String.length) in H.
    rewrite !append_length in H. simpl in H. lia.
  - exfalso. apply (f_equal String.length) in H.
    rewrite !append_length in H. simpl in H. lia.
  - simpl in H. injection H as -> H. f_equal. apply IH, H.
Qed.

Lemma derived_inj c d : derived c = derived d -> c = d.
Proof. apply append_inj_r. Qed.

Lemma includesStr_spec (l : list string) x : includesStr l x = true <-> x ∈ l.
Proof.
  unfold includesStr. rewrite existsb_exists. split.
  - intros (y & Hy & Heq). apply String.eqb_eq in Heq as ->.
    apply list_elem_of_In, Hy.
  - intros H. exists x. split; [apply list_elem_of_In, H | apply String.eqb_refl].
Qed.

(** The names pushed one after the other, each kept at its first
    occurrence. *)
Lemma pushNew_first_occurrences (l : list string) :
  fold_left pushNew l [] = reverse (remove_dups (reverse l)).
Proof.
  induction l as [| x l IH] using rev_ind; [reflexivity |].
  rewrite fold_left_app, reverse_snoc. cbn [fold_left remove_dups].
  rewrite IH. unfold pushNew.
  assert (Hiff : includesStr (reverse (remove_dups (reverse l))) x = true
                 <-> x ∈ reverse l).
  { rewrite includesStr_spec, elem_of_reverse, elem_of_remove_dups. reflexivity. }
  match goal with
  | |- context [decide_rel ?R ?a ?b] => destruct (decide_rel R a b) as [Hd | Hd]
  end.
  - apply Hiff in Hd. rewrite Hd. reflexivity.
  - destruct (includesStr (reverse (remove_dups (reverse l))) x).
    + exfalso. apply Hd, Hiff. reflexivity.
    + rewrite reverse_cons. reflexivity.
Qed.

Lemma convertColumns_keep (cols : list string) (r0 : row) :
  noDerivedSelected cols ->
  forall (l : list string) (acc : row) (nh : list string),
    (forall col, col ∈ l -> col ∈ cols) ->
    (forall col, col ∈ cols -> getProp acc col = getProp r0 col) ->
    fold_left (convertColumn true) l (acc, nh) =
    (fold_left (addDerived r0) l acc, fold_left pushNew (producedBy l r0) nh).
Proof.
  intros Hclash. induction l as [| col l IH]; intros acc nh Hsub Hsame.
  - reflexivity.
  - assert (Hcol : col ∈ cols) by (apply Hsub; left).
    assert (Hl : forall c', c' ∈ l -> c' ∈ cols) by (intros c' H; apply Hsub; right; exact H).
    cbn [fold_left]. unfold convertColumn at 2. rewrite (Hsame col Hcol).
    unfold addDerived at 2. unfold producedBy. cbn [List.filter].
    destruct (getProp r0 col) eqn:Hv; cbn [isNumber List.map fold_left];
      try (apply IH; assumption).
    fold (derived col). rewrite IH; [reflexivity | exact Hl |].
    intros c' Hc'. rewrite getProp_insert_ne; [apply Hsame, Hc' |].
    intros Heq. exact (Hclash col c' Hcol Hc' (eq_sym Heq)).
Qed.

(** A key that no numeric column of [l] derives keeps its entry. *)
Lemma addDerived_other (r0 : row) (l : list string) (acc : row) k :
  (forall col, col ∈ l -> isNumber (getProp r0 col) = true -> k <> derived col) ->
  fold_left (addDerived r0) l acc !! k = acc !! k.
Proof.
  revert acc. induction l as [| col l IH]; intros acc H; [reflexivity |].
  cbn [fold_left]. rewrite IH by (intros c' Hc'; apply H; right; exact Hc').
  unfold addDerived. destruct (getProp r0 col) eqn:Hv; try reflexivity.
  rewrite lookup_insert_ne; [reflexivity |].
  intros Heq. apply (H col); [left | rewrite Hv; reflexivity | symmetry; exact Heq].
Qed.

(** The derived key of a numeric column of [l] holds its clock string. *)
Lemma addDerived_numeric (r0 : row) (l : list string) (acc : row) col x :
  col ∈ l -> getProp r0 col = VNum x ->
  getProp (fold_left (addDerived r0) l acc) (derived col) = VStr (decimalToTime x).
Proof.
  revert acc. induction l as [| a l IH]; intros acc Hin Hx; [inversion Hin |].
  cbn [fold_left]. destruct (decide (col ∈ l)) as [Hl | Hl].
  - apply IH; assumption.
  - apply elem_of_cons in Hin as [-> | Hin]; [| contradiction].
    unfold getProp. rewrite addDerived_other.
    + unfold addDerived. rewrite Hx, lookup_insert_eq. reflexivity.
    + intros c' Hc' _ Heq. apply derived_inj in Heq as ->. contradiction.
Qed.

Lemma convertRows_keep (cols : list string) :
  noDerivedSelected cols ->
  forall (rows : list row) (nh : list string),
    convertRows cols true rows nh =
    (List.map (fun r0 => fold_left (addDerived r0) cols r0) rows,
     fold_left pushNew (List.flat_map (producedBy cols) rows) nh).
Proof.
  intros Hclash. induction rows as [| r0 rows IH]; intros nh; [reflexivity |].
  cbn [convertRows List.map List.flat_map]. unfold convertRow.
  rewrite (convertColumns_keep cols r0 Hclash cols r0 nh) by auto.
  rewrite IH, fold_left_app. reflexivity.
Qed.

Lemma Forall2_map_self {A B} (P : A -> B -> Prop) (f : A -> B) (l : list A) :
  (forall x, P x (f x)) -> Forall2 P l (List.map f l).
Proof. intros H. induction l; cbn; constructor; auto. Qed.

Lemma elem_of_producedBy cols (r0 : row) name :
  name ∈ producedBy cols r0 <->
  exists col, col ∈ cols /\ isNumber (getProp r0 col) = true /\ name = derived col.
Proof.
  unfold producedBy. rewrite list_elem_of_In, in_map_iff. split.
  - intros (col & <- & Hin). apply filter_In in Hin as [Hin Hnum].
    exists col. rewrite list_elem_of_In. auto.
  - intros (col & Hin & Hnum & ->). exists col. split; [reflexivity |].
    apply filter_In. rewrite list_elem_of_In in Hin. auto.
Qed.

(** C7 as stated fails when a selected column bears the derived name of
    another: the value "keep" of the selected column "A_hhmm" is
    overwritten by the clock string of "A". *)
Lemma keepOriginal_overwrites_selected :
  ~ preservesSelected [ {[ "A" := VNum 1.5; "A_hhmm" := VStr "keep" ]} ]
                      [ "A"; "A_hhmm" ].
Proof.
  unfold preservesSelected. intros H.
  assert (Hout : converted_data
            (convertCSVColumns [ {[ "A" := VNum 1.5; "A_hhmm" := VStr "keep" ]} ]
                               [ "A"; "A_hhmm" ] true)
          = [ {[ "A" := VNum 1.5; "A_hhmm" := VStr "01:30" ]} ])
    by (vm_compute; reflexivity).
  rewrite Hout in H. apply Forall2_cons in H as [H _].
  specialize (H "A_hhmm"). assert (Hin : "A_hhmm" ∈ [ "A"; "A_hhmm" ])
    by (apply list_elem_of_In; right; left; reflexivity).
  specialize (H Hin). vm_compute in H. discriminate H.
Qed.

(** C7 (amended): with keepOriginal = true, and provided no selected
    column is named "C_hhmm" for a selected column C: every output row
    holds the original value at every selected column; a row with a
    number at a selected column C holds the clock string under "C_hhmm",
    a row without a number at C has its "C_hhmm" entry (or the absence
    of one) unchanged; newHeaders lists every derived name once, in the
    order in which the rows, and in a row the selected columns, first
    produce it; and the output header line is the existing headers
    followed by newHeaders. *)
Theorem convertCSVColumns_keepOriginal :
  forall (rows : list row) (cols hs : list string),
    noDerivedSelected cols ->
    let out := convertCSVColumns rows cols true in
    Forall2
      (fun r0 r' =>
         (forall col, col ∈ cols -> getProp r' col = getProp r0 col)
         /\ (forall col x, col ∈ cols -> getProp r0 col = VNum x ->
               getProp r' (derived col) = VStr (decimalToTime x))
         /\ (forall col, col ∈ cols -> isNumber (getProp r0 col) = false ->
               r' !! derived col = r0 !! derived col))
      rows (converted_data out)
    /\ newHeaders out =
       reverse (remove_dups (reverse (List.flat_map (producedBy cols) rows)))
    /\ NoDup (newHeaders out)
    /\ (forall name, name ∈ newHeaders out <->
          exists r0 col, r0 ∈ rows /\ col ∈ cols
                         /\ isNumber (getProp r0 col) = true /\ name = derived col)
    /\ allHeaders hs (newHeaders out) = hs ++ newHeaders out.
Proof.
  intros rows cols hs Hclash. cbn zeta. unfold convertCSVColumns.
  rewrite (convertRows_keep cols Hclash rows []).
  cbn [converted_data newHeaders]. rewrite pushNew_first_occurrences.
  split; [| split; [reflexivity | split; [| split]]].
  - apply Forall2_map_self. intros r0. split; [| split].
    + intros col Hcol. unfold getProp. rewrite addDerived_other; [reflexivity |].
      intros c' Hc' _. apply Hclash; assumption.
    + intros col x Hcol Hx. apply addDerived_numeric; assumption.
    + intros col Hcol Hnum. apply addDerived_other.
      intros c' Hc' Hnum' Heq. apply derived_inj in Heq as ->. congruence.
  - rewrite reverse_Permutation. apply NoDup_remove_dups.
  - intros name. rewrite elem_of_reverse, elem_of_remove_dups, elem_of_reverse.
    rewrite list_elem_of_In, in_flat_map. split.
    + intros (r0 & Hr0 & Hname). rewrite <- list_elem_of_In in Hr0.
      rewrite <- list_elem_of_In in Hname.
      apply elem_of_producedBy in Hname as (col & Hcol & Hnum & ->).
      exists r0, col. auto.
    + intros (r0 & col & Hr0 & Hcol & Hnum & ->). exists r0.
      rewrite <- !list_elem_of_In. split; [exact Hr0 |].
      apply elem_of_producedBy. exists col. auto.
  - unfold allHeaders.
    destruct (reverse (remove_dups (reverse (List.flat_map (producedBy cols) rows))));
      cbn; [rewrite app_nil_r |]; reflexivity.
Qed.

(** C7 (amended) on one row with the selection ["Hours"]. *)
Lemma convertCSVColumns_keepOriginal_witness :
  noDerivedSelected [ "Hours" ]
  /\ NoDup (newHeaders (convertCSVColumns [ {[ "Hours" := VNum 7.5 ]} ] [ "Hours" ] true)).
Proof.
  assert (H : noDerivedSelected [ "Hours" ]).
  { intros c d Hc Hd. apply list_elem_of_singleton in Hc as ->.
    apply list_elem_of_singleton in Hd as ->. discriminate. }
  split; [exact H |].
  exact (proj1 (proj2 (proj2
           (convertCSVColumns_keepOriginal [ {[ "Hours" := VNum 7.5 ]} ] [ "Hours" ] [ "Hours" ] H)))).
Defined.

(* ===================================================================== *)
(** * Properties of detectDecimalHourColumns *)
(* ===================================================================== *)

(** C4 as stated fails: the column of 1001, 1002, 1003 is not among the
    suggestions. *)
Lemma employeeID_not_suggested :
  ~ "EmployeeID" ∈ detectDecimalHourColumns
                     [ "EmployeeID" ] (employeeRows [ 1001; 1002; 1003 ]%float).
Proof.
  assert (H : detectDecimalHourColumns
                [ "EmployeeID" ] (employeeRows [ 1001; 1002; 1003 ]%float) = [])
    by (vm_compute; reflexivity).
  rewrite H. apply not_elem_of_nil.
Qed.

(** ** The ratio of a count to itself, and bounds of folds

    [numericRatio] is 1 when every non-null value is a number: a finite
    double other than zero divided by itself is 1, and the double of a
    positive integer below 2^53 is such a double. *)
Lemma digits2_pos_lower (p : positive) :
  2 ^ (Z.pos (digits2_pos p) - 1) <= Z.pos p.
Proof.
  induction p as [p IH | p IH |]; cbn [digits2_pos].
  - rewrite Pos2Z.inj_succ. replace (Z.succ (Z.pos (digits2_pos p)) - 1)
      with (Z.succ (Z.pos (digits2_pos p) - 1)) by lia.
    rewrite Z.pow_succ_r by lia. lia.
  - rewrite Pos2Z.inj_succ. replace (Z.succ (Z.pos (digits2_pos p)) - 1)
      with (Z.succ (Z.pos (digits2_pos p) - 1)) by lia.
    rewrite Z.pow_succ_r by lia. lia.
  - cbn. lia.
Qed.

Lemma digits2_pos_bound (p : positive) :
  Z.pos p < 2 ^ 53 -> Z.pos (digits2_pos p) <= 53.
Proof.
  intros Hp. destruct (Z_le_gt_dec (Z.pos (digits2_pos p)) 53) as [H | H]; [exact H |].
  pose proof (digits2_pos_lower p) as Hlow.
  assert (2 ^ 53 <= 2 ^ (Z.pos (digits2_pos p) - 1)) by (apply Z.pow_le_mono_r; lia).
  lia.
Qed.

Lemma digits2_pos_iter (p k : positive) :
  digits2_pos (Pos.iter xO p k) = (digits2_pos p + k)%positive.
Proof.
  induction k as [| k IH] using Pos.peano_ind.
  - cbn. lia.
  - rewrite Pos.iter_succ. cbn [digits2_pos]. rewrite IH. lia.
Qed.

(** A mantissa of 53 digits with an exponent in range is a double as it
    is. *)
Lemma binary_round_aux_exact (s : bool) (q : positive) (e : Z) :
  digits2_pos q = 53%positive -> -1074 <= e <= 971 ->
  binary_round_aux prec emax s (Z.pos q) e loc_Exact = S754_finite s q e.
Proof.
  intros Hd He. unfold binary_round_aux, shr_fexp. cbn [Zdigits2 shr_record_of_loc].
  rewrite Hd.
  assert (Hf : fexp prec emax (53 + e) - e = 0).
  { unfold fexp, emin, prec, emax. lia. }
  rewrite Hf. cbn [shr shr_m loc_of_shr_record round_nearest_even Zdigits2
                   shr_record_of_loc].
  rewrite Hd, Hf. cbn [shr shr_m].
  assert (Hle : (e <=? emax - prec) = true) by (apply Z.leb_le; unfold emax, prec; lia).
  rewrite Hle. reflexivity.
Qed.

(** The double of a positive integer below 2^53 is finite and positive. *)
Lemma ofZ_finite (p : positive) :
  Z.pos p < 2 ^ 53 ->
  exists q e, Prim2SF (Num.ofZ (Z.pos p)) = S754_finite false q e.
Proof.
  intros Hp. pose proof (digits2_pos_bound p Hp) as Hd.
  unfold Num.ofZ. cbn [binary_normalize]. unfold binary_round, shl_align.
  assert (Hf : fexp prec emax (Z.pos (digits2_pos p) + 0) = Z.pos (digits2_pos p) - 53).
  { unfold fexp, emin, prec, emax. lia. }
  rewrite Hf, Z.sub_0_r.
  destruct (Z.pos (digits2_pos p) - 53) as [| k | k] eqn:Hk; [| lia |].
  - exists p, 0. rewrite binary_round_aux_exact by (lia).
    apply Prim2SF_SF2Prim. unfold valid_binary, bounded, canonical_mantissa.
    replace (digits2_pos p) with 53%positive by lia. reflexivity.
  - assert (Hdig : digits2_pos (Pos.iter xO p k) = 53%positive)
      by (rewrite digits2_pos_iter; lia).
    exists (Pos.iter xO p k), (Z.neg k).
    rewrite binary_round_aux_exact by (try exact Hdig; lia).
    apply Prim2SF_SF2Prim. unfold valid_binary, bounded, canonical_mantissa.
    rewrite Hdig. apply andb_true_intro. split.
    + apply Z.eqb_eq. unfold fexp, emin, prec, emax. lia.
    + apply Z.leb_le. unfold prec, emax. lia.
Qed.

(** A finite double that is not zero, divided by itself, is 1. *)
Lemma div_same (x : float) (s : bool) (m : positive) (e : Z) :
  Prim2SF x = S754_finite s m e -> (x / x)%float = 1%float.
Proof.
  intros Hx. apply Prim2SF_inj. rewrite div_spec, Hx.
  unfold SF64div, SFdiv, SFdiv_core_binary. cbv zeta.
  replace (Zdigits2 (Z.pos m) + e - (Zdigits2 (Z.pos m) + e)) with 0 by lia.
  rewrite Z.sub_diag.
  change (Z.min (fexp prec emax 0) 0) with (-53).
  change (0 - -53) with 53. cbv beta iota.
  assert (Hdiv : Z.div_eucl (Z.shiftl (Z.pos m) 53) (Z.pos m) = (2 ^ 53, 0)).
  { rewrite Z.shiftl_mul_pow2 by lia.
    pose proof (Z.div_eucl_eq (Z.pos m * 2 ^ 53) (Z.pos m)) as Heq.
    pose proof (Z.mod_pos_bound (Z.pos m * 2 ^ 53) (Z.pos m)) as Hmod.
    unfold Z.modulo in Hmod.
    destruct (Z.div_eucl (Z.pos m * 2 ^ 53) (Z.pos m)) as [q r].
    cbn [snd] in Hmod. specialize (Heq ltac:(lia)). specialize (Hmod ltac:(lia)).
    assert (q = 2 ^ 53) by nia. subst q. f_equal. lia. }
  rewrite Hdiv. unfold new_location.
  destruct (Z.even (Z.pos m)); unfold new_location_even, new_location_odd;
    cbn [Z.eqb]; destruct s; vm_compute; reflexivity.
Qed.

Lemma ofNat_ratio_one (n : nat) :
  (1 <= n)%nat -> Z.of_nat n < 2 ^ 53 ->
  (Num.ofNat n / Num.ofNat n)%float = 1%float.
Proof.
  intros Hn Hb. unfold Num.ofNat.
  destruct (Z.of_nat n) as [| p | p] eqn:Hz; [lia | | lia].
  destruct (ofZ_finite p Hb) as (q & e & Hq). exact (div_same _ _ _ _ Hq).
Qed.

(** A number that compares below or equal to another is not NaN. *)
Lemma leb_true_not_nan_l (a c : float) : (a <=? c)%float = true -> is_nan a = false.
Proof.
  intros H. destruct (is_nan a) eqn:Ha; [| reflexivity].
  unfold is_nan in Ha. apply Bool.negb_true_iff in Ha.
  rewrite FloatAxioms.eqb_spec in Ha. rewrite leb_spec in H.
  revert Ha H. unfold SFeqb, SFleb.
  destruct (Prim2SF a) as [sa | sa | | sa ma ea], (Prim2SF c) as [sc | sc | | sc mc ec];
    cbn; try discriminate; try (destruct sa; discriminate);
    destruct sa; cbn; rewrite Z.compare_refl, Pos.compare_cont_refl; discriminate.
Qed.

Lemma leb_true_not_nan_r (a c : float) : (c <=? a)%float = true -> is_nan a = false.
Proof.
  intros H. destruct (is_nan a) eqn:Ha; [| reflexivity].
  unfold is_nan in Ha. apply Bool.negb_true_iff in Ha.
  rewrite FloatAxioms.eqb_spec in Ha. rewrite leb_spec in H.
  revert Ha H. unfold SFeqb, SFleb.
  destruct (Prim2SF a) as [sa | sa | | sa ma ea], (Prim2SF c) as [sc | sc | | sc mc ec];
    cbn; try discriminate; try (destruct sa; discriminate);
    try (destruct sc; discriminate);
    destruct sa; cbn; rewrite Z.compare_refl, Pos.compare_cont_refl; discriminate.
Qed.

(** A bound of both arguments bounds the maximum, and the minimum. *)
Lemma max_leb_intro (a b c : float) :
  (a <=? c)%float = true -> (b <=? c)%float = true ->
  (Num.max a b <=? c)%float = true.
Proof.
  intros Ha Hb. unfold Num.max.
  rewrite (leb_true_not_nan_l a c Ha), (leb_true_not_nan_l b c Hb). cbn [orb].
  destruct (a <? b)%float; [exact Hb |].
  destruct (b <? a)%float; [exact Ha |].
  destruct (get_sign a); assumption.
Qed.

Lemma min_leb_intro (a b c : float) :
  (c <=? a)%float = true -> (c <=? b)%float = true ->
  (c <=? Num.min a b)%float = true.
Proof.
  intros Ha Hb. unfold Num.min.
  rewrite (leb_true_not_nan_r a c Ha), (leb_true_not_nan_r b c Hb). cbn [orb].
  destruct (a <? b)%float; [exact Ha |].
  destruct (b <? a)%float; [exact Hb |].
  destruct (get_sign a); assumption.
Qed.

Lemma fold_max_leb_intro (values : list float) (init c : float) :
  (init <=? c)%float = true ->
  (forall x, In x values -> (x <=? c)%float = true) ->
  (fold_left Num.max values init <=? c)%float = true.
Proof.
  revert init. induction values as [| y values IH]; intros init Hinit Hall;
    cbn [fold_left]; [exact Hinit |].
  apply IH.
  - apply max_leb_intro; [exact Hinit | apply Hall; left; reflexivity].
  - intros x Hx. apply Hall. right. exact Hx.
Qed.

Lemma fold_min_leb_intro (values : list float) (init c : float) :
  (c <=? init)%float = true ->
  (forall x, In x values -> (c <=? x)%float = true) ->
  (c <=? fold_left Num.min values init)%float = true.
Proof.
  revert init. induction values as [| y values IH]; intros init Hinit Hall;
    cbn [fold_left]; [exact Hinit |].
  apply IH.
  - apply min_leb_intro; [exact Hinit | apply Hall; left; reflexivity].
  - intros x Hx. apply Hall. right. exact Hx.
Qed.

Lemma filter_all_true {A} (p : A -> bool) (l : list A) :
  (forall x, In x l -> p x = true) -> List.filter p l = l.
Proof.
  induction l as [| x l IH]; intros H; [reflexivity |].
  cbn [List.filter]. rewrite (H x (or_introl eq_refl)).
  rewrite IH; [reflexivity |]. intros y Hy. apply H. right. exact Hy.
Qed.

Lemma filter_length_le {A} (p : A -> bool) (l : list A) :
  (length (List.filter p l) <= length l)%nat.
Proof.
  induction l as [| x l IH]; cbn [List.filter length]; [lia |].
  destruct (p x); cbn [length]; lia.
Qed.

(** The rule of the keyword-less branch, and of the keyword branch
    alike: a column that holds a non-null value, all of whose non-null
    values are numbers within [-1000, 1000], passes the test of the
    loop. *)
Lemma suggestsColumn_all_numeric (rows : list row) (h : string) :
  (Z.of_nat (length rows) < 2 ^ 53)%Z ->
  (exists r0, r0 ∈ rows /\ notNullish (getProp r0 h) = true) ->
  (forall r0, r0 ∈ rows -> notNullish (getProp r0 h) = true ->
     exists x, getProp r0 h = VNum x
               /\ (-1000 <=? x)%float = true /\ (x <=? 1000)%float = true) ->
  suggestsColumn rows h = true.
Proof.
  intros Hlen (r1 & Hr1 & Hv1) Hall. unfold suggestsColumn.
  set (columnValues := List.filter notNullish (List.map (fun r0 => getProp r0 h) rows)).
  assert (Hvalues : forall val, In val columnValues ->
            exists x, val = VNum x
                      /\ (-1000 <=? x)%float = true /\ (x <=? 1000)%float = true).
  { intros val Hval. subst columnValues. apply filter_In in Hval as [Hval Hnn].
    apply in_map_iff in Hval as (r0 & <- & Hr0).
    apply (Hall r0); [apply list_elem_of_In, Hr0 | exact Hnn]. }
  assert (Hpos : (1 <= length columnValues)%nat).
  { assert (Hin : In (getProp r1 h) columnValues).
    { subst columnValues. apply filter_In. split; [| exact Hv1].
      apply in_map_iff. exists r1. split; [reflexivity | apply list_elem_of_In, Hr1]. }
    destruct columnValues; [destruct Hin | cbn [length]; lia]. }
  assert (Hbound : (length columnValues <= length rows)%nat).
  { subst columnValues. etransitivity; [apply filter_length_le |].
    rewrite length_map. lia. }
  assert (Hnum : List.filter isNumber columnValues = columnValues).
  { apply filter_all_true. intros val Hval.
    destruct (Hvalues val Hval) as (x & -> & _). reflexivity. }
  rewrite Hnum.
  assert (Hzero : (length columnValues =? 0)%nat = false) by (apply Nat.eqb_neq; lia).
  rewrite Hzero, ofNat_ratio_one by lia.
  change (1 <? 0.8)%float with false. change (1 =? 1)%float with true.
  cbv iota.
  assert (Hmin : (-1000 <=? fold_left Num.min (List.map numberOf columnValues) infinity)%float
                 = true).
  { apply fold_min_leb_intro; [reflexivity |].
    intros x Hx. apply in_map_iff in Hx as (val & <- & Hval).
    destruct (Hvalues val Hval) as (x & -> & Hlo & _). exact Hlo. }
  assert (Hmax : (fold_left Num.max (List.map numberOf columnValues) neg_infinity <=? 1000)%float
                 = true).
  { apply fold_max_leb_intro; [reflexivity |].
    intros x Hx. apply in_map_iff in Hx as (val & <- & Hval).
    destruct (Hvalues val Hval) as (x & -> & _ & Hhi). exact Hhi. }
  rewrite Hmin, Hmax. cbn [andb].
  destruct (existsb _ timeKeywords); reflexivity.
Qed.

(** C4 (amended): a column named "EmployeeID" whose values are
    [1001, 1002, 1003] is not suggested, because its maximum is above
    the bound 1000 of the range check; columns of that name holding
    [101, 102, 103] or [998, 999, 1000] are suggested. The rule: in a
    table of fewer than 2^53 rows, every header, with or without a time
    keyword, whose column holds at least one non-null value and whose
    non-null values are all numbers within [-1000, 1000] is suggested. *)
Theorem detect_employeeID :
  detectDecimalHourColumns
    [ "EmployeeID" ] (employeeRows [ 1001; 1002; 1003 ]%float) = []
  /\ detectDecimalHourColumns
       [ "EmployeeID" ] (employeeRows [ 101; 102; 103 ]%float) = [ "EmployeeID" ]
  /\ detectDecimalHourColumns
       [ "EmployeeID" ] (employeeRows [ 998; 999; 1000 ]%float) = [ "EmployeeID" ]
  /\ suggestsColumn (employeeRows [ 1000; 1001 ]%float) "EmployeeID" = false
  /\ (forall (hs : list string) (rows : list row) (h : string),
        h ∈ hs ->
        (Z.of_nat (length rows) < 2 ^ 53)%Z ->
        (exists r0, r0 ∈ rows /\ notNullish (getProp r0 h) = true) ->
        (forall r0, r0 ∈ rows -> notNullish (getProp r0 h) = true ->
           exists x, getProp r0 h = VNum x
                     /\ (-1000 <=? x)%float = true /\ (x <=? 1000)%float = true) ->
        h ∈ detectDecimalHourColumns hs rows).
Proof.
  do 4 (split; [vm_compute; reflexivity |]).
  intros hs rows h Hh Hlen Hsome Hall. unfold detectDecimalHourColumns.
  apply list_elem_of_In, filter_In. split; [apply list_elem_of_In, Hh |].
  apply suggestsColumn_all_numeric; assumption.
Qed.

(** C4 (amended) on the column of 101, 102, 103. *)
Lemma detect_employeeID_witness :
  "EmployeeID" ∈ [ "EmployeeID" ]
  /\ (Z.of_nat (length (employeeRows [ 101; 102; 103 ]%float)) < 2 ^ 53)%Z
  /\ "EmployeeID" ∈ detectDecimalHourColumns
                      [ "EmployeeID" ] (employeeRows [ 101; 102; 103 ]%float).
Proof.
  assert (Hh : "EmployeeID" ∈ [ "EmployeeID" ]) by (apply list_elem_of_singleton; reflexivity).
  assert (Hlen : (Z.of_nat (length (employeeRows [ 101; 102; 103 ]%float)) < 2 ^ 53)%Z)
    by (vm_compute; reflexivity).
  split; [exact Hh |]. split; [exact Hlen |].
  apply (proj2 (proj2 (proj2 (proj2 detect_employeeID))) _ _ _ Hh Hlen).
  - exists {[ "EmployeeID" := VNum 101 ]}. split; [| reflexivity].
    apply list_elem_of_In. left. reflexivity.
  - intros r0 Hr0 _. apply list_elem_of_In in Hr0.
    destruct Hr0 as [<- | [<- | [<- | []]]];
      eexists; (split; [reflexivity | split; reflexivity]).
Defined.

(* ===================================================================== *)
(** * Properties of parseCSVFile *)
(* ===================================================================== *)

(** A key that is the unique name of no position from [index] on, or is
    empty, keeps its entry. *)
Lemma remapRow_from_other (us : list string) (r0 : row) (hs : list string)
    (index : nat) (acc : row) (k : string) :
  (forall j, (index <= j)%nat -> us !! j = Some k -> k = "") ->
  remapRow_from us r0 hs index acc !! k = acc !! k.
Proof.
  revert index acc. induction hs as [| h hs IH]; intros index acc Hk; [reflexivity |].
  cbn [remapRow_from]. rewrite IH by (intros j Hj; apply Hk; lia).
  destruct (us !! index) as [u |] eqn:Hu; [| reflexivity].
  destruct (String.eqb_spec u "") as [-> | Hne]; cbn [negb]; [reflexivity |].
  rewrite lookup_insert_ne; [reflexivity |].
  intros ->. apply Hne, (Hk index); [lia | exact Hu].
Qed.

(** The entry of a non-empty unique name that is not repeated later is
    the value the parsed row holds under the original name. *)
Lemma remapRow_from_lookup (us : list string) (r0 : row) (hs : list string)
    (index : nat) (acc : row) (p : nat) (f u : string) :
  hs !! p = Some f ->
  us !! (index + p)%nat = Some u ->
  u <> "" ->
  (forall j, (index + p < j)%nat -> us !! j <> Some u) ->
  remapRow_from us r0 hs index acc !! u = Some (getProp r0 f).
Proof.
  revert index acc p. induction hs as [| h hs IH]; intros index acc p Hf Hu Hne Hlast;
    [discriminate |].
  cbn [remapRow_from]. destruct p as [| p]; cbn in Hf.
  - injection Hf as ->. rewrite Nat.add_0_r in Hu, Hlast.
    rewrite remapRow_from_other.
    + rewrite Hu. destruct (String.eqb_spec u "") as [-> | _]; [congruence |].
      cbn [negb]. apply lookup_insert_eq.
    + intros j Hj Hj'. exfalso. apply (Hlast j); [lia | exact Hj'].
  - apply (IH (S index) _ p Hf).
    + replace (S index + p)%nat with (index + S p)%nat by lia. exact Hu.
    + exact Hne.
    + intros j Hj. apply Hlast. lia.
Qed.

Lemma papaRow_from_other (fields : list string) (cells : list value) (acc : row) k :
  k ∉ fields -> papaRow_from fields cells acc !! k = acc !! k.
Proof.
  revert cells acc. induction fields as [| f fields IH]; intros cells acc Hk;
    [reflexivity |].
  destruct cells as [| cell cells]; [reflexivity |]. cbn [papaRow_from].
  rewrite IH by (intros H; apply Hk; right; exact H).
  apply lookup_insert_ne. intros ->. apply Hk. left.
Qed.

(** Under distinct field names the parsed row holds every cell under
    the name of its column. *)
Lemma papaRow_from_lookup (fields : list string) (cells : list value) (acc : row)
    (i : nat) (f : string) (cell : value) :
  NoDup fields -> fields !! i = Some f -> cells !! i = Some cell ->
  papaRow_from fields cells acc !! f = Some cell.
Proof.
  revert cells acc i. induction fields as [| g fields IH]; intros cells acc i Hnd Hf Hc;
    [discriminate |].
  apply NoDup_cons in Hnd as [Hg Hnd].
  destruct cells as [| c0 cells]; [destruct i; discriminate |].
  cbn [papaRow_from]. destruct i as [| i]; cbn in Hf, Hc.
  - injection Hf as ->. injection Hc as ->.
    rewrite papaRow_from_other by exact Hg. apply lookup_insert_eq.
  - apply (IH cells _ i Hnd Hf Hc).
Qed.

Lemma occurrences_zero h (l : list string) : h ∉ l -> occurrences h l = 0%nat.
Proof.
  unfold occurrences. induction l as [| x l IH]; intros Hn; [reflexivity |].
  cbn [List.filter]. destruct (String.eqb_spec h x) as [-> | _].
  - exfalso. apply Hn. left.
  - apply IH. intros H. apply Hn. right. exact H.
Qed.

(** Distinct names are left as they are. *)
Lemma ensureUniqueHeaders_NoDup (hs : list string) :
  NoDup hs -> ensureUniqueHeaders hs = hs.
Proof.
  intros Hnd. apply list_eq. intros i.
  destruct (hs !! i) as [h |] eqn:Hi.
  - rewrite (ensureUniqueHeaders_lookup hs i h Hi).
    rewrite (take_S_r hs i h Hi), occurrences_snoc, String.eqb_refl.
    rewrite occurrences_zero; [reflexivity |].
    rewrite <- (take_drop i hs) in Hnd. apply NoDup_app in Hnd as (_ & Hdis & _).
    intros Hin. apply (Hdis h Hin).
    apply list_elem_of_lookup. exists 0%nat. rewrite lookup_drop, Nat.add_0_r. exact Hi.
  - apply lookup_ge_None. unfold ensureUniqueHeaders.
    rewrite ensureUniqueHeaders_from_length. apply lookup_ge_None, Hi.
Qed.

(** C8 as stated fails on a header line with an empty name: the cell of
    that column is not stored. *)
Lemma parseCSVFile_drops_unnamed_column :
  ~ keyedPositionally [ "a"; ""; "b" ] [ VNum 1; VNum 2; VNum 3 ].
Proof.
  intros H. specialize (H 1%nat "" (VNum 2) eq_refl eq_refl).
  vm_compute in H. discriminate H.
Qed.

(** C8 (amended): parseCSVFile always yields a table whose headers are
    the normalised field names. The parser reports distinct field names
    (it renames a name that is repeated in the header line); then the
    headers are the field names, and for every position whose name is
    not empty the cell of the i-th column of a line is stored under the
    i-th header, while a column whose name is empty is not stored. For
    any field names: every output row holds, under each normalised name
    that is non-empty and not repeated at a later position, the value
    that the parsed row holds under the original field name of that
    position, and holds nothing under the empty name. *)
Theorem parseCSVFile_keys_rows :
  forall (file_name : string) (fields : list string) (rows : list row),
    exists out,
      parseCSVFile file_name
        (PapaComplete {| meta_fields := Some fields; results_data := rows |}) = Ok out
      /\ headers out = ensureUniqueHeaders fields
      /\ Forall2
           (fun r0 r' =>
              (forall i f u,
                  fields !! i = Some f -> headers out !! i = Some u -> u <> "" ->
                  (forall j, (i < j)%nat -> headers out !! j <> Some u) ->
                  getProp r' u = getProp r0 f)
              /\ r' !! "" = None)
           rows (data out)
      /\ (NoDup fields ->
          headers out = fields
          /\ forall cells i f cell,
               fields !! i = Some f -> f <> "" -> cells !! i = Some cell ->
               getProp (remapRow fields (headers out) (papaRow fields cells)) f = cell).
Proof.
  intros file_name fields rows.
  set (us := ensureUniqueHeaders fields).
  set (rows' := List.map (remapRow fields us) rows).
  exists {| fileName := file_name; headers := us; data := rows';
            suggestedColumns := detectDecimalHourColumns us rows' |}.
  split; [reflexivity |].
  cbn [headers data]. subst us rows'. split; [reflexivity |]. split.
  - apply Forall2_map_self. intros r0. unfold remapRow. split.
    + intros i f u Hf Hu Hne Hlast. unfold getProp at 1.
      rewrite (remapRow_from_lookup _ r0 fields 0 ∅ i f u Hf Hu Hne Hlast).
      reflexivity.
    + rewrite remapRow_from_other; [apply lookup_empty | auto].
  - intros Hnd. rewrite (ensureUniqueHeaders_NoDup fields Hnd).
    split; [reflexivity |]. intros cells i f cell Hf Hne Hc.
    unfold remapRow, getProp at 1.
    rewrite (remapRow_from_lookup fields _ fields 0 ∅ i f f Hf Hf).
    + unfold getProp, papaRow.
      rewrite (papaRow_from_lookup fields cells ∅ i f cell Hnd Hf Hc). reflexivity.
    + exact Hne.
    + intros j Hj Hj'. cbn in Hj.
      pose proof (NoDup_lookup fields i j f Hnd Hf Hj'). lia.
Qed.

(** C8 (amended) on a file of three columns, the second without a name. *)
Lemma parseCSVFile_keys_rows_witness :
  NoDup [ "Employee"; ""; "Hours" ]
  /\ exists out,
       parseCSVFile "report.csv"
         (PapaComplete {| meta_fields := Some [ "Employee"; ""; "Hours" ];
                          results_data := [ papaRow [ "Employee"; ""; "Hours" ]
                                              [ VStr "Ann"; VNull; VNum 7.5 ] ] |})
       = Ok out
       /\ headers out = [ "Employee"; ""; "Hours" ]
       /\ getProp (remapRow [ "Employee"; ""; "Hours" ] (headers out)
                     (papaRow [ "Employee"; ""; "Hours" ]
                              [ VStr "Ann"; VNull; VNum 7.5 ]))
                  "Hours" = VNum 7.5.
Proof.
  assert (Hnd : NoDup [ "Employee"; ""; "Hours" ]).
  { apply NoDup_ListNoDup. repeat constructor; cbn; intuition discriminate. }
  split; [exact Hnd |].
  destruct (parseCSVFile_keys_rows "report.csv" [ "Employee"; ""; "Hours" ]
              [ papaRow [ "Employee"; ""; "Hours" ] [ VStr "Ann"; VNull; VNum 7.5 ] ])
    as (out & Hout & _ & _ & Hpos).
  exists out. split; [exact Hout |].
  destruct (Hpos Hnd) as [Hheaders Hcells].
  split; [exact Hheaders |].
  apply (Hcells [ VStr "Ann"; VNull; VNum 7.5 ] 2%nat "Hours" (VNum 7.5) eq_refl);
    [discriminate | reflexivity].
Defined.

(* ===================================================================== *)
(** * Properties of detectHeaderRow *)
(* ===================================================================== *)

Lemma elem_of_markersInCell cell m :
  m ∈ markersInCell cell <->
  m ∈ markers /\ match cell with VStr str => Str.includes str m | _ => false end = true.
Proof.
  destruct cell; cbn [markersInCell];
    try (rewrite elem_of_empty; split; [contradiction | intros [_ H]; discriminate H]).
  rewrite elem_of_list_to_set, list_elem_of_In, filter_In, <- list_elem_of_In.
  reflexivity.
Qed.

Lemma elem_of_markersInRow (cells : list value) (found : gset string) m :
  m ∈ markersInRow found cells <->
  m ∈ found \/ exists cell, cell ∈ cells /\ m ∈ markersInCell cell.
Proof.
  unfold markersInRow. revert found.
  induction cells as [| cell cells IH]; intros found; cbn [fold_left].
  - split; [auto | intros [H | (cell & H & _)]; [exact H | inversion H]].
  - rewrite IH, elem_of_union. split.
    + intros [[H | H] | (cell' & Hin & H)]; [auto | |].
      * right. exists cell. split; [left | exact H].
      * right. exists cell'. split; [right; exact Hin | exact H].
    + intros [H | (cell' & Hin & H)]; [auto |].
      apply elem_of_cons in Hin as [-> | Hin]; [auto |].
      right. exists cell'. auto.
Qed.

Lemma elem_of_fold_markersInRow (rs : grid) (found : gset string) m :
  m ∈ fold_left markersInRow rs found <->
  m ∈ found \/ exists cells cell, cells ∈ rs /\ cell ∈ cells /\ m ∈ markersInCell cell.
Proof.
  revert found. induction rs as [| cells rs IH]; intros found; cbn [fold_left].
  - split; [auto | intros [H | (cells & cell & H & _)]; [exact H | inversion H]].
  - rewrite IH, elem_of_markersInRow. split.
    + intros [[H | (cell & Hin & H)] | (cells' & cell & Hin' & Hin & H)]; [auto | |].
      * right. exists cells, cell. split; [left | auto].
      * right. exists cells', cell. split; [right; exact Hin' | auto].
    + intros [H | (cells' & cell & Hin' & Hin & H)]; [auto |].
      apply elem_of_cons in Hin' as [-> | Hin']; [left; right; eauto |].
      right. exists cells', cell. auto.
Qed.

Lemma markerOccurs_spec (rows : grid) m :
  markerOccurs rows m = true <->
  exists cells cell, cells ∈ take 6 rows /\ cell ∈ cells
    /\ match cell with VStr str => Str.includes str m | _ => false end = true.
Proof.
  unfold markerOccurs. rewrite existsb_exists. split.
  - intros (cells & Hin & H). apply existsb_exists in H as (cell & Hc & H).
    exists cells, cell. rewrite !list_elem_of_In. auto.
  - intros (cells & cell & Hin & Hc & H). exists cells.
    rewrite list_elem_of_In in Hin. split; [exact Hin |].
    apply existsb_exists. exists cell. rewrite list_elem_of_In in Hc. auto.
Qed.

(** The set the loop collects holds the markers that occur. *)
Lemma foundMarkers_spec (rows : grid) :
  foundMarkers rows = list_to_set (List.filter (markerOccurs rows) markers).
Proof.
  apply set_eq. intros m. unfold foundMarkers.
  rewrite elem_of_fold_markersInRow, elem_of_list_to_set.
  rewrite list_elem_of_In, filter_In, <- list_elem_of_In, markerOccurs_spec.
  split.
  - intros [H | (cells & cell & Hin & Hc & H)]; [inversion H |].
    apply elem_of_markersInCell in H as [Hm H]. split; [exact Hm | eauto].
  - intros (Hm & cells & cell & Hin & Hc & H). right. exists cells, cell.
    split; [exact Hin |]. split; [exact Hc |]. apply elem_of_markersInCell. auto.
Qed.

Lemma NoDup_markers : NoDup markers.
Proof.
  unfold markers. repeat (apply NoDup_cons; split); try apply NoDup_nil_2;
    rewrite list_elem_of_In; cbn; intros H;
    repeat (destruct H as [H | H]; [discriminate H |]); exact H.
Qed.

Lemma NoDup_filter_list {A} (p : A -> bool) (l : list A) :
  NoDup l -> NoDup (List.filter p l).
Proof.
  induction 1 as [| x l Hx Hnd IH]; cbn; [constructor |].
  destruct (p x); [| exact IH]. constructor; [| exact IH].
  rewrite list_elem_of_In, filter_In, <- list_elem_of_In. intros [H _]. exact (Hx H).
Qed.

(** [hasReportHeader] holds when at least two of the three markers occur. *)
Lemma hasReportHeader_spec (rows : grid) :
  hasReportHeader rows = (2 <=? markersFound rows)%nat.
Proof.
  unfold hasReportHeader, markersFound. rewrite foundMarkers_spec.
  rewrite size_list_to_set by apply NoDup_filter_list, NoDup_markers.
  reflexivity.
Qed.

Lemma countCells_le (p : value -> bool) (cells : list value) :
  (countCells p cells <= length cells)%nat.
Proof.
  unfold countCells. induction cells as [| cell cells IH]; cbn; [lia |].
  destruct (p cell); cbn; lia.
Qed.

Lemma ratioAgrees_128 : ratioAgrees 128 = true.
Proof. vm_compute. reflexivity. Qed.

Lemma ratioAgrees_spec (bound n k : nat) :
  ratioAgrees bound = true -> (1 <= n <= bound)%nat -> (k <= bound)%nat ->
  (0.6 <=? Num.ofNat k / Num.ofNat n)%float = (3 * n <=? 5 * k)%nat.
Proof.
  unfold ratioAgrees. intros Hall Hn Hk. rewrite forallb_forall in Hall.
  assert (Hin : In n (seq 1 bound)) by (apply in_seq; lia).
  specialize (Hall n Hin). rewrite forallb_forall in Hall.
  apply Bool.eqb_prop, (Hall k). apply in_seq. lia.
Qed.

(** On a row of at most 128 cells the test of the code is the exact
    one: at least 5 non-empty cells, and 5 times the number of string
    cells at least 3 times the number of non-empty cells. *)
Lemma looksLikeHeader_exact (cells : list value) :
  (length cells <= 128)%nat ->
  looksLikeHeader cells =
  (5 <=? countCells nonEmptyCell cells)%nat
  && (3 * countCells nonEmptyCell cells <=? 5 * countCells isString cells)%nat.
Proof.
  intros Hlen. unfold looksLikeHeader.
  pose proof (countCells_le nonEmptyCell cells) as Hn.
  pose proof (countCells_le isString cells) as Hk.
  destruct (5 <=? countCells nonEmptyCell cells)%nat eqn:Hfive; [| reflexivity].
  apply Nat.leb_le in Hfive. cbn [andb].
  apply (ratioAgrees_spec 128); [exact ratioAgrees_128 | lia | lia].
Qed.

(** The loop returns the first row of its window that looks like a
    header, and 6 when the window has none. *)
Lemma findColumnHeaderRow_from_spec (rows : grid) (n i : nat) :
  (exists cells,
      rows !! findColumnHeaderRow_from rows i n = Some cells
      /\ looksLikeHeader cells = true
      /\ (i <= findColumnHeaderRow_from rows i n < i + n)%nat
      /\ forall j cells', (i <= j < findColumnHeaderRow_from rows i n)%nat ->
           rows !! j = Some cells' -> looksLikeHeader cells' = false)
  \/ (findColumnHeaderRow_from rows i n = 6%nat
      /\ forall j cells', (i <= j < i + n)%nat ->
           rows !! j = Some cells' -> looksLikeHeader cells' = false).
Proof.
  revert i. induction n as [| n IH]; intros i; cbn [findColumnHeaderRow_from].
  - right. split; [reflexivity |]. intros j cells' Hj. lia.
  - assert (Hskip :
      (forall cells', rows !! i = Some cells' -> looksLikeHeader cells' = false) ->
      (exists cells,
          rows !! findColumnHeaderRow_from rows (S i) n = Some cells
          /\ looksLikeHeader cells = true
          /\ (i <= findColumnHeaderRow_from rows (S i) n < i + S n)%nat
          /\ forall j cells', (i <= j < findColumnHeaderRow_from rows (S i) n)%nat ->
               rows !! j = Some cells' -> looksLikeHeader cells' = false)
      \/ (findColumnHeaderRow_from rows (S i) n = 6%nat
          /\ forall j cells', (i <= j < i + S n)%nat ->
               rows !! j = Some cells' -> looksLikeHeader cells' = false)).
    { intros Hi. destruct (IH (S i)) as [(cells & Hc & Hl & Hr & Hfirst) | [H6 Hnone]].
      - left. exists cells. split; [exact Hc |]. split; [exact Hl |].
        split; [lia |]. intros j cells' Hj Hj'.
        destruct (decide (j = i)) as [-> | Hne]; [apply Hi, Hj' |].
        apply (Hfirst j); [lia | exact Hj'].
      - right. split; [exact H6 |]. intros j cells' Hj Hj'.
        destruct (decide (j = i)) as [-> | Hne]; [apply Hi, Hj' |].
        apply (Hnone j); [lia | exact Hj']. }
    destruct (rows !! i) as [cells |] eqn:Hrow.
    + destruct (looksLikeHeader cells) eqn:Hlook.
      * left. exists cells. split; [exact Hrow |]. split; [exact Hlook |].
        split; [lia |]. intros j cells' Hj. lia.
      * apply Hskip. intros cells' Heq. injection Heq as <-. exact Hlook.
    + apply Hskip. intros cells' Heq. discriminate Heq.
Qed.

(** C3: on [preambleGrid] the code takes row 3, whose non-empty cells
    are all numbers, where the stated rule ("at least 60% of the
    non-empty cells are strings") gives row 6: [stringCells] counts the
    empty strings that [nonEmptyCells] leaves out. *)
Lemma detectHeaderRow_counts_empty_strings :
  detectHeaderRow preambleGrid <> spec_headerRow preambleGrid.
Proof.
  assert (Hcode : detectHeaderRow preambleGrid = 3%nat) by (vm_compute; reflexivity).
  assert (Hspec : spec_headerRow preambleGrid = 6%nat) by (vm_compute; reflexivity).
  rewrite Hcode, Hspec. discriminate.
Qed.

Lemma hasReportHeader_nil : hasReportHeader [] = false.
Proof. reflexivity. Qed.

(** What the code computes. At least 2 of the 3 markers must occur in a
    string cell of the first 6 rows; with fewer the header row is row 0.
    With 2 markers it is the first row of index 3..14 (within the grid)
    that passes [looksLikeHeader]: at least 5 non-empty cells, and the
    number of string-typed cells, empty strings among them, divided by
    the number of non-empty cells at least 0.6; it is 6 when no such row
    exists. In particular, when row 6 is the first row from index 3 on
    that passes the test, the header row is 6. *)
Theorem detectHeaderRow_spec :
  forall rows : grid,
    hasReportHeader rows = (2 <=? markersFound rows)%nat
    /\ (hasReportHeader rows = false -> detectHeaderRow rows = 0%nat)
    /\ (hasReportHeader rows = true ->
        (exists cells,
            rows !! detectHeaderRow rows = Some cells
            /\ looksLikeHeader cells = true
            /\ (3 <= detectHeaderRow rows < 15)%nat
            /\ forall j cells', (3 <= j < detectHeaderRow rows)%nat ->
                 rows !! j = Some cells' -> looksLikeHeader cells' = false)
        \/ (detectHeaderRow rows = 6%nat
            /\ forall j cells', (3 <= j < 15)%nat ->
                 rows !! j = Some cells' -> looksLikeHeader cells' = false))
    /\ (hasReportHeader rows = true ->
        (forall j cells', (3 <= j < 6)%nat ->
           rows !! j = Some cells' -> looksLikeHeader cells' = false) ->
        (exists cells, rows !! 6%nat = Some cells /\ looksLikeHeader cells = true) ->
        detectHeaderRow rows = 6%nat).
Proof.
  intros rows. split; [apply hasReportHeader_spec |].
  assert (Hwin : hasReportHeader rows = true ->
    (exists cells,
        rows !! detectHeaderRow rows = Some cells
        /\ looksLikeHeader cells = true
        /\ (3 <= detectHeaderRow rows < 15)%nat
        /\ forall j cells', (3 <= j < detectHeaderRow rows)%nat ->
             rows !! j = Some cells' -> looksLikeHeader cells' = false)
    \/ (detectHeaderRow rows = 6%nat
        /\ forall j cells', (3 <= j < 15)%nat ->
             rows !! j = Some cells' -> looksLikeHeader cells' = false)).
  { intros Hrep. unfold detectHeaderRow.
    assert (Hlen : (length rows =? 0)%nat = false).
    { destruct rows; [rewrite hasReportHeader_nil in Hrep; discriminate | reflexivity]. }
    rewrite Hlen, Hrep. unfold findColumnHeaderRow.
    destruct (findColumnHeaderRow_from_spec rows (Nat.min (length rows) 15 - 3) 3)
      as [(cells & Hc & Hl & Hr & Hfirst) | [H6 Hnone]].
    - left. exists cells. split; [exact Hc |]. split; [exact Hl |].
      split; [lia | exact Hfirst].
    - right. split; [exact H6 |]. intros j cells' Hj Hj'.
      apply (Hnone j); [| exact Hj'].
      apply lookup_lt_Some in Hj'. lia. }
  split; [| split; [exact Hwin |]].
  - intros Hrep. unfold detectHeaderRow. rewrite Hrep.
    destruct (length rows =? 0)%nat; reflexivity.
  - intros Hrep Hbefore (cells6 & H6 & Hl6).
    destruct (Hwin Hrep) as [(cells & Hc & Hl & Hr & Hfirst) | [Hd _]]; [| exact Hd].
    destruct (Nat.lt_trichotomy (detectHeaderRow rows) 6) as [Hlt | [Heq | Hgt]].
    + rewrite (Hbefore (detectHeaderRow rows) cells) in Hl; [discriminate | lia | exact Hc].
    + exact Heq.
    + rewrite (Hfirst 6%nat cells6) in Hl6; [discriminate | lia | exact H6].
Qed.

(** On [reportGrid] the header row is 6. *)
Lemma detectHeaderRow_spec_witness : detectHeaderRow reportGrid = 6%nat.
Proof.
  apply (proj2 (proj2 (proj2 (detectHeaderRow_spec reportGrid)))).
  - vm_compute. reflexivity.
  - intros j cells' Hj Hrow.
    assert (Hcases : j = 3%nat \/ j = 4%nat \/ j = 5%nat) by lia.
    destruct Hcases as [-> | [-> | ->]]; injection Hrow as <-; reflexivity.
  - eexists. split; [reflexivity | vm_compute; reflexivity].
Defined.

(* ===================================================================== *)
(** * Properties of getMergedColumns and the header extraction *)
(* ===================================================================== *)

Lemma elem_of_fold_add (l : list nat) (acc : gset nat) col :
  col ∈ fold_left (fun a x => a ∪ {[ x ]}) l acc <-> col ∈ acc \/ col ∈ l.
Proof.
  revert acc. induction l as [| x l IH]; intros acc; cbn [fold_left].
  - split; [auto | intros [H | H]; [exact H | inversion H]].
  - rewrite IH, elem_of_union, elem_of_singleton, elem_of_cons. tauto.
Qed.

Lemma elem_of_mergedColumnsOf h merge col :
  col ∈ mergedColumnsOf h merge <->
  (r (s merge) <= h <= r (e merge))%nat /\ (c (s merge) < col <= c (e merge))%nat.
Proof.
  unfold mergedColumnsOf.
  destruct (r (s merge) <=? h)%nat eqn:H1; destruct (h <=? r (e merge))%nat eqn:H2;
    cbn [andb];
    try apply Nat.leb_le in H1; try apply Nat.leb_le in H2;
    try apply Nat.leb_gt in H1; try apply Nat.leb_gt in H2;
    rewrite ?elem_of_seq; try (split; [intros H; inversion H | lia]).
  lia.
Qed.

(** The set holds the columns of the merges that cover the header row,
    the first column of each merge excepted. *)
Lemma elem_of_getMergedColumns (worksheet : WorkSheet) h col :
  col ∈ getMergedColumns worksheet h <->
  exists merge, merge ∈ sheetMerges worksheet
    /\ (r (s merge) <= h <= r (e merge))%nat
    /\ (c (s merge) < col <= c (e merge))%nat.
Proof.
  unfold getMergedColumns.
  assert (Hgen : forall ms (acc : gset nat),
    col ∈ fold_left
            (fun mergedCols merge =>
               fold_left (fun a x => a ∪ {[ x ]}) (mergedColumnsOf h merge) mergedCols)
            ms acc
    <-> col ∈ acc \/ exists merge, merge ∈ ms /\ col ∈ mergedColumnsOf h merge).
  { induction ms as [| m ms IH]; intros acc; cbn [fold_left].
    - split; [auto | intros [H | (m & H & _)]; [exact H | inversion H]].
    - rewrite IH, elem_of_fold_add. split.
      + intros [[H | H] | (m' & Hin & H)]; [auto | |].
        * right. exists m. split; [left | exact H].
        * right. exists m'. split; [right; exact Hin | exact H].
      + intros [H | (m' & Hin & H)]; [auto |].
        apply elem_of_cons in Hin as [-> | Hin]; [auto |].
        right. exists m'. auto. }
  rewrite Hgen. split.
  - intros [H | (m & Hin & H)]; [inversion H |].
    apply elem_of_mergedColumnsOf in H. exists m. tauto.
  - intros (m & Hin & H1 & H2). right. exists m. split; [exact Hin |].
    apply elem_of_mergedColumnsOf. auto.
Qed.

(** The retained columns are not merged away and hold a populated cell;
    the raw headers are their labels. *)
Lemma extractHeaders_spec (mergedColumns : gset nat) (headerRow : list value)
    (index : nat) :
  let '(rawHeaders, validColumnIndices) :=
    extractHeaders mergedColumns headerRow index in
  rawHeaders =
    List.map (fun i => Str.trim (toStr (default VUndefined (headerRow !! (i - index)%nat))))
             validColumnIndices
  /\ forall i, i ∈ validColumnIndices ->
       (i ∉ mergedColumns) /\ (index <= i)%nat
       /\ exists cell, headerRow !! (i - index)%nat = Some cell
                       /\ nonEmptyCell cell = true.
Proof.
  revert index. induction headerRow as [| cell rest IH]; intros index;
    cbn [extractHeaders].
  - split; [reflexivity |]. intros i H. inversion H.
  - specialize (IH (S index)).
    destruct (extractHeaders mergedColumns rest (S index)) as [hs idx].
    destruct IH as [IHh IHi].
    assert (Hrest : hs =
        List.map (fun i => Str.trim (toStr (default VUndefined ((cell :: rest) !! (i - index)%nat))))
                 idx
        /\ forall i, i ∈ idx ->
             (i ∉ mergedColumns) /\ (index <= i)%nat
             /\ exists cell', (cell :: rest) !! (i - index)%nat = Some cell'
                              /\ nonEmptyCell cell' = true).
    { split.
      - rewrite IHh. apply List.map_ext_in. intros i Hi.
        apply list_elem_of_In, IHi in Hi as (_ & Hle & _).
        replace (i - index)%nat with (S (i - S index)) by lia. reflexivity.
      - intros i Hi. destruct (IHi i Hi) as (Hm & Hle & cell' & Hc & Hn).
        split; [exact Hm |]. split; [lia |]. exists cell'.
        replace (i - index)%nat with (S (i - S index)) by lia. auto. }
    destruct (bool_decide (index ∈ mergedColumns)) eqn:Hmerged; [exact Hrest |].
    destruct (nonEmptyCell cell) eqn:Hcell; cbn [negb]; [| exact Hrest].
    destruct Hrest as [Hh Hi]. split.
    + cbn [List.map]. rewrite Nat.sub_diag. cbn. f_equal. exact Hh.
    + intros i Hin. apply elem_of_cons in Hin as [-> | Hin]; [| apply Hi, Hin].
      apply bool_decide_eq_false in Hmerged. split; [exact Hmerged |].
      split; [lia |]. exists cell. rewrite Nat.sub_diag. auto.
Qed.

(** Only retained columns get an entry in the header map. *)
Lemma buildHeaderMap_other (hs : list string) (validColumnIndices : list nat)
    (headerIndex : nat) (headerMap : gmap nat string) (col : nat) :
  col ∉ validColumnIndices ->
  buildHeaderMap hs validColumnIndices headerIndex headerMap !! col = headerMap !! col.
Proof.
  revert headerIndex headerMap.
  induction validColumnIndices as [| i idx IH]; intros headerIndex headerMap Hn;
    [reflexivity |].
  cbn [buildHeaderMap]. rewrite IH by (intros H; apply Hn; right; exact H).
  destruct (hs !! headerIndex) as [name |]; [| reflexivity].
  destruct (negb (String.eqb name "")); [| reflexivity].
  apply lookup_insert_ne. intros ->. apply Hn. left.
Qed.

(** A cell of a column without an entry in the header map has no effect
    on the row that is built. *)
Lemma buildRow_ignores (stringToNumber : string -> float)
    (headerMap : gmap nat string) (cells : list value) (index : nat) (acc : row)
    (p : nat) (x : value) :
  headerMap !! (index + p)%nat = None ->
  buildRow stringToNumber headerMap (<[p := x]> cells) index acc
  = buildRow stringToNumber headerMap cells index acc.
Proof.
  revert index acc p. induction cells as [| cell cells IH]; intros index acc p Hnone;
    [reflexivity |].
  destruct p as [| p]; cbn [buildRow].
  - cbn. rewrite Nat.add_0_r in Hnone. rewrite Hnone. reflexivity.
  - cbn. apply IH.
    replace (S index + p)%nat with (index + S p)%nat by lia. exact Hnone.
Qed.

(** C6: for every merge region that covers the header row, every column
    of the region except the leftmost is left out of the header
    extraction (it is not among the retained columns, whose labels make
    the schema) and out of the output rows (it has no entry in the header
    map, and the row built from a line does not depend on the cell of
    that column); a merge over the columns 2-4 of the header row yields
    a schema with the label of column 2 only for that span. *)
Theorem merged_columns_excluded :
  (forall (sheet_to_json : WorkSheet -> grid) (stringToNumber : string -> float)
          (workbook : WorkBook) (name : string) (worksheet : WorkSheet)
          (out : SheetData),
      SheetNames workbook !! 0%nat = Some name ->
      Sheets workbook !! name = Some worksheet ->
      parseXLSXSheet sheet_to_json stringToNumber workbook = Ok out ->
      let rawData := sheet_to_json worksheet in
      let h := detectHeaderRow rawData in
      let headerRow := default [] (rawData !! h) in
      exists (validColumnIndices : list nat) (headerMap : gmap nat string),
        headerRowIndex out = h
        /\ sheet_headers out =
           ensureUniqueHeaders (List.map (labelAt headerRow) validColumnIndices)
        /\ sheet_data out =
           buildData stringToNumber headerMap (drop (h + 1) rawData)
        /\ forall merge col,
             merge ∈ sheetMerges worksheet ->
             (r (s merge) <= h <= r (e merge))%nat ->
             (c (s merge) < col <= c (e merge))%nat ->
             (col ∉ validColumnIndices)
             /\ headerMap !! col = None
             /\ forall cells x,
                  buildRow stringToNumber headerMap (<[col := x]> cells) 0 ∅
                  = buildRow stringToNumber headerMap cells 0 ∅)
  /\ (exists out,
        parseXLSXSheet (fun _ => mergedGrid) (fun _ => nan) mergedBook = Ok out
        /\ sheet_headers out = [ "Employee"; "Date"; "Hours"; "Task" ]
        /\ sheet_data out =
           [ {[ "Employee" := VStr "Ann"; "Date" := VStr "2024-01-15";
                "Hours" := VNum 7.5; "Task" := VStr "Review" ]} ]).
Proof.
  split.
  - intros sheet_to_json stringToNumber workbook name worksheet out Hname Hsheet Hparse.
    cbn zeta. unfold parseXLSXSheet in Hparse. rewrite Hname in Hparse.
    destruct (String.eqb name ""); [discriminate Hparse |].
    rewrite Hsheet in Hparse.
    pose proof (extractHeaders_spec
                  (getMergedColumns worksheet (detectHeaderRow (sheet_to_json worksheet)))
                  (default [] (sheet_to_json worksheet !! detectHeaderRow (sheet_to_json worksheet)))
                  0) as Hext.
    destruct (extractHeaders _ _ 0) as [rawHeaders validColumnIndices].
    destruct Hext as [Hlabels Hvalid].
    destruct (0 <? length _)%nat; [discriminate Hparse |].
    injection Hparse as <-. cbn [headerRowIndex sheet_headers sheet_data].
    exists validColumnIndices,
      (buildHeaderMap (ensureUniqueHeaders rawHeaders) validColumnIndices 0 ∅).
    split; [reflexivity |]. split.
    { rewrite Hlabels. f_equal. apply List.map_ext. intros i. unfold labelAt.
      rewrite Nat.sub_0_r. reflexivity. }
    split; [reflexivity |].
    intros merge col Hin Hrow Hcol.
    assert (Hmerged : col ∈ getMergedColumns worksheet
                              (detectHeaderRow (sheet_to_json worksheet))).
    { apply elem_of_getMergedColumns. exists merge. auto. }
    assert (Hnot : col ∉ validColumnIndices).
    { intros Hv. apply Hvalid in Hv as [Hv _]. exact (Hv Hmerged). }
    assert (Hmap : buildHeaderMap (ensureUniqueHeaders rawHeaders)
                     validColumnIndices 0 ∅ !! col = None).
    { rewrite buildHeaderMap_other by exact Hnot. apply lookup_empty. }
    split; [exact Hnot |]. split; [exact Hmap |].
    intros cells x. apply buildRow_ignores. exact Hmap.
  - eexists. split; [vm_compute; reflexivity |].
    split; vm_compute; reflexivity.
Qed.

(** C6 on [mergedBook]: column 3 is neither retained nor mapped. *)
Lemma merged_columns_excluded_witness :
  exists out,
    parseXLSXSheet (fun _ => mergedGrid) (fun _ => nan) mergedBook = Ok out
    /\ exists (validColumnIndices : list nat) (headerMap : gmap nat string),
         sheet_headers out =
           ensureUniqueHeaders (List.map (labelAt (default [] (mergedGrid !! 0%nat)))
                                         validColumnIndices)
         /\ (3%nat ∉ validColumnIndices) /\ headerMap !! 3%nat = None.
Proof.
  destruct (proj2 merged_columns_excluded) as (out & Hout & _).
  exists out. split; [exact Hout |].
  destruct (proj1 merged_columns_excluded (fun _ => mergedGrid) (fun _ => nan)
              mergedBook "Sheet1" mergedSheet out eq_refl eq_refl Hout)
    as (idx & hm & _ & Hhs & _ & Hm).
  exists idx, hm. split; [exact Hhs |].
  destruct (Hm {| s := {| r := 0; c := 2 |}; e := {| r := 0; c := 4 |} |} 3%nat)
    as (Hn & Hnone & _).
  - apply list_elem_of_singleton. reflexivity.
  - vm_compute. lia.
  - vm_compute. lia.
  - split; [exact Hn | exact Hnone].
Defined.

(* ===================================================================== *)
(** * Properties of findMissingDataColumns *)
(* ===================================================================== *)

Lemma countOf_bump col counts k :
  countOf k (bump col counts) =
  if String.eqb col k then Some (S (default 0%nat (countOf col counts)))
  else countOf k counts.
Proof.
  induction counts as [| [k' n] rest IH]; cbn [bump countOf].
  - destruct (String.eqb col k); reflexivity.
  - destruct (String.eqb_spec k' col) as [-> | Hne]; cbn [countOf default].
    + destruct (String.eqb col k); reflexivity.
    + rewrite IH. destruct (String.eqb_spec k' k) as [-> | Hne'].
      * destruct (String.eqb_spec col k) as [-> | _]; [congruence | reflexivity].
      * reflexivity.
Qed.

Lemma countOf_None k counts : countOf k counts = None <-> k ∉ List.map fst counts.
Proof.
  induction counts as [| [k' n] rest IH]; cbn [countOf List.map fst].
  - split; [intros _ H; inversion H | reflexivity].
  - rewrite not_elem_of_cons. destruct (String.eqb_spec k' k) as [-> | Hne].
    + split; [discriminate | intros [H _]; congruence].
    + rewrite IH. split; [intros H; split; [congruence | exact H] | tauto].
Qed.

Lemma keys_bump col counts :
  List.map fst (bump col counts) =
  match countOf col counts with
  | Some _ => List.map fst counts
  | None => List.map fst counts ++ [ col ]
  end.
Proof.
  induction counts as [| [k' n] rest IH]; cbn [bump countOf List.map fst]; [reflexivity |].
  destruct (String.eqb k' col); cbn [List.map fst]; [reflexivity |].
  rewrite IH. destruct (countOf col rest); reflexivity.
Qed.

Lemma NoDup_keys_bump col counts :
  NoDup (List.map fst counts) -> NoDup (List.map fst (bump col counts)).
Proof.
  intros Hnd. rewrite keys_bump. destruct (countOf col counts) eqn:Hc; [exact Hnd |].
  apply NoDup_app. split; [exact Hnd |]. split; [| apply NoDup_singleton].
  intros x Hx Hx'. apply list_elem_of_singleton in Hx' as ->.
  apply countOf_None in Hc. exact (Hc Hx).
Qed.

Lemma elem_of_counts k n counts :
  NoDup (List.map fst counts) -> ((k, n) ∈ counts <-> countOf k counts = Some n).
Proof.
  induction counts as [| [k' n'] rest IH]; cbn [countOf List.map fst]; intros Hnd.
  - split; [intros H; inversion H | discriminate].
  - apply NoDup_cons in Hnd as [Hk' Hnd]. rewrite elem_of_cons, (IH Hnd).
    destruct (String.eqb_spec k' k) as [-> | Hne].
    + split.
      * intros [H | H]; [congruence |]. apply countOf_None in Hk'. congruence.
      * intros H. left. congruence.
    + split; [intros [H | H]; [congruence | exact H] | auto].
Qed.

(** The loop over the cell keys counts the cells of every column. *)
Lemma countOf_fold (letters : list string) (acc : list (string * nat)) k :
  countOf k (fold_left (fun counts l => bump l counts) letters acc) =
  match occurrences k letters with
  | O => countOf k acc
  | S n => Some (default 0%nat (countOf k acc) + S n)%nat
  end.
Proof.
  revert acc. induction letters as [| l letters IH]; intros acc; [reflexivity |].
  cbn [fold_left]. rewrite IH, countOf_bump.
  unfold occurrences. cbn [List.filter].
  destruct (String.eqb_spec k l) as [-> | Hne].
  - rewrite String.eqb_refl. cbn [length default].
    destruct (length (List.filter (String.eqb l) letters)); f_equal; unfold id; lia.
  - destruct (String.eqb_spec l k) as [-> | _]; [congruence | reflexivity].
Qed.

Lemma NoDup_keys_fold (letters : list string) (acc : list (string * nat)) :
  NoDup (List.map fst acc) ->
  NoDup (List.map fst (fold_left (fun counts l => bump l counts) letters acc)).
Proof.
  revert acc. induction letters as [| l letters IH]; intros acc Hnd; [exact Hnd |].
  cbn [fold_left]. apply IH, NoDup_keys_bump, Hnd.
Qed.

Lemma columnCounts_fold (worksheet : WorkSheet) :
  columnCounts worksheet =
  fold_left (fun counts l => bump l counts)
            (List.map Str.stripDigits (cellKeys worksheet)) [].
Proof.
  unfold columnCounts. generalize (@nil (string * nat)).
  induction (cellKeys worksheet) as [| key keys IH]; intros acc; [reflexivity |].
  cbn [fold_left List.map]. apply IH.
Qed.

(** [columnCounts] holds [(col, n)] when the column has [n >= 1] cells. *)
Lemma elem_of_columnCounts (worksheet : WorkSheet) col n :
  (col, n) ∈ columnCounts worksheet <->
  cellCount worksheet col = n /\ (1 <= n)%nat.
Proof.
  rewrite columnCounts_fold, elem_of_counts by (apply NoDup_keys_fold; constructor).
  rewrite countOf_fold. unfold cellCount. cbn [countOf default].
  destruct (occurrences col (List.map Str.stripDigits (cellKeys worksheet))) as [| m].
  - split; [discriminate | lia].
  - split; [intros H; injection H as <-; lia | intros [<- _]; f_equal; lia].
Qed.

Lemma maxCount_exceedsOne (counts : list nat) :
  exceedsOne (maxCount counts) = true <-> exists n, n ∈ counts /\ (1 < n)%nat.
Proof.
  destruct counts as [| n rest]; cbn [maxCount exceedsOne].
  - split; [discriminate | intros (n & H & _); inversion H].
  - rewrite Nat.ltb_lt. revert n. induction rest as [| m rest IH]; intros n; cbn [fold_left].
    + split; [intros H; exists n; split; [left | exact H] |].
      intros (k & Hk & Hlt). apply list_elem_of_singleton in Hk as ->. exact Hlt.
    + rewrite IH. split.
      * intros (k & Hk & Hlt). apply elem_of_cons in Hk as [-> | Hk].
        -- destruct (Nat.max_spec n m) as [[_ Hmax] | [_ Hmax]]; rewrite Hmax in Hlt.
           ++ exists m. split; [right; left | exact Hlt].
           ++ exists n. split; [left | exact Hlt].
        -- exists k. split; [right; right; exact Hk | exact Hlt].
      * intros (k & Hk & Hlt). apply elem_of_cons in Hk as [-> | Hk].
        -- exists (Nat.max n m). split; [left | lia].
        -- apply elem_of_cons in Hk as [-> | Hk].
           ++ exists (Nat.max n m). split; [left | lia].
           ++ exists k. split; [right; exact Hk | exact Hlt].
Qed.

(** With a column of more than one cell, the list names the columns of
    exactly one cell. *)
Lemma elem_of_findMissingDataColumns (worksheet : WorkSheet) (h : nat) name' :
  (exists col, (1 < cellCount worksheet col)%nat) ->
  (name' ∈ findMissingDataColumns worksheet h <->
   exists col, cellCount worksheet col = 1%nat
               /\ name' = missingColumnName worksheet h col).
Proof.
  intros (col' & Hmany). unfold findMissingDataColumns.
  assert (Hmax : exceedsOne (maxCount (List.map snd (columnCounts worksheet))) = true).
  { apply maxCount_exceedsOne. exists (cellCount worksheet col'). split; [| exact Hmany].
    apply list_elem_of_In, in_map_iff. exists (col', cellCount worksheet col').
    split; [reflexivity |]. apply list_elem_of_In, elem_of_columnCounts. lia. }
  rewrite Hmax, list_elem_of_In, in_map_iff. split.
  - intros ([col n] & <- & Hin). apply filter_In in Hin as [Hin Hone].
    cbn [fst snd] in *. apply Nat.eqb_eq in Hone as ->.
    apply list_elem_of_In, elem_of_columnCounts in Hin as [Hc _]. eauto.
  - intros (col & Hc & ->). exists (col, 1%nat). split; [reflexivity |].
    apply filter_In. split; [| reflexivity].
    apply list_elem_of_In, elem_of_columnCounts. lia.
Qed.

(** Without a column of more than one cell the guard finds nothing. *)
Lemma findMissingDataColumns_flat (worksheet : WorkSheet) (h : nat) :
  (forall col, (cellCount worksheet col <= 1)%nat) ->
  findMissingDataColumns worksheet h = [].
Proof.
  intros Hflat. unfold findMissingDataColumns.
  destruct (exceedsOne (maxCount (List.map snd (columnCounts worksheet)))) eqn:Hmax;
    [| reflexivity].
  apply maxCount_exceedsOne in Hmax as (n & Hin & Hlt).
  apply list_elem_of_In, in_map_iff in Hin as ([col n'] & Heq & Hin). cbn in Heq. subst n'.
  apply list_elem_of_In, elem_of_columnCounts in Hin as [<- _].
  specialize (Hflat col). lia.
Qed.









(* ===================================================================== *)
(** * Further properties of ensureUniqueHeaders *)
(* ===================================================================== *)

Lemma occurrences_positive h (l : list string) :
  h ∈ l -> (0 < occurrences h l)%nat.
Proof.
  unfold occurrences. induction l as [| x l IH]; intros Hin; [inversion Hin |].
  cbn [List.filter]. destruct (String.eqb_spec h x) as [-> | Hne]; cbn; [lia |].
  apply IH. apply elem_of_cons in Hin as [-> | Hin]; [congruence | exact Hin].
Qed.

Lemma append_nonempty_neq (h t : string) : t <> "" -> h +:+ t <> h.
Proof.
  intros Ht Heq. apply (f_equal String.length) in Heq.
  rewrite append_length in Heq. destruct t; [congruence | cbn in Heq; lia].
Qed.

Lemma labelled_unchanged h k : labelled h k = h -> k = 1%nat.
Proof.
  unfold labelled. destruct (k =? 1)%nat eqn:Hk; [intros _; apply Nat.eqb_eq, Hk |].
  intros Heq. exfalso. revert Heq. apply append_nonempty_neq.
  destruct (Str.ofNat k); discriminate.
Qed.

(** X1: the name at a position is emitted unchanged when it did not
    occur before that position, and as "name (k)" when it occurred k - 1
    times before. *)
Theorem ensureUniqueHeaders_occurrence_rule :
  forall (hs : list string) (i : nat) (h : string),
    hs !! i = Some h ->
    ensureUniqueHeaders hs !! i =
    Some (if (occurrences h (take i hs) =? 0)%nat then h
          else h +:+ " (" +:+ Str.ofNat (S (occurrences h (take i hs))) +:+ ")").
Proof.
  intros hs i h Hi. rewrite (ensureUniqueHeaders_lookup hs i h Hi).
  rewrite (take_S_r hs i h Hi), occurrences_snoc, String.eqb_refl.
  unfold labelled. destruct (occurrences h (take i hs)) as [| n]; cbn [Nat.eqb Nat.add].
  - reflexivity.
  - replace (S (n + 1) =? 1)%nat with false by (symmetry; apply Nat.eqb_neq; lia).
    replace (n + 1)%nat with (S n) by lia. reflexivity.
Qed.

(** X1 at the third "Hours" of a list. *)
Lemma ensureUniqueHeaders_occurrence_rule_witness :
  ensureUniqueHeaders [ "Hours"; "Name"; "Hours"; "Hours" ] !! 3%nat
  = Some "Hours (3)".
Proof.
  exact (ensureUniqueHeaders_occurrence_rule
           [ "Hours"; "Name"; "Hours"; "Hours" ] 3 "Hours" eq_refl).
Defined.

(** X2: the normaliser returns its input unchanged exactly when the
    names of the input are pairwise distinct. *)
Theorem ensureUniqueHeaders_fixpoint_iff_distinct :
  forall hs : list string, ensureUniqueHeaders hs = hs <-> NoDup hs.
Proof.
  intros hs. split; [| apply ensureUniqueHeaders_NoDup].
  intros Hfix. apply NoDup_alt. intros i j x Hi Hj.
  assert (Hfirst : forall p, hs !! p = Some x -> occurrences x (take p hs) = 0%nat).
  { intros p Hp. pose proof (ensureUniqueHeaders_lookup hs p x Hp) as Hl.
    rewrite Hfix, Hp in Hl. injection Hl as Hl. symmetry in Hl.
    apply labelled_unchanged in Hl.
    rewrite (take_S_r hs p x Hp), occurrences_snoc, String.eqb_refl in Hl. lia. }
  destruct (Nat.lt_trichotomy i j) as [Hlt | [Heq | Hgt]]; [| exact Heq |]; exfalso.
  - pose proof (Hfirst j Hj) as H0.
    assert (Hin : x ∈ take j hs).
    { apply list_elem_of_lookup. exists i. rewrite lookup_take_lt by exact Hlt. exact Hi. }
    apply occurrences_positive in Hin. lia.
  - pose proof (Hfirst i Hi) as H0.
    assert (Hin : x ∈ take i hs).
    { apply list_elem_of_lookup. exists j. rewrite lookup_take_lt by exact Hgt. exact Hj. }
    apply occurrences_positive in Hin. lia.
Qed.

(* ===================================================================== *)
(** * Further properties of convertCSVColumns *)
(* ===================================================================== *)

Lemma getProp_number_lookup (r0 : row) k x :
  getProp r0 k = VNum x -> r0 !! k = Some (VNum x).
Proof. unfold getProp. destruct (r0 !! k); cbn; [congruence | discriminate]. Qed.

Lemma getProp_lookup (r0 r1 : row) k : r1 !! k = r0 !! k -> getProp r1 k = getProp r0 k.
Proof. unfold getProp. intros ->. reflexivity. Qed.

(** The loop over the selection in the replacing mode, seen at one key. *)
Lemma convertRow_replace_at (cols : list string) (acc : row) nh k :
  (forall x, getProp acc k = VNum x -> k ∈ cols ->
     getProp (fst (convertRow cols false acc nh)) k = VStr (decimalToTime x))
  /\ (k ∉ cols \/ isNumber (getProp acc k) = false ->
      fst (convertRow cols false acc nh) !! k = acc !! k).
Proof.
  unfold convertRow. revert acc.
  induction cols as [| col cols IH]; intros acc; cbn [fold_left].
  - split; [intros x _ H; inversion H | reflexivity].
  - destruct (convertColumn false (acc, nh) col) as [r1 nh1] eqn:Hstep.
    assert (nh1 = nh) as ->.
    { pose proof (convertColumn_replace_headers acc nh col) as H.
      rewrite Hstep in H. exact H. }
    destruct (IH r1) as [IHnum IHsame].
    unfold convertColumn in Hstep.
    destruct (String.eqb_spec col k) as [-> | Hne].
    + (* the step of the key itself *)
      split.
      * intros x Hx _. rewrite Hx in Hstep. injection Hstep as <-.
        unfold getProp. rewrite IHsame.
        -- rewrite lookup_insert_eq. reflexivity.
        -- right. rewrite getProp_insert_eq. reflexivity.
      * intros [Hnot | Hnum]; [exfalso; apply Hnot; left |].
        assert (r1 = acc) as ->.
        { destruct (getProp acc k); try (injection Hstep as <-; reflexivity).
          discriminate Hnum. }
        apply IHsame. right. exact Hnum.
    + (* a step of another key *)
      assert (Hother : r1 !! k = acc !! k).
      { destruct (getProp acc col); try (injection Hstep as <-; reflexivity).
        injection Hstep as <-. apply lookup_insert_ne, Hne. }
      split.
      * intros x Hx Hin. apply IHnum.
        -- rewrite (getProp_lookup acc r1 k Hother). exact Hx.
        -- apply elem_of_cons in Hin as [-> | Hin]; [congruence | exact Hin].
      * intros H. rewrite IHsame; [exact Hother |].
        destruct H as [Hnot | Hnum].
        -- left. intros Hin. apply Hnot. right. exact Hin.
        -- right. rewrite (getProp_lookup acc r1 k Hother). exact Hnum.
Qed.

(** X3: with keepOriginal = false every selected cell that holds a
    number holds its clock string afterwards; a cell of a column that is
    not selected, and a cell that holds no number, is untouched; no key
    is added or removed, the rows keep their number and order, and no
    header is recorded. *)
Theorem convertCSVColumns_replace_cells :
  forall (rows : list row) (cols : list string),
    let out := convertCSVColumns rows cols false in
    newHeaders out = []
    /\ Forall2
         (fun r0 r' =>
            (forall col x, col ∈ cols -> getProp r0 col = VNum x ->
               getProp r' col = VStr (decimalToTime x))
            /\ (forall k, k ∉ cols -> r' !! k = r0 !! k)
            /\ (forall k, isNumber (getProp r0 k) = false -> r' !! k = r0 !! k)
            /\ (forall k, is_Some (r' !! k) <-> is_Some (r0 !! k)))
         rows (converted_data out).
Proof.
  intros rows cols. cbn zeta. unfold convertCSVColumns.
  rewrite (convertRows_replace cols rows []). cbn [converted_data newHeaders].
  split; [reflexivity |]. apply Forall2_map_self. intros r0.
  split; [| split; [| split]].
  - intros col x Hin Hx. apply (convertRow_replace_at cols r0 [] col); assumption.
  - intros k Hk. apply (convertRow_replace_at cols r0 [] k). left. exact Hk.
  - intros k Hk. apply (convertRow_replace_at cols r0 [] k). right. exact Hk.
  - intros k. destruct (getProp r0 k) eqn:Hv;
      try (rewrite (proj2 (convertRow_replace_at cols r0 [] k));
           [reflexivity | right; rewrite Hv; reflexivity]).
    destruct (decide (k ∈ cols)) as [Hin | Hnot].
    + pose proof (proj1 (convertRow_replace_at cols r0 [] k) x Hv Hin) as Hnew.
      apply getProp_number_lookup in Hv. rewrite Hv.
      unfold getProp in Hnew.
      destruct (fst (convertRow cols false r0 []) !! k); cbn in Hnew;
        [split; eauto | discriminate Hnew].
    + rewrite (proj2 (convertRow_replace_at cols r0 [] k)); [reflexivity | left; exact Hnot].
Qed.

Lemma convertRows_nothing_to_do (cols : list string) keepOriginal (rows : list row) nh :
  (forall r0, r0 ∈ rows -> forall col, col ∈ cols -> isNumber (getProp r0 col) = false) ->
  convertRows cols keepOriginal rows nh = (rows, nh).
Proof.
  induction rows as [| r0 rows IH]; intros H; cbn [convertRows]; [reflexivity |].
  rewrite convertRow_nothing_to_do by (apply H; left).
  rewrite IH by (intros r1 Hr1; apply H; right; exact Hr1). reflexivity.
Qed.

(** X4: in either mode, a table in which no selected column holds a
    number in any row is returned as it is, without a new header; so is
    every table under the empty selection. *)
Theorem convertCSVColumns_nothing_to_convert :
  forall (rows : list row) (cols : list string) (keepOriginal : bool),
    (forall r0, r0 ∈ rows -> forall col, col ∈ cols ->
       isNumber (getProp r0 col) = false) ->
    convertCSVColumns rows cols keepOriginal
    = {| converted_data := rows; newHeaders := [] |}.
Proof.
  intros rows cols keepOriginal H. unfold convertCSVColumns.
  rewrite convertRows_nothing_to_do by exact H. reflexivity.
Qed.

(** X4 on a table of text cells, and on the empty selection. *)
Lemma convertCSVColumns_nothing_to_convert_witness :
  convertCSVColumns [ {[ "Task" := VStr "Review" ]} ] [ "Task" ] true
  = {| converted_data := [ {[ "Task" := VStr "Review" ]} ]; newHeaders := [] |}.
Proof.
  apply convertCSVColumns_nothing_to_convert.
  intros r0 Hr0 col Hcol.
  apply list_elem_of_singleton in Hr0 as ->.
  apply list_elem_of_singleton in Hcol as ->. reflexivity.
Defined.

Lemma elem_of_pushNew (nh : list string) name x :
  x ∈ pushNew nh name <-> x ∈ nh \/ x = name.
Proof.
  unfold pushNew. destruct (includesStr nh name) eqn:Hin.
  - apply includesStr_spec in Hin. split; [auto | intros [H | ->]; assumption].
  - rewrite elem_of_app, list_elem_of_singleton. reflexivity.
Qed.

Lemma NoDup_pushNew (nh : list string) name : NoDup nh -> NoDup (pushNew nh name).
Proof.
  intros Hnd. unfold pushNew. destruct (includesStr nh name) eqn:Hin; [exact Hnd |].
  apply NoDup_app. split; [exact Hnd |]. split; [| apply NoDup_singleton].
  intros x Hx Hx'. apply list_elem_of_singleton in Hx' as ->.
  apply includesStr_spec in Hx. congruence.
Qed.

(** One step of the adding mode: nothing happens, or one derived key is
    written and its name is recorded. *)
Lemma convertColumn_keep_step (acc : row) (nh : list string) col :
  convertColumn true (acc, nh) col = (acc, nh)
  \/ exists x, convertColumn true (acc, nh) col
               = (<[derived col := VStr (decimalToTime x)]> acc, pushNew nh (derived col)).
Proof.
  unfold convertColumn. destruct (getProp acc col); auto.
  right. eexists. reflexivity.
Qed.

(** What the loop over the selection keeps, in the adding mode. *)
Lemma convertRow_keep_frame (cols : list string) (acc : row) (nh : list string) :
  let r' := fst (convertRow cols true acc nh) in
  let nh' := snd (convertRow cols true acc nh) in
  (forall k, (forall col, col ∈ cols -> k <> derived col) -> r' !! k = acc !! k)
  /\ (forall k, is_Some (acc !! k) -> is_Some (r' !! k))
  /\ (forall k, is_Some (r' !! k) -> is_Some (acc !! k) \/ k ∈ nh')
  /\ (forall x, x ∈ nh -> x ∈ nh')
  /\ (NoDup nh -> NoDup nh')
  /\ (forall x, x ∈ nh' -> x ∈ nh \/ exists col, col ∈ cols /\ x = derived col).
Proof.
  unfold convertRow. revert acc nh.
  induction cols as [| col cols IH]; intros acc nh; cbn [fold_left fst snd].
  - repeat split; auto.
  - destruct (convertColumn_keep_step acc nh col) as [Hstep | (x & Hstep)];
      rewrite Hstep; destruct (IH
        (fst (convertColumn true (acc, nh) col))
        (snd (convertColumn true (acc, nh) col)))
        as (Hframe & Hkeep & Hnew & Hmono & Hnd & Hnames);
      rewrite Hstep in Hframe, Hkeep, Hnew, Hmono, Hnd, Hnames;
      cbn [fst snd] in Hframe, Hkeep, Hnew, Hmono, Hnd, Hnames.
    + split; [| split; [| split; [| split; [| split]]]]; auto.
      * intros k Hk. apply Hframe. intros c' Hc'. apply Hk. right. exact Hc'.
      * intros x0 Hx0. destruct (Hnames x0 Hx0) as [H | (c' & Hc' & ->)]; [auto |].
        right. exists c'. split; [right; exact Hc' | reflexivity].
    + split; [| split; [| split; [| split; [| split]]]].
      * intros k Hk. rewrite Hframe by (intros c' Hc'; apply Hk; right; exact Hc').
        apply lookup_insert_ne. intros Heq. apply (Hk col); [left | symmetry; exact Heq].
      * intros k Hk. apply Hkeep.
        destruct (decide (derived col = k)) as [<- | Hne].
        -- rewrite lookup_insert_eq. eauto.
        -- rewrite lookup_insert_ne by exact Hne. exact Hk.
      * intros k Hk. destruct (Hnew k Hk) as [Hin | Hin]; [| auto].
        destruct (decide (derived col = k)) as [<- | Hne].
        -- right. apply Hmono, elem_of_pushNew. right. reflexivity.
        -- rewrite lookup_insert_ne in Hin by exact Hne. left. exact Hin.
      * intros x0 Hx0. apply Hmono, elem_of_pushNew. left. exact Hx0.
      * intros Hn. apply Hnd, NoDup_pushNew, Hn.
      * intros x0 Hx0. destruct (Hnames x0 Hx0) as [H | (c' & Hc' & ->)].
        -- apply elem_of_pushNew in H as [H | ->]; [auto |].
           right. exists col. split; [left | reflexivity].
        -- right. exists c'. split; [right; exact Hc' | reflexivity].
Qed.

Lemma convertRows_keep_frame (cols : list string) (rows : list row) (nh : list string) :
  let rows' := fst (convertRows cols true rows nh) in
  let nh' := snd (convertRows cols true rows nh) in
  Forall2
    (fun r0 r' =>
       (forall k, (forall col, col ∈ cols -> k <> derived col) -> r' !! k = r0 !! k)
       /\ (forall k, is_Some (r0 !! k) -> is_Some (r' !! k))
       /\ (forall k, is_Some (r' !! k) -> is_Some (r0 !! k) \/ k ∈ nh'))
    rows rows'
  /\ (forall x, x ∈ nh -> x ∈ nh')
  /\ (NoDup nh -> NoDup nh')
  /\ (forall x, x ∈ nh' -> x ∈ nh \/ exists col, col ∈ cols /\ x = derived col).
Proof.
  revert nh. induction rows as [| r0 rows IH]; intros nh; cbn [convertRows].
  - cbn [fst snd]. split; [constructor | auto].
  - pose proof (convertRow_keep_frame cols r0 nh) as Hrow. cbn zeta in Hrow.
    destruct (convertRow cols true r0 nh) as [r1 nh1]. cbn [fst snd] in Hrow.
    destruct Hrow as (Hframe & Hkeep & Hnew & Hmono & Hnd & Hnames).
    specialize (IH nh1). cbn zeta in IH.
    destruct (convertRows cols true rows nh1) as [rows' nh2]. cbn [fst snd] in IH |- *.
    destruct IH as (Hall & Hmono' & Hnd' & Hnames').
    split; [| split; [| split]].
    + constructor; [| exact Hall]. split; [exact Hframe |]. split; [exact Hkeep |].
      intros k Hk. destruct (Hnew k Hk) as [H | H]; [auto | right; apply Hmono', H].
    + intros x Hx. apply Hmono', Hmono, Hx.
    + intros Hn. apply Hnd', Hnd, Hn.
    + intros x Hx. destruct (Hnames' x Hx) as [H | H]; [apply Hnames, H | auto].
Qed.

(** X5: with keepOriginal = true, for every selection: an entry whose
    key is not the derived name of a selected column is untouched, no
    key is removed, and every key that a row gains is in newHeaders;
    newHeaders has no duplicate and holds only derived names of selected
    columns. *)
Theorem convertCSVColumns_keep_frame :
  forall (rows : list row) (cols : list string),
    let out := convertCSVColumns rows cols true in
    Forall2
      (fun r0 r' =>
         (forall k, (forall col, col ∈ cols -> k <> derived col) -> r' !! k = r0 !! k)
         /\ (forall k, is_Some (r0 !! k) -> is_Some (r' !! k))
         /\ (forall k, is_Some (r' !! k) -> is_Some (r0 !! k) \/ k ∈ newHeaders out))
      rows (converted_data out)
    /\ NoDup (newHeaders out)
    /\ (forall name, name ∈ newHeaders out ->
          exists col, col ∈ cols /\ name = derived col).
Proof.
  intros rows cols. cbn zeta. unfold convertCSVColumns.
  pose proof (convertRows_keep_frame cols rows []) as H. cbn zeta in H.
  destruct (convertRows cols true rows []) as [rows' nh']. cbn [fst snd] in H.
  cbn [converted_data newHeaders].
  destruct H as (Hall & _ & Hnd & Hnames).
  split; [exact Hall |]. split; [apply Hnd; constructor |].
  intros name Hname. destruct (Hnames name Hname) as [H | H]; [inversion H | exact H].
Qed.

(** X6: if every key of every row is a header, then every key of every
    converted row is in the header line of the output, in either mode:
    no cell falls outside the columns that are written. *)
Theorem converted_keys_in_output_headers :
  forall (rows : list row) (cols hs : list string) (keepOriginal : bool),
    (forall r0, r0 ∈ rows -> forall k, is_Some (r0 !! k) -> k ∈ hs) ->
    let out := convertCSVColumns rows cols keepOriginal in
    forall r', r' ∈ converted_data out ->
    forall k, is_Some (r' !! k) -> k ∈ allHeaders hs (newHeaders out).
Proof.
  intros rows cols hs keepOriginal Hkeys. cbn zeta. intros r' Hr' k Hk.
  assert (Hall : k ∈ hs ++ newHeaders (convertCSVColumns rows cols keepOriginal)).
  { destruct keepOriginal.
    - destruct (convertCSVColumns_keep_frame rows cols) as (Hall & _).
      apply list_elem_of_lookup in Hr' as (i & Hi).
      destruct (Forall2_lookup_r _ _ _ _ _ Hall Hi) as (r0 & Hr0 & _ & _ & Hnew).
      apply elem_of_app. destruct (Hnew k Hk) as [H | H]; [left | right; exact H].
      apply (Hkeys r0); [| exact H]. apply list_elem_of_lookup. eauto.
    - destruct (convertCSVColumns_replace_cells rows cols) as (_ & Hall).
      apply list_elem_of_lookup in Hr' as (i & Hi).
      destruct (Forall2_lookup_r _ _ _ _ _ Hall Hi) as (r0 & Hr0 & _ & _ & _ & Hdom).
      apply elem_of_app. left. apply (Hkeys r0); [| apply Hdom, Hk].
      apply list_elem_of_lookup. eauto. }
  unfold allHeaders.
  destruct (newHeaders (convertCSVColumns rows cols keepOriginal)); cbn;
    [rewrite app_nil_r in Hall |]; exact Hall.
Qed.

(** X6 on one row and its two headers. *)
Lemma converted_keys_in_output_headers_witness :
  (forall r0, r0 ∈ [ ({[ "Name" := VStr "Ann"; "Hours" := VNum 7.5 ]} : row) ] ->
     forall k, is_Some (r0 !! k) -> k ∈ [ "Name"; "Hours" ])
  /\ (forall r', r' ∈ converted_data
                    (convertCSVColumns [ {[ "Name" := VStr "Ann"; "Hours" := VNum 7.5 ]} ]
                                       [ "Hours" ] true) ->
      forall k, is_Some (r' !! k) ->
      k ∈ allHeaders [ "Name"; "Hours" ]
            (newHeaders (convertCSVColumns [ {[ "Name" := VStr "Ann"; "Hours" := VNum 7.5 ]} ]
                                           [ "Hours" ] true))).
Proof.
  assert (H : forall r0, r0 ∈ [ ({[ "Name" := VStr "Ann"; "Hours" := VNum 7.5 ]} : row) ] ->
                forall k, is_Some (r0 !! k) -> k ∈ [ "Name"; "Hours" ]).
  { intros r0 Hr0 k Hk. apply list_elem_of_singleton in Hr0 as ->.
    destruct (decide (k = "Name")) as [-> | Hn]; [left |].
    destruct (decide (k = "Hours")) as [-> | Hh]; [right; left |].
    exfalso. rewrite lookup_insert_ne in Hk by congruence.
    rewrite lookup_singleton_ne in Hk by congruence.
    destruct Hk as [? Hk]. discriminate Hk. }
  split; [exact H |].
  exact (converted_keys_in_output_headers
           [ {[ "Name" := VStr "Ann"; "Hours" := VNum 7.5 ]} ]
           [ "Hours" ] [ "Name"; "Hours" ] true H).
Defined.

(* ===================================================================== *)
(** * Further properties of parseCSVFile and detectDecimalHourColumns *)
(* ===================================================================== *)

(** The keys of a remapped row are non-empty unique names. *)
Lemma remapRow_from_keys (us : list string) (r0 : row) (hs : list string)
    (index : nat) (acc : row) (k : string) :
  is_Some (remapRow_from us r0 hs index acc !! k) ->
  is_Some (acc !! k) \/ (k ∈ us /\ k <> "").
Proof.
  revert index acc. induction hs as [| h hs IH]; intros index acc Hk; [left; exact Hk |].
  cbn [remapRow_from] in Hk. apply IH in Hk as [Hk | Hk]; [| right; exact Hk].
  destruct (us !! index) as [u |] eqn:Hu; [| left; exact Hk].
  destruct (String.eqb_spec u "") as [-> | Hne]; cbn [negb] in Hk; [left; exact Hk |].
  destruct (decide (u = k)) as [<- | Hneq].
  - right. split; [| exact Hne]. apply list_elem_of_lookup. eauto.
  - rewrite lookup_insert_ne in Hk by exact Hneq. left. exact Hk.
Qed.

(** X7: a completed parse always yields a table: it carries the file
    name, its headers are the normalised field names, it has one row per
    parsed line, every key of every row is a non-empty header, and every
    suggested column is a header. When the parser reports no field
    names, the headers are empty and so is every row. *)
Theorem parseCSVFile_table :
  forall (file_name : string) (results : PapaResults),
    exists out,
      parseCSVFile file_name (PapaComplete results) = Ok out
      /\ fileName out = file_name
      /\ headers out = ensureUniqueHeaders (default [] (meta_fields results))
      /\ length (data out) = length (results_data results)
      /\ (forall r', r' ∈ data out ->
            forall k, is_Some (r' !! k) -> k ∈ headers out /\ k <> "")
      /\ (forall h, h ∈ suggestedColumns out -> h ∈ headers out)
      /\ (meta_fields results = None ->
          headers out = [] /\ forall r', r' ∈ data out -> r' = ∅).
Proof.
  intros file_name results.
  set (fields := default [] (meta_fields results)).
  set (us := ensureUniqueHeaders fields).
  set (rows' := List.map (remapRow fields us) (results_data results)).
  exists {| fileName := file_name; headers := us; data := rows';
            suggestedColumns := detectDecimalHourColumns us rows' |}.
  split; [reflexivity |]. cbn [fileName headers data suggestedColumns].
  split; [reflexivity |]. split; [reflexivity |].
  split; [apply length_map |]. split; [| split].
  - intros r' Hr' k Hk. subst rows'.
    apply list_elem_of_In, in_map_iff in Hr' as (r0 & <- & _).
    unfold remapRow in Hk. apply remapRow_from_keys in Hk as [Hk | Hk]; [| exact Hk].
    rewrite lookup_empty in Hk. destruct Hk as [? Hk]. discriminate Hk.
  - intros h Hh. unfold detectDecimalHourColumns in Hh.
    apply list_elem_of_In, filter_In in Hh as [Hh _]. apply list_elem_of_In, Hh.
  - intros Hnone. subst rows' us fields. rewrite Hnone. cbn [default].
    split; [reflexivity |]. intros r' Hr'.
    apply list_elem_of_In, in_map_iff in Hr' as (r0 & <- & _). reflexivity.
Qed.

Lemma filter_all_false {A} (p : A -> bool) (l : list A) :
  (forall x, x ∈ l -> p x = false) -> List.filter p l = [].
Proof.
  induction l as [| x l IH]; intros H; [reflexivity |]. cbn [List.filter].
  rewrite (H x) by left. apply IH. intros y Hy. apply H. right. exact Hy.
Qed.

(** X8: a column without any non-null value in any row is never
    suggested, whatever its name; in particular nothing is suggested for
    a table without rows. *)
Theorem detect_needs_a_value :
  forall (hs : list string) (rows : list row) (h : string),
    (forall r0, r0 ∈ rows -> notNullish (getProp r0 h) = false) ->
    h ∉ detectDecimalHourColumns hs rows.
Proof.
  intros hs rows h Hnull Hin. unfold detectDecimalHourColumns in Hin.
  apply list_elem_of_In, filter_In in Hin as [_ Hs].
  unfold suggestsColumn in Hs.
  rewrite filter_all_false in Hs; [discriminate Hs |].
  intros x Hx. apply list_elem_of_In, in_map_iff in Hx as (r0 & <- & Hr0).
  apply Hnull, list_elem_of_In, Hr0.
Qed.

(** X8 on a table whose column "Hours" holds null only. *)
Lemma detect_needs_a_value_witness :
  (forall r0, r0 ∈ [ ({[ "Hours" := VNull ]} : row) ] ->
     notNullish (getProp r0 "Hours") = false)
  /\ "Hours" ∉ detectDecimalHourColumns [ "Hours" ] [ {[ "Hours" := VNull ]} ].
Proof.
  assert (H : forall r0, r0 ∈ [ ({[ "Hours" := VNull ]} : row) ] ->
                notNullish (getProp r0 "Hours") = false).
  { intros r0 Hr0. apply list_elem_of_singleton in Hr0 as ->. reflexivity. }
  split; [exact H |].
  exact (detect_needs_a_value [ "Hours" ] [ {[ "Hours" := VNull ]} ] "Hours" H).
Defined.

(* ===================================================================== *)
(** * The order of doubles, and the range check *)
(* ===================================================================== *)

Ltac compare_cases :=
  repeat match goal with
         | H : context [Pos.compare_cont Eq ?a ?b] |- _ =>
             change (Pos.compare_cont Eq a b) with (Pos.compare a b) in H
         | |- context [Pos.compare_cont Eq ?a ?b] =>
             change (Pos.compare_cont Eq a b) with (Pos.compare a b)
         end;
  repeat match goal with
         | H : context [Z.compare ?a ?b] |- _ => destruct (Z.compare_spec a b)
         | |- context [Z.compare ?a ?b] => destruct (Z.compare_spec a b)
         | H : context [Pos.compare ?a ?b] |- _ => destruct (Pos.compare_spec a b)
         | |- context [Pos.compare ?a ?b] => destruct (Pos.compare_spec a b)
         end;
  subst; cbn in *; try discriminate; try reflexivity; try lia.

Lemma SFlt_le_trans (x y z : spec_float) :
  SFltb x y = true -> SFleb y z = true -> SFleb x z = true.
Proof.
  unfold SFltb, SFleb.
  destruct x as [sx | sx | | sx mx ex], y as [sy | sy | | sy my ey],
           z as [sz | sz | | sz mz ez]; cbn;
    try discriminate; try reflexivity;
    try destruct sx; try destruct sy; try destruct sz; cbn;
    try discriminate; try reflexivity; intros H1 H2; compare_cases.
Qed.

Lemma SFle_lt_trans (x y z : spec_float) :
  SFleb x y = true -> SFltb y z = true -> SFleb x z = true.
Proof.
  unfold SFltb, SFleb.
  destruct x as [sx | sx | | sx mx ex], y as [sy | sy | | sy my ey],
           z as [sz | sz | | sz mz ez]; cbn;
    try discriminate; try reflexivity;
    try destruct sx; try destruct sy; try destruct sz; cbn;
    try discriminate; try reflexivity; intros H1 H2; compare_cases.
Qed.

(** Two numbers neither of which is below the other compare alike with
    every third. *)
Lemma SFsame_le (x y z : spec_float) :
  SFeqb x x = true -> SFeqb y y = true ->
  SFltb x y = false -> SFltb y x = false ->
  SFleb x z = SFleb y z /\ SFleb z x = SFleb z y.
Proof.
  unfold SFeqb, SFltb, SFleb.
  destruct x as [sx | sx | | sx mx ex], y as [sy | sy | | sy my ey],
           z as [sz | sz | | sz mz ez]; cbn;
    try discriminate; try (split; reflexivity);
    try destruct sx; try destruct sy; try destruct sz; cbn;
    try discriminate; try (split; reflexivity);
    intros H1 H2 H3 H4; split; compare_cases.
Qed.

Lemma is_nan_false_SFeqb (a : float) :
  is_nan a = false -> SFeqb (Prim2SF a) (Prim2SF a) = true.
Proof.
  unfold is_nan. intros H. apply Bool.negb_false_iff in H.
  rewrite FloatAxioms.eqb_spec in H. exact H.
Qed.

Lemma leb_nan_l (c : float) : (nan <=? c)%float = false.
Proof. rewrite leb_spec. reflexivity. Qed.

Lemma leb_nan_r (c : float) : (c <=? nan)%float = false.
Proof.
  rewrite leb_spec. change (Prim2SF nan) with S754_nan.
  unfold SFleb. destruct (Prim2SF c); reflexivity.
Qed.

(** An upper bound of the maximum bounds both arguments. *)
Lemma max_leb (a b c : float) :
  (Num.max a b <=? c)%float = true ->
  (a <=? c)%float = true /\ (b <=? c)%float = true.
Proof.
  unfold Num.max. destruct (is_nan a) eqn:Ha; cbn [orb].
  { rewrite leb_nan_l. discriminate. }
  destruct (is_nan b) eqn:Hb.
  { rewrite leb_nan_l. discriminate. }
  apply is_nan_false_SFeqb in Ha, Hb.
  destruct (a <? b)%float eqn:Hab.
  { intros H. split; [| exact H]. rewrite leb_spec in *. rewrite ltb_spec in Hab.
    eapply SFlt_le_trans; eassumption. }
  destruct (b <? a)%float eqn:Hba.
  { intros H. split; [exact H |]. rewrite leb_spec in *. rewrite ltb_spec in Hba.
    eapply SFlt_le_trans; eassumption. }
  rewrite ltb_spec in Hab, Hba.
  destruct (SFsame_le (Prim2SF a) (Prim2SF b) (Prim2SF c) Ha Hb Hab Hba) as [Hsame _].
  rewrite !leb_spec. destruct (get_sign a); intros H.
  - split; [rewrite Hsame |]; exact H.
  - split; [| rewrite <- Hsame]; exact H.
Qed.

(** A lower bound of the minimum bounds both arguments. *)
Lemma min_leb (a b c : float) :
  (c <=? Num.min a b)%float = true ->
  (c <=? a)%float = true /\ (c <=? b)%float = true.
Proof.
  unfold Num.min. destruct (is_nan a) eqn:Ha; cbn [orb].
  { rewrite leb_nan_r. discriminate. }
  destruct (is_nan b) eqn:Hb.
  { rewrite leb_nan_r. discriminate. }
  apply is_nan_false_SFeqb in Ha, Hb.
  destruct (a <? b)%float eqn:Hab.
  { intros H. split; [exact H |]. rewrite leb_spec in *. rewrite ltb_spec in Hab.
    eapply SFle_lt_trans; eassumption. }
  destruct (b <? a)%float eqn:Hba.
  { intros H. split; [| exact H]. rewrite leb_spec in *. rewrite ltb_spec in Hba.
    eapply SFle_lt_trans; eassumption. }
  rewrite ltb_spec in Hab, Hba.
  destruct (SFsame_le (Prim2SF a) (Prim2SF b) (Prim2SF c) Ha Hb Hab Hba) as [_ Hsame].
  rewrite !leb_spec. destruct (get_sign a); intros H.
  - split; [| rewrite <- Hsame]; exact H.
  - split; [rewrite Hsame |]; exact H.
Qed.

Lemma fold_max_leb (values : list float) (init c : float) :
  (fold_left Num.max values init <=? c)%float = true ->
  (init <=? c)%float = true /\ forall x, In x values -> (x <=? c)%float = true.
Proof.
  revert init. induction values as [| y values IH]; intros init H; cbn [fold_left] in H.
  - split; [exact H | intros x []].
  - apply IH in H as [H Hrest]. apply max_leb in H as [Hinit Hy].
    split; [exact Hinit |]. intros x [<- | Hx]; [exact Hy | apply Hrest, Hx].
Qed.

Lemma fold_min_leb (values : list float) (init c : float) :
  (c <=? fold_left Num.min values init)%float = true ->
  (c <=? init)%float = true /\ forall x, In x values -> (c <=? x)%float = true.
Proof.
  revert init. induction values as [| y values IH]; intros init H; cbn [fold_left] in H.
  - split; [exact H | intros x []].
  - apply IH in H as [H Hrest]. apply min_leb in H as [Hinit Hy].
    split; [exact Hinit |]. intros x [<- | Hx]; [exact Hy | apply Hrest, Hx].
Qed.

(** X9: a suggested column holds no number outside [-1000, 1000] (and
    no NaN): a column with one number above 1000 or below -1000 is never
    suggested, with or without a time keyword in its name. *)
Theorem detect_range_sound :
  forall (hs : list string) (rows : list row) (h : string),
    h ∈ detectDecimalHourColumns hs rows ->
    forall r0 x, r0 ∈ rows -> getProp r0 h = VNum x ->
      (-1000 <=? x)%float = true /\ (x <=? 1000)%float = true.
Proof.
  intros hs rows h Hin r0 x Hr0 Hx. unfold detectDecimalHourColumns in Hin.
  apply list_elem_of_In, filter_In in Hin as [_ Hs].
  unfold suggestsColumn in Hs.
  set (columnValues := List.filter notNullish (List.map (fun r1 => getProp r1 h) rows)) in *.
  set (values := List.map numberOf (List.filter isNumber columnValues)) in *.
  assert (Hval : In x values).
  { subst values columnValues. apply in_map_iff. exists (VNum x). split; [reflexivity |].
    apply filter_In. split; [| reflexivity]. apply filter_In. split; [| reflexivity].
    apply in_map_iff. exists r0. split; [exact Hx |]. apply list_elem_of_In, Hr0. }
  destruct (length columnValues =? 0)%nat; [discriminate Hs |].
  destruct (_ <? 0.8)%float; [discriminate Hs |].
  assert (Hrange : ((-1000 <=? fold_left Num.min values infinity)
                    && (fold_left Num.max values neg_infinity <=? 1000))%float = true).
  { destruct ((-1000 <=? fold_left Num.min values infinity)
              && (fold_left Num.max values neg_infinity <=? 1000))%float;
      [reflexivity |].
    rewrite !Bool.andb_false_r in Hs. cbn in Hs. discriminate Hs. }
  apply andb_prop in Hrange as [Hmin Hmax].
  split.
  - apply (fold_min_leb values infinity _ Hmin), Hval.
  - apply (fold_max_leb values neg_infinity _ Hmax), Hval.
Qed.

(** X9 on the column of 101, 102, 103. *)
Lemma detect_range_sound_witness :
  "EmployeeID" ∈ detectDecimalHourColumns
                   [ "EmployeeID" ] (employeeRows [ 101; 102; 103 ]%float)
  /\ (-1000 <=? 102)%float = true /\ (102 <=? 1000)%float = true.
Proof.
  assert (H : "EmployeeID" ∈ detectDecimalHourColumns
                [ "EmployeeID" ] (employeeRows [ 101; 102; 103 ]%float)).
  { replace (detectDecimalHourColumns
               [ "EmployeeID" ] (employeeRows [ 101; 102; 103 ]%float))
      with [ "EmployeeID" ] by (vm_compute; reflexivity).
    left. }
  split; [exact H |].
  apply (detect_range_sound [ "EmployeeID" ] (employeeRows [ 101; 102; 103 ]%float)
           "EmployeeID" H {[ "EmployeeID" := VNum 102 ]} 102%float).
  - right. left.
  - reflexivity.
Defined.

(* ===================================================================== *)
(** * Further properties of the work sheet functions *)
(* ===================================================================== *)

(** X10: a column is in the set of merged columns exactly when some
    merge that covers the header row has it as a column other than its
    first; so column 0 is never in the set, and a sheet without merges
    has the empty set. *)
Theorem getMergedColumns_exactly :
  forall (worksheet : WorkSheet) (h : nat),
    (forall col,
        col ∈ getMergedColumns worksheet h <->
        exists merge, merge ∈ sheetMerges worksheet
          /\ (r (s merge) <= h <= r (e merge))%nat
          /\ (c (s merge) < col <= c (e merge))%nat)
    /\ (0%nat ∉ getMergedColumns worksheet h)
    /\ (sheetMerges worksheet = [] -> getMergedColumns worksheet h = ∅).
Proof.
  intros worksheet h. split; [intros col; apply elem_of_getMergedColumns |]. split.
  - intros H. apply elem_of_getMergedColumns in H as (merge & _ & _ & Hc). lia.
  - intros Hnone. unfold getMergedColumns. rewrite Hnone. reflexivity.
Qed.

(** X11: [columnCounts] has one entry per column that holds a cell, and
    the entry of a column is the number of keys of the sheet, the keys
    that start with "!" left aside, that consist of the letters of that
    column and digits. *)
Theorem columnCounts_counts_cells :
  forall (worksheet : WorkSheet),
    NoDup (List.map fst (columnCounts worksheet))
    /\ (forall col n,
          (col, n) ∈ columnCounts worksheet <->
          (1 <= n)%nat
          /\ n = length (List.filter
                          (fun key => negb (Str.startsWith key "!")
                                      && String.eqb col (Str.stripDigits key))
                          (List.map fst worksheet))).
Proof.
  intros worksheet. split.
  - rewrite columnCounts_fold. apply NoDup_keys_fold. constructor.
  - intros col n. rewrite elem_of_columnCounts.
    assert (Hcount : cellCount worksheet col
                     = length (List.filter
                                 (fun key => negb (Str.startsWith key "!")
                                             && String.eqb col (Str.stripDigits key))
                                 (List.map fst worksheet))).
    { unfold cellCount, occurrences, cellKeys.
      induction (List.map fst worksheet) as [| key keys IH]; [reflexivity |].
      cbn [List.filter]. destruct (negb (Str.startsWith key "!")); cbn [andb List.map List.filter].
      - destruct (String.eqb col (Str.stripDigits key)); cbn [length]; rewrite IH; reflexivity.
      - exact IH. }
    rewrite Hcount. split; [intros [<- H]; auto | intros [H ->]; auto].
Qed.

(** X12: the guard finds a column exactly when the sheet has a column of
    one cell and a column of more than one cell, whatever the header
    row. *)
Theorem findMissingDataColumns_trips_iff :
  forall (worksheet : WorkSheet) (h : nat),
    findMissingDataColumns worksheet h <> [] <->
    (exists col, cellCount worksheet col = 1%nat)
    /\ (exists col, (1 < cellCount worksheet col)%nat).
Proof.
  intros worksheet h.
  - split.
    + intros Hne.
      destruct (findMissingDataColumns worksheet h) as [| name' rest] eqn:Hlist;
        [congruence |].
      assert (Hmany : exists col, (1 < cellCount worksheet col)%nat).
      { unfold findMissingDataColumns in Hlist.
        destruct (exceedsOne (maxCount (List.map snd (columnCounts worksheet)))) eqn:Hmax;
          [| discriminate Hlist].
        apply maxCount_exceedsOne in Hmax as (n & Hin & Hlt).
        apply list_elem_of_In, in_map_iff in Hin as ([col n'] & Heq & Hin).
        cbn in Heq. subst n'.
        apply list_elem_of_In, elem_of_columnCounts in Hin as [<- _]. eauto. }
      split; [| exact Hmany].
      assert (Hin : name' ∈ findMissingDataColumns worksheet h) by (rewrite Hlist; left).
      apply (elem_of_findMissingDataColumns worksheet h name' Hmany) in Hin
        as (col & Hcol & _). eauto.
    + intros [(col & Hcol) Hmany] Hnil.
      assert (Hin : missingColumnName worksheet h col ∈ findMissingDataColumns worksheet h).
      { apply elem_of_findMissingDataColumns; eauto. }
      rewrite Hnil in Hin. inversion Hin.
Qed.

(* ===================================================================== *)
(** * Further properties of parseXLSXSheet *)
(* ===================================================================== *)

(** The retained column indices lie within the header row and increase
    from left to right. *)
Lemma extractHeaders_indices (mergedColumns : gset nat) (headerRow : list value)
    (index : nat) :
  NoDup (extractHeaders mergedColumns headerRow index).2
  /\ forall i, i ∈ (extractHeaders mergedColumns headerRow index).2 ->
       (index <= i < index + length headerRow)%nat.
Proof.
  revert index. induction headerRow as [| cell rest IH]; intros index;
    cbn [extractHeaders].
  - cbn. split; [constructor | intros i H; inversion H].
  - specialize (IH (S index)).
    destruct (extractHeaders mergedColumns rest (S index)) as [hs idx].
    cbn [snd] in IH. destruct IH as [Hnd Hin].
    assert (Hrest : forall i, i ∈ idx -> (index <= i < index + length (cell :: rest))%nat).
    { intros i Hi. apply Hin in Hi. cbn [length]. lia. }
    destruct (bool_decide (index ∈ mergedColumns)); [cbn [snd]; auto |].
    destruct (nonEmptyCell cell); cbn [negb snd]; [| auto].
    split.
    + constructor; [| exact Hnd]. intros Hi. apply Hin in Hi. lia.
    + intros i Hi. apply elem_of_cons in Hi as [-> | Hi]; [cbn [length]; lia | auto].
Qed.

Lemma extractHeaders_length (mergedColumns : gset nat) (headerRow : list value)
    (index : nat) :
  length (extractHeaders mergedColumns headerRow index).1
  = length (extractHeaders mergedColumns headerRow index).2.
Proof.
  pose proof (extractHeaders_spec mergedColumns headerRow index) as H.
  destruct (extractHeaders mergedColumns headerRow index) as [hs idx].
  destruct H as [-> _]. cbn. apply length_map.
Qed.


(** Every entry of the header map comes from a retained column and the
    header of its rank, which is not empty. *)
Lemma buildHeaderMap_inv (hs : list string) (validColumnIndices : list nat)
    (headerIndex : nat) (headerMap : gmap nat string) (i : nat) (u : string) :
  buildHeaderMap hs validColumnIndices headerIndex headerMap !! i = Some u ->
  headerMap !! i = Some u
  \/ exists j, validColumnIndices !! j = Some i
               /\ hs !! (headerIndex + j)%nat = Some u /\ u <> "".
Proof.
  revert headerIndex headerMap.
  induction validColumnIndices as [| i0 idx IH]; intros headerIndex headerMap H;
    [left; exact H |].
  cbn [buildHeaderMap] in H. apply IH in H as [H | (j & Hj & Hu & Hne)].
  - destruct (hs !! headerIndex) as [name |] eqn:Hname; [| left; exact H].
    destruct (String.eqb name "") eqn:Hempty; cbn [negb] in H; [left; exact H |].
    destruct (decide (i0 = i)) as [-> | Hdiff].
    + rewrite lookup_insert_eq in H. injection H as <-.
      right. exists 0%nat. rewrite Nat.add_0_r.
      split; [reflexivity |]. split; [exact Hname |].
      apply String.eqb_neq. exact Hempty.
    + rewrite lookup_insert_ne in H by exact Hdiff. left. exact H.
  - right. exists (S j). split; [exact Hj |]. split; [| exact Hne].
    replace (headerIndex + S j)%nat with (S headerIndex + j)%nat by lia. exact Hu.
Qed.

Section BuildRow.

Variable stringToNumber : string -> float.

(** The keys of a built row are names of the header map. *)
Lemma buildRow_keys (headerMap : gmap nat string) (cells : list value)
    (index : nat) (acc : row) (k : string) :
  is_Some (buildRow stringToNumber headerMap cells index acc !! k) ->
  is_Some (acc !! k)
  \/ exists p, (p < length cells)%nat /\ headerMap !! (index + p)%nat = Some k /\ k <> "".
Proof.
  revert index acc. induction cells as [| cell cells IH]; intros index acc H;
    [left; exact H |].
  cbn [buildRow] in H. apply IH in H as [H | (p & Hp & Hk & Hne)].
  - destruct (headerMap !! index) as [name |] eqn:Hname; [| left; exact H].
    destruct (String.eqb name "") eqn:Hempty; cbn [negb] in H; [left; exact H |].
    destruct (decide (name = k)) as [-> | Hdiff].
    + right. exists 0%nat. rewrite Nat.add_0_r. cbn [length].
      split; [lia |]. split; [exact Hname |]. apply String.eqb_neq. exact Hempty.
    + rewrite lookup_insert_ne in H by exact Hdiff. left. exact H.
  - right. exists (S p). cbn [length]. split; [lia |]. split; [| exact Hne].
    replace (index + S p)%nat with (S index + p)%nat by lia. exact Hk.
Qed.



End BuildRow.

(** X13: in a parsed sheet every key of every row is a non-empty name of
    the header list, and there is one row for every line below the
    header row that holds a populated cell. *)
Theorem parseXLSXSheet_table :
  forall (sheet_to_json : WorkSheet -> grid) (stringToNumber : string -> float)
         (workbook : WorkBook) (name : string) (worksheet : WorkSheet)
         (out : SheetData),
    SheetNames workbook !! 0%nat = Some name ->
    Sheets workbook !! name = Some worksheet ->
    parseXLSXSheet sheet_to_json stringToNumber workbook = Ok out ->
    (forall r0 k, r0 ∈ sheet_data out -> is_Some (r0 !! k) ->
                  k ∈ sheet_headers out /\ k <> "")
    /\ length (sheet_data out)
       = length (List.filter (existsb nonEmptyCell)
                             (drop (headerRowIndex out + 1) (sheet_to_json worksheet)))
    /\ (length (sheet_headers out)
        <= length (default [] (sheet_to_json worksheet !! headerRowIndex out)))%nat.
Proof.
  intros sheet_to_json stringToNumber workbook name worksheet out Hname Hsheet Hparse.
  unfold parseXLSXSheet in Hparse. rewrite Hname in Hparse.
  destruct (String.eqb name ""); [discriminate Hparse |].
  rewrite Hsheet in Hparse.
  set (h := detectHeaderRow (sheet_to_json worksheet)) in *.
  set (headerRow := default [] (sheet_to_json worksheet !! h)) in *.
  pose proof (extractHeaders_indices (getMergedColumns worksheet h) headerRow 0)
    as [Hnd Hrange].
  pose proof (extractHeaders_length (getMergedColumns worksheet h) headerRow 0) as Hlen.
  destruct (extractHeaders _ headerRow 0) as [rawHeaders validColumnIndices].
  cbn [fst snd] in *.
  destruct (0 <? length _)%nat; [discriminate Hparse |].
  injection Hparse as <-. cbn [headerRowIndex sheet_headers sheet_data].
  split; [| split].
  - intros r0 k Hin Hk. unfold buildData in Hin.
    apply list_elem_of_In, in_map_iff in Hin as (cells & <- & _).
    apply buildRow_keys in Hk as [Hk | (p & _ & Hk & Hne)].
    { rewrite lookup_empty in Hk. destruct Hk as [? Hk]. discriminate Hk. }
    split; [| exact Hne].
    apply buildHeaderMap_inv in Hk as [Hk | (j & _ & Hk & _)].
    { rewrite lookup_empty in Hk. discriminate Hk. }
    apply list_elem_of_lookup. exists j. exact Hk.
  - unfold buildData. apply length_map.
  - unfold ensureUniqueHeaders. rewrite ensureUniqueHeaders_from_length, Hlen.
    clear - Hnd Hrange.
    assert (Hsub : validColumnIndices ⊆+ seq 0 (length headerRow)).
    { apply NoDup_submseteq; [exact Hnd |].
      intros i Hi. apply Hrange in Hi. apply elem_of_seq. lia. }
    apply submseteq_length in Hsub. rewrite length_seq in Hsub. exact Hsub.
Qed.

(** X13 on [mergedBook]. *)
Lemma parseXLSXSheet_table_witness :
  exists out,
    parseXLSXSheet (fun _ => mergedGrid) (fun _ => nan) mergedBook = Ok out
    /\ (forall r0 k, r0 ∈ sheet_data out -> is_Some (r0 !! k) ->
                     k ∈ sheet_headers out /\ k <> "")
    /\ length (sheet_data out)
       = length (List.filter (existsb nonEmptyCell)
                             (drop (headerRowIndex out + 1) mergedGrid))
    /\ (length (sheet_headers out)
        <= length (default [] (mergedGrid !! headerRowIndex out)))%nat.
Proof.
  destruct (parseXLSXSheet (fun _ => mergedGrid) (fun _ => nan) mergedBook)
    as [out | message] eqn:Hparse.
  - exists out. split; [reflexivity |].
    exact (parseXLSXSheet_table (fun _ => mergedGrid) (fun _ => nan) mergedBook
             "Sheet1" mergedSheet out eq_refl eq_refl Hparse).
  - vm_compute in Hparse. discriminate Hparse.
Defined.




(** X15: the detected header row is 0 or one of the rows 3..14; it is a
    row of the grid unless the grid is empty or the row is the fallback
    6; a grid of at most 3 rows with a report preamble gets the
    fallback. *)
Theorem detectHeaderRow_range :
  forall rows : grid,
    (detectHeaderRow rows = 0%nat \/ (3 <= detectHeaderRow rows < 15)%nat)
    /\ ((detectHeaderRow rows < length rows)%nat
        \/ rows = [] \/ detectHeaderRow rows = 6%nat)
    /\ (hasReportHeader rows = true -> (length rows <= 3)%nat ->
        detectHeaderRow rows = 6%nat).
Proof.
  intros rows. unfold detectHeaderRow.
  destruct rows as [| cells0 rest].
  { cbn [length Nat.eqb]. split; [auto |]. split; [auto |].
    intros H. rewrite hasReportHeader_nil in H. discriminate H. }
  assert (Hsome : (length (cells0 :: rest) =? 0)%nat = false) by reflexivity.
  rewrite Hsome. clear Hsome.
  assert (Hpos : (0 < length (cells0 :: rest))%nat) by (cbn [length]; lia).
  revert Hpos. generalize (cells0 :: rest). clear cells0 rest.
  intros rows Hpos.
  destruct (hasReportHeader rows) eqn:Hrep.
  - unfold findColumnHeaderRow.
    destruct (findColumnHeaderRow_from_spec rows (Nat.min (length rows) 15 - 3) 3)
      as [(cells & Hc & _ & Hr & _) | [H6 _]].
    + apply lookup_lt_Some in Hc.
      split; [right; lia |]. split; [left; lia |]. intros _ Hlen. lia.
    + rewrite H6. split; [right; lia |]. split; [auto |]. auto.
  - split; [auto |]. split; [left; lia |]. intros H. discriminate H.
Qed.

(** X15 on [shortGrid]. *)
Lemma detectHeaderRow_range_witness :
  hasReportHeader (take 3 shortGrid) = true
  /\ detectHeaderRow (take 3 shortGrid) = 6%nat.
Proof.
  assert (Hrep : hasReportHeader (take 3 shortGrid) = true) by (vm_compute; reflexivity).
  split; [exact Hrep |].
  apply (proj2 (proj2 (detectHeaderRow_range (take 3 shortGrid))) Hrep).
  cbn. lia.
Defined.

(** X16: when the guard finds no column and the detected header row
    lies below the last line of the sheet, the parse succeeds with no
    header and no row. *)
Theorem parseXLSXSheet_header_below_sheet :
  forall (sheet_to_json : WorkSheet -> grid) (stringToNumber : string -> float)
         (workbook : WorkBook) (name : string) (worksheet : WorkSheet),
    SheetNames workbook !! 0%nat = Some name ->
    name <> "" ->
    Sheets workbook !! name = Some worksheet ->
    findMissingDataColumns worksheet (detectHeaderRow (sheet_to_json worksheet)) = [] ->
    (length (sheet_to_json worksheet) <= detectHeaderRow (sheet_to_json worksheet))%nat ->
    parseXLSXSheet sheet_to_json stringToNumber workbook
    = Ok {| sheet_headers := []; sheet_data := [];
            headerRowIndex := detectHeaderRow (sheet_to_json worksheet) |}.
Proof.
  intros sheet_to_json stringToNumber workbook name worksheet Hname Hne Hsheet
         Hguard Hlen.
  unfold parseXLSXSheet. rewrite Hname.
  apply String.eqb_neq in Hne. rewrite Hne, Hsheet, Hguard.
  rewrite (proj2 (lookup_ge_None _ _) Hlen).
  cbn [default extractHeaders length Nat.ltb Nat.leb].
  rewrite drop_ge by lia. reflexivity.
Qed.

(** X16 on [shortBook]: the two columns of the report are lost. *)
Lemma parseXLSXSheet_header_below_sheet_witness :
  findMissingDataColumns shortSheet (detectHeaderRow shortGrid) = []
  /\ (length shortGrid <= detectHeaderRow shortGrid)%nat
  /\ parseXLSXSheet (fun _ => shortGrid) (fun _ => nan) shortBook
     = Ok {| sheet_headers := []; sheet_data := [];
             headerRowIndex := detectHeaderRow shortGrid |}.
Proof.
  assert (Hguard : findMissingDataColumns shortSheet (detectHeaderRow shortGrid) = [])
    by (vm_compute; reflexivity).
  assert (Hlen : (length shortGrid <= detectHeaderRow shortGrid)%nat)
    by (vm_compute; lia).
  split; [exact Hguard |]. split; [exact Hlen |].
  apply (parseXLSXSheet_header_below_sheet (fun _ => shortGrid) (fun _ => nan)
           shortBook "Report" shortSheet eq_refl).
  - discriminate.
  - reflexivity.
  - exact Hguard.
  - exact Hlen.
Defined.

(** X17: the outcomes of [parseXLSXSheet]. A result comes from the first
    sheet name, which is not empty, and its sheet, in which the guard
    finds no column; an error is one of three: no first sheet name (or
    an empty one), no sheet of that name, or the columns the guard
    found. *)
Theorem parseXLSXSheet_outcome :
  forall (sheet_to_json : WorkSheet -> grid) (stringToNumber : string -> float)
         (workbook : WorkBook),
    match parseXLSXSheet sheet_to_json stringToNumber workbook with
    | Ok out =>
        exists name worksheet,
          SheetNames workbook !! 0%nat = Some name /\ name <> ""
          /\ Sheets workbook !! name = Some worksheet
          /\ headerRowIndex out = detectHeaderRow (sheet_to_json worksheet)
          /\ findMissingDataColumns worksheet (headerRowIndex out) = []
    | Err message =>
        (message = "No sheets found in workbook"
         /\ (SheetNames workbook !! 0%nat = None
             \/ SheetNames workbook !! 0%nat = Some ""))
        \/ (exists name,
              SheetNames workbook !! 0%nat = Some name /\ name <> ""
              /\ Sheets workbook !! name = None
              /\ message = "Sheet " +:+ Str.quote +:+ name +:+ Str.quote
                           +:+ " not found in workbook")
        \/ (exists name worksheet,
              SheetNames workbook !! 0%nat = Some name /\ name <> ""
              /\ Sheets workbook !! name = Some worksheet
              /\ findMissingDataColumns worksheet
                   (detectHeaderRow (sheet_to_json worksheet)) <> []
              /\ message = missingDataMessage
                             (findMissingDataColumns worksheet
                                (detectHeaderRow (sheet_to_json worksheet))))
    end.
Proof.
  intros sheet_to_json stringToNumber workbook. unfold parseXLSXSheet.
  destruct (SheetNames workbook !! 0%nat) as [name |] eqn:Hname; [| left; auto].
  destruct (String.eqb name "") eqn:Hempty.
  { apply String.eqb_eq in Hempty. subst name. left. auto. }
  apply String.eqb_neq in Hempty.
  destruct (Sheets workbook !! name) as [worksheet |] eqn:Hsheet.
  - destruct (extractHeaders _ _ 0) as [rawHeaders validColumnIndices].
    destruct (findMissingDataColumns worksheet (detectHeaderRow (sheet_to_json worksheet)))
      as [| missing rest] eqn:Hguard; cbn [length Nat.ltb Nat.leb].
    + exists name, worksheet. cbn [headerRowIndex]. auto.
    + right. right. exists name, worksheet. rewrite Hguard.
      split; [reflexivity |]. split; [exact Hempty |]. split; [exact Hsheet |].
      split; [discriminate | reflexivity].
  - right. left. exists name. auto.
Qed.

(** X18: only the first sheet name and the sheet of that name are
    consulted: two workbooks that agree on them parse alike. *)
Theorem parseXLSXSheet_first_sheet_only :
  forall (sheet_to_json : WorkSheet -> grid) (stringToNumber : string -> float)
         (workbook workbook' : WorkBook),
    SheetNames workbook !! 0%nat = SheetNames workbook' !! 0%nat ->
    (forall name, SheetNames workbook !! 0%nat = Some name ->
                  Sheets workbook !! name = Sheets workbook' !! name) ->
    parseXLSXSheet sheet_to_json stringToNumber workbook
    = parseXLSXSheet sheet_to_json stringToNumber workbook'.
Proof.
  intros sheet_to_json stringToNumber workbook workbook' Hfirst Hsheet.
  unfold parseXLSXSheet. rewrite <- Hfirst.
  destruct (SheetNames workbook !! 0%nat) as [name |]; [| reflexivity].
  rewrite <- (Hsheet name eq_refl). reflexivity.
Qed.

(** X18 on [mergedBook] and the same book with a second sheet. *)
Lemma parseXLSXSheet_first_sheet_only_witness :
  parseXLSXSheet (fun _ => mergedGrid) (fun _ => nan) mergedBook
  = parseXLSXSheet (fun _ => mergedGrid) (fun _ => nan)
      {| SheetNames := SheetNames mergedBook ++ [ "Notes" ];
         Sheets := <[ "Notes" := remarkSheet ]> (Sheets mergedBook) |}.
Proof.
  apply parseXLSXSheet_first_sheet_only.
  - reflexivity.
  - intros name Hname. injection Hname as <-. cbn [Sheets].
    rewrite lookup_insert_ne by discriminate. reflexivity.
Defined.

(* ===================================================================== *)
(** * Properties of the structural header detection *)
(* ===================================================================== *)

Lemma firstCandidate_spec (rows : grid) (n i : nat) :
  match Structural.firstCandidate rows i n with
  | Some d =>
      (i <= d < i + n)%nat /\ Structural.isHeaderCandidate rows d = true
      /\ forall j, (i <= j < d)%nat -> Structural.isHeaderCandidate rows j = false
  | None =>
      forall j, (i <= j < i + n)%nat -> Structural.isHeaderCandidate rows j = false
  end.
Proof.
  revert i. induction n as [| n IH]; intros i; cbn [Structural.firstCandidate].
  - intros j Hj. lia.
  - destruct (Structural.isHeaderCandidate rows i) eqn:Hi.
    + split; [lia |]. split; [exact Hi |]. intros j Hj. lia.
    + specialize (IH (S i)). destruct (Structural.firstCandidate rows (S i) n) as [d |].
      * destruct IH as (Hd & Hcand & Hfirst). split; [lia |]. split; [exact Hcand |].
        intros j Hj. destruct (decide (j = i)) as [-> | Hne]; [exact Hi |].
        apply Hfirst. lia.
      * intros j Hj. destruct (decide (j = i)) as [-> | Hne]; [exact Hi |].
        apply IH. lia.
Qed.

(** A candidate row holds at least 3 populated cells and has two rows
    below it. *)
Lemma isHeaderCandidate_cells (rows : grid) (i : nat) :
  Structural.isHeaderCandidate rows i = true ->
  (i + 2 < length rows)%nat
  /\ exists cells, rows !! i = Some cells /\ (3 <= countCells nonEmptyCell cells)%nat.
Proof.
  unfold Structural.isHeaderCandidate.
  destruct (rows !! i) as [cells |] eqn:Hrow; [| discriminate].
  destruct (countCells nonEmptyCell cells <? 3)%nat eqn:Hthree; [discriminate |].
  apply Nat.ltb_ge in Hthree.
  destruct (_ <? 0.6)%float; [discriminate |].
  destruct (rows !! (i + 1)%nat); [| discriminate].
  destruct (rows !! (i + 2)%nat) eqn:Hnext; [| discriminate].
  intros _. apply lookup_lt_Some in Hnext. split; [exact Hnext |]. eauto.
Qed.

(** The fallback loop keeps the first row with the greatest number of
    populated cells. *)
Lemma mostCells_spec (rows : grid) (n i maxNonEmpty maxIndex : nat) :
  (forall j cells, (j < i)%nat -> rows !! j = Some cells ->
                   (countCells nonEmptyCell cells <= maxNonEmpty)%nat) ->
  (forall j cells, (j < maxIndex)%nat -> rows !! j = Some cells ->
                   (countCells nonEmptyCell cells < maxNonEmpty)%nat) ->
  (maxNonEmpty = 0%nat /\ maxIndex = 0%nat
   \/ (maxIndex < i)%nat
      /\ exists cells, rows !! maxIndex = Some cells
                       /\ countCells nonEmptyCell cells = maxNonEmpty) ->
  exists m,
    let d := Structural.mostCells rows i n maxNonEmpty maxIndex in
    (forall j cells, (j < i + n)%nat -> rows !! j = Some cells ->
                     (countCells nonEmptyCell cells <= m)%nat)
    /\ (forall j cells, (j < d)%nat -> rows !! j = Some cells ->
                        (countCells nonEmptyCell cells < m)%nat)
    /\ (m = 0%nat /\ d = 0%nat
        \/ (d < i + n)%nat
           /\ exists cells, rows !! d = Some cells
                            /\ countCells nonEmptyCell cells = m).
Proof.
  revert i maxNonEmpty maxIndex.
  induction n as [| n IH]; intros i maxNonEmpty maxIndex Hall Hbefore Hat;
    cbn [Structural.mostCells].
  - exists maxNonEmpty. cbn zeta. rewrite Nat.add_0_r. auto.
  - assert (Hkeep :
      (forall cells, rows !! i = Some cells ->
                     (countCells nonEmptyCell cells <= maxNonEmpty)%nat) ->
      exists m,
        let d := Structural.mostCells rows (S i) n maxNonEmpty maxIndex in
        (forall j cells, (j < i + S n)%nat -> rows !! j = Some cells ->
                         (countCells nonEmptyCell cells <= m)%nat)
        /\ (forall j cells, (j < d)%nat -> rows !! j = Some cells ->
                            (countCells nonEmptyCell cells < m)%nat)
        /\ (m = 0%nat /\ d = 0%nat
            \/ (d < i + S n)%nat
               /\ exists cells, rows !! d = Some cells
                                /\ countCells nonEmptyCell cells = m)).
    { intros Hi.
      destruct (IH (S i) maxNonEmpty maxIndex) as (m & H1 & H2 & H3).
      - intros j cells Hj Hrow. destruct (decide (j = i)) as [-> | Hne];
          [apply Hi, Hrow | apply (Hall j); [lia | exact Hrow]].
      - exact Hbefore.
      - destruct Hat as [Hat | [Hlt Hat]]; [left; exact Hat | right; split; [lia | exact Hat]].
      - exists m. cbn zeta in *. split; [| split; [exact H2 |]].
        + intros j cells Hj. apply H1. lia.
        + destruct H3 as [H3 | [Hlt H3]]; [left; exact H3 | right; split; [lia | exact H3]]. }
    destruct (rows !! i) as [cells |] eqn:Hrow.
    + cbn zeta. destruct (maxNonEmpty <? countCells nonEmptyCell cells)%nat eqn:Hgt.
      * apply Nat.ltb_lt in Hgt.
        destruct (IH (S i) (countCells nonEmptyCell cells) i) as (m & H1 & H2 & H3).
        -- intros j cells' Hj Hrow'. destruct (decide (j = i)) as [-> | Hne].
           ++ rewrite Hrow in Hrow'. injection Hrow' as <-. lia.
           ++ assert (countCells nonEmptyCell cells' <= maxNonEmpty)%nat
                by (apply (Hall j); [lia | exact Hrow']). lia.
        -- intros j cells' Hj Hrow'.
           assert (countCells nonEmptyCell cells' <= maxNonEmpty)%nat
             by (apply (Hall j); [lia | exact Hrow']). lia.
        -- right. split; [lia |]. exists cells. auto.
        -- exists m. cbn zeta in *. split; [| split; [exact H2 |]].
           ++ intros j cells' Hj. apply H1. lia.
           ++ destruct H3 as [H3 | [Hlt H3]];
                [left; exact H3 | right; split; [lia | exact H3]].
      * apply Nat.ltb_ge in Hgt. apply Hkeep.
        intros cells' Heq. injection Heq as <-. exact Hgt.
    + apply Hkeep. intros cells' Heq. discriminate Heq.
Qed.

(** X19: on a grid that is not empty the structural detection returns a
    row of the grid, among the first 20. It is the first row of index
    below 20, with two rows under it, that passes the tests of the first
    loop (such a row holds at least 3 populated cells); if there is
    none, it is the first of the rows 0..9 that hold the greatest number
    of populated cells. *)
Theorem structural_detectHeaderRow_spec :
  forall rows : grid,
    rows <> [] ->
    let d := Structural.detectHeaderRow rows in
    (d < length rows)%nat /\ (d < 20)%nat
    /\ exists cellsd,
         rows !! d = Some cellsd
         /\ ((Structural.isHeaderCandidate rows d = true
              /\ (d + 2 < length rows)%nat
              /\ (3 <= countCells nonEmptyCell cellsd)%nat
              /\ forall j, (j < d)%nat -> Structural.isHeaderCandidate rows j = false)
             \/ ((forall j, (j < 20)%nat -> Structural.isHeaderCandidate rows j = false)
                 /\ (d < 10)%nat
                 /\ forall j cells, (j < 10)%nat -> rows !! j = Some cells ->
                      (countCells nonEmptyCell cells <= countCells nonEmptyCell cellsd)%nat
                      /\ ((j < d)%nat ->
                          (countCells nonEmptyCell cells
                           < countCells nonEmptyCell cellsd)%nat))).
Proof.
  intros rows Hrows d. subst d. unfold Structural.detectHeaderRow.
  assert (Hpos : (0 < length rows)%nat) by (destruct rows; [congruence | cbn; lia]).
  assert (Hlen : (length rows =? 0)%nat = false) by (apply Nat.eqb_neq; lia).
  rewrite Hlen.
  pose proof (firstCandidate_spec rows (Nat.min (length rows - 2) 20) 0) as Hfirst.
  destruct (Structural.firstCandidate rows 0 (Nat.min (length rows - 2) 20)) as [d |].
  - destruct Hfirst as (Hd & Hcand & Hnone).
    destruct (isHeaderCandidate_cells rows d Hcand) as (Hnext & cells & Hrow & Hthree).
    split; [lia |]. split; [lia |]. exists cells. split; [exact Hrow |]. left.
    split; [exact Hcand |]. split; [exact Hnext |]. split; [exact Hthree |].
    intros j Hj. apply Hnone. lia.
  - assert (Hnone : forall j, (j < 20)%nat -> Structural.isHeaderCandidate rows j = false).
    { intros j Hj. destruct (Structural.isHeaderCandidate rows j) eqn:Hcand; [| reflexivity].
      pose proof (isHeaderCandidate_cells rows j Hcand) as [Hnext _].
      rewrite <- Hcand. apply Hfirst. lia. }
    destruct (mostCells_spec rows (Nat.min (length rows) 10) 0 0 0)
      as (m & Hall & Hbefore & Hat).
    + intros j cells Hj. lia.
    + intros j cells Hj. lia.
    + left. auto.
    + cbn zeta in *.
      set (d := Structural.mostCells rows 0 (Nat.min (length rows) 10) 0 0) in *.
      assert (Hle : forall j cells, (j < 10)%nat -> rows !! j = Some cells ->
                                    (countCells nonEmptyCell cells <= m)%nat).
      { intros j cells Hj Hrow. apply (Hall j); [| exact Hrow].
        apply lookup_lt_Some in Hrow. lia. }
      destruct Hat as [[-> Hd] | [Hd (cellsd & Hrowd & Hm)]].
      * rewrite Hd. destruct (lookup_lt_is_Some_2 rows 0 Hpos) as [cells0 Hrow0].
        split; [lia |]. split; [lia |]. exists cells0. split; [exact Hrow0 |]. right.
        split; [exact Hnone |]. split; [lia |].
        intros j cells Hj Hrow. split; [| lia].
        pose proof (Hle j cells Hj Hrow). lia.
      * split; [lia |]. split; [lia |]. exists cellsd. split; [exact Hrowd |]. right.
        split; [exact Hnone |]. split; [lia |].
        intros j cells Hj Hrow. rewrite Hm. split; [apply (Hle j), Hrow; exact Hj |].
        intros Hjd. apply (Hbefore j); [exact Hjd | exact Hrow].
Qed.

(** X19 on [reportGrid]. *)
Lemma structural_detectHeaderRow_spec_witness :
  reportGrid <> []
  /\ (Structural.detectHeaderRow reportGrid < length reportGrid)%nat.
Proof.
  assert (Hrows : reportGrid <> []) by discriminate.
  split; [exact Hrows |].
  exact (proj1 (structural_detectHeaderRow_spec reportGrid Hrows)).
Defined.

(* ===================================================================== *)
(** * Properties of the column selection *)
(* ===================================================================== *)

Lemma includesStr_app (l1 l2 : list string) (x : string) :
  includesStr (l1 ++ l2) x = includesStr l1 x || includesStr l2 x.
Proof. unfold includesStr. apply existsb_app. Qed.

Lemma includesStr_filter_ne (l : list string) (x y : string) :
  includesStr (List.filter (fun col => negb (String.eqb col y)) l) x
  = negb (String.eqb x y) && includesStr l x.
Proof.
  unfold includesStr. induction l as [| h l IH]; cbn [List.filter existsb].
  - rewrite Bool.andb_false_r. reflexivity.
  - destruct (String.eqb h y) eqn:Hhy; cbn [negb existsb]; rewrite IH.
    + apply String.eqb_eq in Hhy. subst h.
      destruct (String.eqb x y); reflexivity.
    + destruct (String.eqb x h) eqn:Hxh; [| reflexivity].
      apply String.eqb_eq in Hxh. subst h. rewrite Hhy. reflexivity.
Qed.

Lemma filter_ne_absent (l : list string) (y : string) :
  includesStr l y = false ->
  List.filter (fun col => negb (String.eqb col y)) l = l.
Proof.
  unfold includesStr. induction l as [| h l IH]; cbn [List.filter existsb];
    [reflexivity |].
  intros H. apply Bool.orb_false_elim in H as [Hh Hl].
  rewrite String.eqb_sym, Hh. cbn [negb]. rewrite IH by exact Hl. reflexivity.
Qed.

(** X20: for a file that has a selection, [setColumnChecked] makes
    [isColumnSelected] answer [checked] for that file and column, and
    leaves the answer for every other file or column as it was; for a
    file without a selection it changes nothing. *)
Theorem setColumnChecked_isColumnSelected :
  forall (selectedColumns : Selection) (fileName columnName : string)
         (checked : bool),
    (is_Some (selectedColumns !! fileName) ->
     isColumnSelected (setColumnChecked selectedColumns fileName columnName checked)
                      fileName columnName = checked)
    /\ (forall fileName' columnName',
          fileName' <> fileName \/ columnName' <> columnName ->
          isColumnSelected (setColumnChecked selectedColumns fileName columnName checked)
                           fileName' columnName'
          = isColumnSelected selectedColumns fileName' columnName')
    /\ (selectedColumns !! fileName = None ->
        setColumnChecked selectedColumns fileName columnName checked
        = selectedColumns).
Proof.
  intros selectedColumns fileName columnName checked.
  unfold setColumnChecked, isColumnSelected.
  destruct (selectedColumns !! fileName) as [fileColumns |] eqn:Hfile.
  - split; [intros _ | split; [| intros H; discriminate H]].
    + destruct checked.
      * destruct (includesStr fileColumns columnName) eqn:Hin.
        -- rewrite Hfile. exact Hin.
        -- rewrite lookup_insert_eq, includesStr_app. cbn.
           rewrite String.eqb_refl. apply Bool.orb_true_r.
      * rewrite lookup_insert_eq, includesStr_filter_ne, String.eqb_refl. reflexivity.
    + intros fileName' columnName' Hother.
      destruct (decide (fileName' = fileName)) as [-> | Hdiff].
      * destruct Hother as [Hother | Hother]; [congruence |].
        apply String.eqb_neq in Hother. rewrite Hfile.
        destruct checked.
        -- destruct (includesStr fileColumns columnName); [rewrite Hfile; reflexivity |].
           rewrite lookup_insert_eq, includesStr_app. cbn.
           rewrite Hother. cbn. apply Bool.orb_false_r.
        -- rewrite lookup_insert_eq, includesStr_filter_ne, Hother. reflexivity.
      * destruct checked; [destruct (includesStr fileColumns columnName) |];
          rewrite ?lookup_insert_ne by congruence; reflexivity.
  - split; [intros [? H]; discriminate H | split; [| reflexivity]].
    intros fileName' columnName' _. reflexivity.
Qed.

(** X20 on a selection of one file. *)
Lemma setColumnChecked_isColumnSelected_witness :
  is_Some (({[ "may.csv" := [ "Hours" ] ]} : Selection) !! "may.csv")
  /\ isColumnSelected
       (setColumnChecked {[ "may.csv" := [ "Hours" ] ]} "may.csv" "Overtime" true)
       "may.csv" "Overtime" = true.
Proof.
  assert (Hsome : is_Some (({[ "may.csv" := [ "Hours" ] ]} : Selection) !! "may.csv")).
  { exists [ "Hours" ]. reflexivity. }
  split; [exact Hsome |].
  exact (proj1 (setColumnChecked_isColumnSelected
                  {[ "may.csv" := [ "Hours" ] ]} "may.csv" "Overtime" true) Hsome).
Defined.

(** X21: [setColumnChecked] keeps a selection free of repetitions, it
    is idempotent, and checking a column that was not selected and then
    unchecking it gives the selection back. *)
Theorem setColumnChecked_round_trip :
  forall (selectedColumns : Selection) (fileName columnName : string),
    (forall checked fileColumns fileColumns',
        selectedColumns !! fileName = Some fileColumns ->
        setColumnChecked selectedColumns fileName columnName checked !! fileName
        = Some fileColumns' ->
        NoDup fileColumns -> NoDup fileColumns')
    /\ (forall checked,
          setColumnChecked
            (setColumnChecked selectedColumns fileName columnName checked)
            fileName columnName checked
          = setColumnChecked selectedColumns fileName columnName checked)
    /\ (isColumnSelected selectedColumns fileName columnName = false ->
        setColumnChecked
          (setColumnChecked selectedColumns fileName columnName true)
          fileName columnName false
        = selectedColumns).
Proof.
  intros selectedColumns fileName columnName. split; [| split].
  - intros checked fileColumns fileColumns' Hfile Hafter Hnd.
    unfold setColumnChecked in Hafter. rewrite Hfile in Hafter.
    destruct checked.
    + destruct (includesStr fileColumns columnName) eqn:Hin.
      * rewrite Hfile in Hafter. injection Hafter as <-. exact Hnd.
      * rewrite lookup_insert_eq in Hafter. injection Hafter as <-.
        apply NoDup_app. split; [exact Hnd |]. split; [| apply NoDup_singleton].
        intros x Hx Hx'. apply list_elem_of_singleton in Hx'. subst x.
        apply includesStr_spec in Hx. congruence.
    + rewrite lookup_insert_eq in Hafter. injection Hafter as <-.
      apply NoDup_filter_list. exact Hnd.
  - intros checked. unfold setColumnChecked.
    destruct (selectedColumns !! fileName) as [fileColumns |] eqn:Hfile;
      [| rewrite Hfile; reflexivity].
    destruct checked.
    + destruct (includesStr fileColumns columnName) eqn:Hin.
      * rewrite Hfile, Hin. reflexivity.
      * rewrite lookup_insert_eq, includesStr_app. cbn.
        rewrite String.eqb_refl, Bool.orb_true_r. reflexivity.
    + rewrite lookup_insert_eq, insert_insert_eq. f_equal.
      apply filter_ne_absent. rewrite includesStr_filter_ne, String.eqb_refl.
      reflexivity.
  - unfold isColumnSelected, setColumnChecked.
    destruct (selectedColumns !! fileName) as [fileColumns |] eqn:Hfile;
      [| intros _; rewrite Hfile; reflexivity].
    intros Hin. rewrite Hin, lookup_insert_eq, insert_insert_eq.
    rewrite List.filter_app. cbn [List.filter]. rewrite String.eqb_refl. cbn [negb].
    rewrite app_nil_r, filter_ne_absent by exact Hin.
    apply insert_id. exact Hfile.
Qed.

(** X21 on a selection of one file. *)
Lemma setColumnChecked_round_trip_witness :
  isColumnSelected {[ "may.csv" := [ "Hours" ] ]} "may.csv" "Overtime" = false
  /\ setColumnChecked
       (setColumnChecked {[ "may.csv" := [ "Hours" ] ]} "may.csv" "Overtime" true)
       "may.csv" "Overtime" false
     = {[ "may.csv" := [ "Hours" ] ]}.
Proof.
  assert (Hnot : isColumnSelected {[ "may.csv" := [ "Hours" ] ]} "may.csv" "Overtime"
                 = false) by reflexivity.
  split; [exact Hnot |].
  exact (proj2 (proj2 (setColumnChecked_round_trip
                         {[ "may.csv" := [ "Hours" ] ]} "may.csv" "Overtime")) Hnot).
Defined.

(** X22: the initial selection of a file name is the list of suggested
    columns of the last file of that name, and there is none for a name
    that no file has. *)
Theorem initialSelection_lookup :
  forall (files : list ParsedCSV) (name : string),
    initialSelection files !! name
    = suggestedColumns
        <$> last (List.filter (fun f => String.eqb (fileName f) name) files).
Proof.
  intros files name. unfold initialSelection.
  assert (Hgen : forall (acc : Selection),
    fold_left (fun selectedColumns file =>
                 <[fileName file := suggestedColumns file]> selectedColumns)
              files acc !! name
    = match last (List.filter (fun f => String.eqb (fileName f) name) files) with
      | Some f => Some (suggestedColumns f)
      | None => acc !! name
      end).
  { induction files as [| file files IH]; intros acc; [reflexivity |].
    cbn [fold_left List.filter]. rewrite IH.
    destruct (String.eqb (fileName file) name) eqn:Hname.
    - apply String.eqb_eq in Hname. rewrite last_cons.
      destruct (last (List.filter _ files)); [reflexivity |].
      rewrite Hname. apply lookup_insert_eq.
    - apply String.eqb_neq in Hname.
      destruct (last (List.filter _ files)); [reflexivity |].
      apply lookup_insert_ne. exact Hname. }
  rewrite Hgen. destruct (last _); [reflexivity | apply lookup_empty].
Qed.

(* ===================================================================== *)
(** * Properties of the file names *)
(* ===================================================================== *)

Lemma append_nil_l (s : string) : "" +:+ s = s.
Proof. reflexivity. Qed.

Lemma append_cons (ch : ascii) (a b : string) :
  String ch a +:+ b = String ch (a +:+ b).
Proof. reflexivity. Qed.

Lemma toLowerCase_app (a b : string) :
  Str.toLowerCase (a +:+ b) = Str.toLowerCase a +:+ Str.toLowerCase b.
Proof.
  induction a as [| ch a IH]; [reflexivity |].
  rewrite append_cons. cbn [Str.toLowerCase]. rewrite IH. reflexivity.
Qed.

Lemma toLowerCase_length (a : string) :
  String.length (Str.toLowerCase a) = String.length a.
Proof.
  induction a as [| ch a IH]; cbn [Str.toLowerCase String.length];
    [reflexivity | rewrite IH; reflexivity].
Qed.

(** [endsWith] holds of the strings [stem ++ p]. *)
Lemma endsWith_spec (s p : string) :
  Str.endsWith s p = true <-> exists stem, s = stem +:+ p.
Proof.
  induction s as [| ch s IH]; cbn [Str.endsWith].
  - rewrite Bool.orb_false_r, String.eqb_eq. split.
    + intros <-. exists "". reflexivity.
    + intros (stem & H). destruct stem as [| ch' stem].
      * rewrite append_nil_l in H. exact H.
      * rewrite append_cons in H. discriminate H.
  - rewrite Bool.orb_true_iff, String.eqb_eq, IH. split.
    + intros [<- | (stem & ->)]; [exists ""; reflexivity |].
      exists (String ch stem). reflexivity.
    + intros (stem & H). destruct stem as [| ch' stem].
      * left. rewrite append_nil_l in H. exact H.
      * right. rewrite append_cons in H. injection H as _ ->.
        exists stem. reflexivity.
Qed.

(** The lower-cased name ends with [p] when the name is a stem followed
    by an extension that is [p] up to case. *)
Lemma endsWith_toLowerCase (s p : string) :
  Str.endsWith (Str.toLowerCase s) p = true <->
  exists stem ext, s = stem +:+ ext /\ Str.toLowerCase ext = p.
Proof.
  induction s as [| ch s IH]; cbn [Str.toLowerCase Str.endsWith].
  - rewrite Bool.orb_false_r, String.eqb_eq. split.
    + intros <-. exists "", "". auto.
    + intros (stem & ext & H & <-). destruct stem as [| ch' stem].
      * rewrite append_nil_l in H. subst ext. reflexivity.
      * rewrite append_cons in H. discriminate H.
  - rewrite Bool.orb_true_iff, String.eqb_eq, IH. split.
    + intros [<- | (stem & ext & -> & <-)].
      * exists "", (String ch s). auto.
      * exists (String ch stem), ext. auto.
    + intros (stem & ext & H & <-). destruct stem as [| ch' stem].
      * left. rewrite append_nil_l in H. subst ext. reflexivity.
      * right. rewrite append_cons in H. injection H as _ ->.
        exists stem, ext. auto.
Qed.

Lemma csv_not_xlsx (a b : string) : a +:+ ".csv" <> b +:+ ".xlsx".
Proof.
  intros H. apply (f_equal (fun x => String.get (String.length x - 4)%nat x)) in H.
  revert H. rewrite !append_length. cbn [String.length].
  replace (String.length a + 4 - 4)%nat with (0 + String.length a)%nat by lia.
  replace (String.length b + 5 - 4)%nat with (1 + String.length b)%nat by lia.
  rewrite <- !append_correct2. cbn. discriminate.
Qed.

(** The replacement rewrites the one suffix that matches. *)
Lemma convertedFileName_match (stem ext : string) :
  matchesExtension ext = true ->
  convertedFileName (stem +:+ ext) = stem +:+ "_converted" +:+ ext.
Proof.
  intros Hext. induction stem as [| ch stem IH].
  - rewrite !append_nil_l. destruct ext; cbn [convertedFileName];
      rewrite Hext; reflexivity.
  - rewrite !append_cons. cbn [convertedFileName].
    destruct (matchesExtension (String ch (stem +:+ ext))) eqn:Hhere.
    + exfalso. unfold matchesExtension in Hext, Hhere.
      rewrite <- append_cons, toLowerCase_app in Hhere.
      rewrite Bool.orb_true_iff, !String.eqb_eq in Hext, Hhere.
      destruct Hext as [Hext | Hext]; rewrite Hext in Hhere;
        destruct Hhere as [Hhere | Hhere].
      * apply (f_equal String.length) in Hhere.
        rewrite append_length in Hhere. cbn in Hhere. lia.
      * exact (csv_not_xlsx _ "" Hhere).
      * symmetry in Hhere. exact (csv_not_xlsx "" _ Hhere).
      * apply (f_equal String.length) in Hhere.
        rewrite append_length in Hhere. cbn in Hhere. lia.
    + rewrite IH. reflexivity.
Qed.

Lemma convertedFileName_no_match (s : string) :
  (forall stem ext, s = stem +:+ ext -> matchesExtension ext = false) ->
  convertedFileName s = s.
Proof.
  induction s as [| ch s IH]; intros Hno.
  - cbn [convertedFileName]. rewrite (Hno "" "" eq_refl). reflexivity.
  - cbn [convertedFileName]. rewrite (Hno "" (String ch s) eq_refl).
    rewrite IH; [reflexivity |].
    intros stem ext ->. apply (Hno (String ch stem) ext). reflexivity.
Qed.

(** X23: the files [handleAnalyze] accepts are the files [handleConvert]
    renames. A name is accepted when it is a stem followed by ".csv" or
    ".xlsx" in any case; the converted name is then the stem,
    "_converted" and the extension as it was written, and the file is
    written as XLSX when it was read as XLSX; a name that is not
    accepted would be left as it is. *)
Theorem convertedFileName_spec :
  forall name : string,
    (forall t, fileTypeOf name = Some t ->
       exists stem ext,
         name = stem +:+ ext
         /\ Str.toLowerCase ext = match t with CSVFile => ".csv" | XLSXFile => ".xlsx" end
         /\ convertedFileName name = stem +:+ "_converted" +:+ ext
         /\ exportType name = t)
    /\ (fileTypeOf name = None -> convertedFileName name = name).
Proof.
  intros name. unfold fileTypeOf, exportType.
  destruct (Str.endsWith (Str.toLowerCase name) ".csv") eqn:Hcsv.
  - split; [| intros H; discriminate H]. intros t Ht. injection Ht as <-.
    apply endsWith_toLowerCase in Hcsv as (stem & ext & -> & Hext).
    exists stem, ext. split; [reflexivity |]. split; [exact Hext |]. split.
    + apply convertedFileName_match. unfold matchesExtension. rewrite Hext. reflexivity.
    + destruct (Str.endsWith _ ".xlsx") eqn:Hxlsx; [| reflexivity].
      apply endsWith_spec in Hxlsx as (stem' & Hxlsx).
      rewrite toLowerCase_app, Hext in Hxlsx.
      exfalso. exact (csv_not_xlsx _ _ Hxlsx).
  - destruct (Str.endsWith (Str.toLowerCase name) ".xlsx") eqn:Hxlsx.
    + split; [| intros H; discriminate H]. intros t Ht. injection Ht as <-.
      apply endsWith_toLowerCase in Hxlsx as (stem & ext & -> & Hext).
      exists stem, ext. split; [reflexivity |]. split; [exact Hext |].
      split; [| reflexivity].
      apply convertedFileName_match. unfold matchesExtension. rewrite Hext.
      apply Bool.orb_true_r.
    + split; [intros t H; discriminate H |]. intros _.
      apply convertedFileName_no_match. intros stem ext ->.
      unfold matchesExtension. apply Bool.orb_false_intro; apply String.eqb_neq; intros Hext.
      * assert (H : Str.endsWith (Str.toLowerCase (stem +:+ ext)) ".csv" = true)
          by (apply endsWith_toLowerCase; eauto).
        congruence.
      * assert (H : Str.endsWith (Str.toLowerCase (stem +:+ ext)) ".xlsx" = true)
          by (apply endsWith_toLowerCase; eauto).
        congruence.
Qed.

(** X23 on "Report.May.XLSX". *)
Lemma convertedFileName_spec_witness :
  fileTypeOf "Report.May.XLSX" = Some XLSXFile
  /\ exists stem ext,
       "Report.May.XLSX" = stem +:+ ext
       /\ Str.toLowerCase ext = ".xlsx"
       /\ convertedFileName "Report.May.XLSX" = stem +:+ "_converted" +:+ ext
       /\ exportType "Report.May.XLSX" = XLSXFile.
Proof.
  assert (Htype : fileTypeOf "Report.May.XLSX" = Some XLSXFile) by reflexivity.
  split; [exact Htype |].
  exact (proj1 (convertedFileName_spec "Report.May.XLSX") XLSXFile Htype).
Defined.
